(** * synapse32: the formal-verification matrix generator and suite runner

    A shallow embedding of [formal/generate_instruction_tests.py] and
    [formal/run_verification_suite.py], followed by the properties of the
    two scripts.

    Modelling conventions.
    - A Python [str] is a [string]; every string the scripts build from is
      ASCII, so byte positions and character positions agree.
    - A [pathlib.Path] is the list of its components.
    - The file system is a finite map from paths to nodes; [open(p, 'w')]
      and [mkdir(exist_ok=True)] fail for the structural reasons the
      operating system has, or because the environment refuses the path.
    - A raised exception is a value of [exn]; fallible code returns
      [exn + A].  [print] appends one string per call to the output.
    - Python floats (durations, percentages) are kept behind the interface
      [FloatOps]: nothing is assumed about their arithmetic.
    - The external tool [sby] is an oracle giving the behaviour of one
      process; the order in which pooled jobs complete is a schedule. *)

From Stdlib Require Import ZArith QArith Qround List Permutation Ascii String.
From stdpp Require Import gmap strings list pretty.

Open Scope string_scope.
Open Scope list_scope.

Set Warnings "-clear-no-such-hyp".

(** ** Python strings *)

Module Py.

Definition LF : string := String "010"%char "".

(** [s.upper()] on ASCII text. *)
Definition upper_ascii (c : ascii) : ascii :=
  let n := nat_of_ascii c in
  if (97 <=? n)%nat && (n <=? 122)%nat then ascii_of_nat (n - 32) else c.

Fixpoint upper (s : string) : string :=
  match s with
  | EmptyString => EmptyString
  | String c s' => String (upper_ascii c) (upper s')
  end.

Fixpoint spaces (n : nat) : string :=
  match n with
  | O => ""
  | S n' => String " "%char (spaces n')
  end.

(** [f"{s:<w}"], and [f"{s:w}"] for a string [s]. *)
Definition ljust (w : nat) (s : string) : string :=
  s +:+ spaces (w - String.length s).

(** [f"{n:w}"] for an integer [n]. *)
Definition rjust (w : nat) (s : string) : string :=
  spaces (w - String.length s) +:+ s.

Definition str_nat (n : nat) : string := pretty n.
Definition str_Z (n : Z) : string := pretty n.

(** [s.endswith(suf)] *)
Definition endswith (suf s : string) : bool :=
  (String.length suf <=? String.length s)%nat &&
  String.eqb (substring (String.length s - String.length suf) (String.length suf) s) suf.

(** [s.rfind('.')], as an option. *)
Fixpoint rfind_dot (s : string) (i : nat) (last_seen : option nat) : option nat :=
  match s with
  | EmptyString => last_seen
  | String c s' =>
      rfind_dot s' (S i) (if Ascii.eqb c "."%char then Some i else last_seen)
  end.

(** [s[:n]] *)
Definition take_chars (n : nat) (s : string) : string := substring 0 n s.

(** ["\n".join(l)] *)
Fixpoint join (sep : string) (l : list string) : string :=
  match l with
  | [] => ""
  | [x] => x
  | x :: rest => x +:+ sep +:+ join sep rest
  end.

(** Concatenation of newline-terminated lines: the value of a triple-quoted
    literal whose closing quotes stand on a line of their own. *)
Fixpoint unlines (l : list string) : string :=
  match l with
  | [] => ""
  | x :: rest => x +:+ LF +:+ unlines rest
  end.

(** Truth value of a string, a list and an optional list. *)
Definition truthy_str (s : string) : bool :=
  match s with EmptyString => false | _ => true end.

Definition truthy_list {A} (l : list A) : bool :=
  match l with [] => false | _ => true end.

(** [a or b] on strings *)
Definition str_or (a b : string) : string := if truthy_str a then a else b.

End Py.

Import Py.

(** ** Paths, exceptions and the file system *)

Abbreviation Path := (list string).

Definition path_div (p : Path) (child : string) : Path := p ++ [child].
Infix "//" := path_div (at level 40, left associativity).

Definition path_parent (p : Path) : Path := removelast p.
Definition path_name (p : Path) : string := List.last p "".

(** [p.stem]: the name without its last suffix; a leading or a final dot
    starts no suffix. *)
Definition path_stem (p : Path) : string :=
  let name := path_name p in
  match rfind_dot name 0 None with
  | Some i =>
      if (0 <? i)%nat && (i <? String.length name - 1)%nat
      then take_chars i name else name
  | None => name
  end.

(** [str(p)] *)
Definition path_str (p : Path) : string := join "/" p.

Inductive exn : Type :=
  | TimeoutExpired                 (* subprocess.TimeoutExpired *)
  | ImportError (msg : string)
  | KeyError (key : string)
  | ValueError (msg : string)
  | OSError (msg : string).        (* FileNotFoundError, PermissionError, ...;
                                      only the text of the exception is used *)

(** [str(e)] *)
Definition str_exn (e : exn) : string :=
  match e with
  | TimeoutExpired => "Command timed out"     (* abridged; never printed *)
  | ImportError m => m
  | KeyError k => "'" +:+ k +:+ "'"
  | ValueError m => m
  | OSError m => m
  end.

Inductive node : Type :=
  | Dir
  | File (content : string).

#[global] Instance node_eq_dec : EqDecision node.
Proof. solve_decision. Defined.

Abbreviation fs := (gmap Path node).

Definition is_dir (st : fs) (p : Path) : bool :=
  match st !! p with Some Dir => true | _ => false end.

(** [p.exists()] *)
Definition path_exists (st : fs) (p : Path) : bool :=
  match st !! p with Some _ => true | None => false end.

Section FileOps.

(** What the environment allows beyond the structure of the tree
    (permissions, quota): [permits p = false] makes creating or opening
    [p] for writing fail. *)
Variable permits : Path -> bool.

(** What happens to a file once it is open for writing:
    [write_fault p = Some (n, msg)] makes writing to [p] (or flushing and
    closing it) fail with [OSError msg] when [n] characters of the text
    have reached the file (no space left, an input/output error);
    [None] lets the whole text through. *)
Variable write_fault : Path -> option (nat * string).

(** [p.mkdir(exist_ok=True)] *)
Definition mkdir (p : Path) (st : fs) : exn + fs :=
  match st !! p with
  | Some Dir => inr st
  | Some (File _) => inl (OSError ("[Errno 17] File exists: '" +:+ path_str p +:+ "'"))
  | None =>
      if negb (is_dir st (path_parent p))
      then inl (OSError ("[Errno 2] No such file or directory: '" +:+ path_str p +:+ "'"))
      else if negb (permits p)
      then inl (OSError ("[Errno 13] Permission denied: '" +:+ path_str p +:+ "'"))
      else inr (<[p := Dir]> st)
  end.

(** Whether [open(p, 'w')] succeeds. *)
Definition can_write (st : fs) (p : Path) : bool :=
  negb (is_dir st p) && is_dir st (path_parent p) && permits p.

(** What a file opened for writing holds when the [with] block is left:
    the text, or the part of it that reached the file before the fault. *)
Definition written_text (p : Path) (content : string) : string :=
  match write_fault p with
  | Some (n, _) => take_chars n content
  | None => content
  end.

(** [with open(p, 'w') as f: f.write(content)]: the exception raised, if
    any, and the tree left.  When [open] fails the tree is as it was;
    once [open] has succeeded the file exists, emptied, also when the
    writing then fails. *)
Definition write_file (p : Path) (content : string) (st : fs) : option exn * fs :=
  if is_dir st p
  then (Some (OSError ("[Errno 21] Is a directory: '" +:+ path_str p +:+ "'")), st)
  else if negb (is_dir st (path_parent p))
  then (Some (OSError ("[Errno 2] No such file or directory: '" +:+ path_str p +:+ "'")), st)
  else if negb (permits p)
  then (Some (OSError ("[Errno 13] Permission denied: '" +:+ path_str p +:+ "'")), st)
  else
    let st' := <[p := File (written_text p content)]> st in
    match write_fault p with
    | Some (_, msg) => (Some (OSError msg), st')
    | None => (None, st')
    end.

End FileOps.

(** ** The matrix generator, [generate_instruction_tests.py] *)

Module Generator.

(** RV32I Base Instruction Set *)
Definition RV32I_INSTRUCTIONS : list (string * string) :=
  [ ("add", "R-type arithmetic");
    ("sub", "R-type arithmetic");
    ("addi", "I-type arithmetic");
    ("lui", "U-type load upper immediate");
    ("auipc", "U-type add upper immediate to PC");
    ("and", "R-type logical");
    ("or", "R-type logical");
    ("xor", "R-type logical");
    ("andi", "I-type logical");
    ("ori", "I-type logical");
    ("xori", "I-type logical");
    ("sll", "R-type shift left logical");
    ("srl", "R-type shift right logical");
    ("sra", "R-type shift right arithmetic");
    ("slli", "I-type shift left logical immediate");
    ("srli", "I-type shift right logical immediate");
    ("srai", "I-type shift right arithmetic immediate");
    ("slt", "R-type set less than");
    ("sltu", "R-type set less than unsigned");
    ("slti", "I-type set less than immediate");
    ("sltiu", "I-type set less than immediate unsigned");
    ("lb", "I-type load byte");
    ("lh", "I-type load halfword");
    ("lw", "I-type load word");
    ("lbu", "I-type load byte unsigned");
    ("lhu", "I-type load halfword unsigned");
    ("sb", "S-type store byte");
    ("sh", "S-type store halfword");
    ("sw", "S-type store word");
    ("beq", "B-type branch equal");
    ("bne", "B-type branch not equal");
    ("blt", "B-type branch less than");
    ("bge", "B-type branch greater equal");
    ("bltu", "B-type branch less than unsigned");
    ("bgeu", "B-type branch greater equal unsigned");
    ("jal", "J-type jump and link");
    ("jalr", "I-type jump and link register") ].

(** System-level verification checks *)
Definition SYSTEM_CHECKS : list (string * string) :=
  [ ("reg", "Register file verification");
    ("pc_fwd", "PC forward progression verification");
    ("pc_bwd", "PC backward verification");
    ("dmem", "Data memory consistency");
    ("imem", "Instruction memory consistency");
    ("insn", "General instruction verification");
    ("ill", "Illegal instruction handling");
    ("hang", "Hang detection");
    ("causal", "Causality verification");
    ("unique", "Unique instruction verification");
    ("liveness", "Liveness verification") ].

(** Coverage and integration tests *)
Definition INTEGRATION_CHECKS : list (string * string) :=
  [ ("rv32i", "Complete RV32I ISA verification");
    ("cover", "Coverage analysis");
    ("fault", "Fault injection testing") ].

(** The three f-string templates, one list element per line of the
    literal. *)
Definition instruction_config_lines (instruction : string) : list string :=
  [
    "[options]";
    "mode prove";
    "expect pass";
    "depth 20";
    "wait on";
    "";
    "[engines]";
    "smtbmc boolector";
    "";
    "[script]";
    "# --- Design files with instruction-specific defines ---";
    "read_verilog -DFORMAL -DRISCV_FORMAL_NRET=1 -DRISCV_FORMAL_ILEN=32 -DRISCV_FORMAL_XLEN=32 -DRISCV_FORMAL_INSN_MODEL=rvfi_insn_" +:+ instruction +:+ " -DRISCV_FORMAL_CHANNEL_IDX=0 /Users/lazybanana/github/synapse32/rtl/top.v";
    "read_verilog -DFORMAL -DRISCV_FORMAL_NRET=1 -DRISCV_FORMAL_ILEN=32 -DRISCV_FORMAL_XLEN=32 -DRISCV_FORMAL_INSN_MODEL=rvfi_insn_" +:+ instruction +:+ " -DRISCV_FORMAL_CHANNEL_IDX=0 /Users/lazybanana/github/synapse32/rtl/riscv_cpu.v";
    "read_verilog -DFORMAL -DRISCV_FORMAL_NRET=1 -DRISCV_FORMAL_ILEN=32 -DRISCV_FORMAL_XLEN=32 -DRISCV_FORMAL_INSN_MODEL=rvfi_insn_" +:+ instruction +:+ " -DRISCV_FORMAL_CHANNEL_IDX=0 /Users/lazybanana/github/synapse32/rtl/data_mem.v";
    "read_verilog -DFORMAL -DRISCV_FORMAL_NRET=1 -DRISCV_FORMAL_ILEN=32 -DRISCV_FORMAL_XLEN=32 -DRISCV_FORMAL_INSN_MODEL=rvfi_insn_" +:+ instruction +:+ " -DRISCV_FORMAL_CHANNEL_IDX=0 /Users/lazybanana/github/synapse32/rtl/execution_unit.v";
    "read_verilog -DFORMAL -DRISCV_FORMAL_NRET=1 -DRISCV_FORMAL_ILEN=32 -DRISCV_FORMAL_XLEN=32 -DRISCV_FORMAL_INSN_MODEL=rvfi_insn_" +:+ instruction +:+ " -DRISCV_FORMAL_CHANNEL_IDX=0 /Users/lazybanana/github/synapse32/rtl/instr_mem.v";
    "read_verilog -DFORMAL -DRISCV_FORMAL_NRET=1 -DRISCV_FORMAL_ILEN=32 -DRISCV_FORMAL_XLEN=32 -DRISCV_FORMAL_INSN_MODEL=rvfi_insn_" +:+ instruction +:+ " -DRISCV_FORMAL_CHANNEL_IDX=0 /Users/lazybanana/github/synapse32/rtl/memory_unit.v";
    "read_verilog -DFORMAL -DRISCV_FORMAL_NRET=1 -DRISCV_FORMAL_ILEN=32 -DRISCV_FORMAL_XLEN=32 -DRISCV_FORMAL_INSN_MODEL=rvfi_insn_" +:+ instruction +:+ " -DRISCV_FORMAL_CHANNEL_IDX=0 /Users/lazybanana/github/synapse32/rtl/seven_seg.v";
    "read_verilog -DFORMAL -DRISCV_FORMAL_NRET=1 -DRISCV_FORMAL_ILEN=32 -DRISCV_FORMAL_XLEN=32 -DRISCV_FORMAL_INSN_MODEL=rvfi_insn_" +:+ instruction +:+ " -DRISCV_FORMAL_CHANNEL_IDX=0 /Users/lazybanana/github/synapse32/rtl/writeback.v";
    "";
    "# Core modules";
    "read_verilog -DFORMAL -DRISCV_FORMAL_NRET=1 -DRISCV_FORMAL_ILEN=32 -DRISCV_FORMAL_XLEN=32 -DRISCV_FORMAL_INSN_MODEL=rvfi_insn_" +:+ instruction +:+ " -DRISCV_FORMAL_CHANNEL_IDX=0 /Users/lazybanana/github/synapse32/rtl/core_modules/alu.v";
    "read_verilog -DFORMAL -DRISCV_FORMAL_NRET=1 -DRISCV_FORMAL_ILEN=32 -DRISCV_FORMAL_XLEN=32 -DRISCV_FORMAL_INSN_MODEL=rvfi_insn_" +:+ instruction +:+ " -DRISCV_FORMAL_CHANNEL_IDX=0 /Users/lazybanana/github/synapse32/rtl/core_modules/csr_exec.v";
    "read_verilog -DFORMAL -DRISCV_FORMAL_NRET=1 -DRISCV_FORMAL_ILEN=32 -DRISCV_FORMAL_XLEN=32 -DRISCV_FORMAL_INSN_MODEL=rvfi_insn_" +:+ instruction +:+ " -DRISCV_FORMAL_CHANNEL_IDX=0 /Users/lazybanana/github/synapse32/rtl/core_modules/csr_file.v";
    "read_verilog -DFORMAL -DRISCV_FORMAL_NRET=1 -DRISCV_FORMAL_ILEN=32 -DRISCV_FORMAL_XLEN=32 -DRISCV_FORMAL_INSN_MODEL=rvfi_insn_" +:+ instruction +:+ " -DRISCV_FORMAL_CHANNEL_IDX=0 /Users/lazybanana/github/synapse32/rtl/core_modules/decoder.v";
    "read_verilog -DFORMAL -DRISCV_FORMAL_NRET=1 -DRISCV_FORMAL_ILEN=32 -DRISCV_FORMAL_XLEN=32 -DRISCV_FORMAL_INSN_MODEL=rvfi_insn_" +:+ instruction +:+ " -DRISCV_FORMAL_CHANNEL_IDX=0 /Users/lazybanana/github/synapse32/rtl/core_modules/interrupt_controller.v";
    "read_verilog -DFORMAL -DRISCV_FORMAL_NRET=1 -DRISCV_FORMAL_ILEN=32 -DRISCV_FORMAL_XLEN=32 -DRISCV_FORMAL_INSN_MODEL=rvfi_insn_" +:+ instruction +:+ " -DRISCV_FORMAL_CHANNEL_IDX=0 /Users/lazybanana/github/synapse32/rtl/core_modules/pc.v";
    "read_verilog -DFORMAL -DRISCV_FORMAL_NRET=1 -DRISCV_FORMAL_ILEN=32 -DRISCV_FORMAL_XLEN=32 -DRISCV_FORMAL_INSN_MODEL=rvfi_insn_" +:+ instruction +:+ " -DRISCV_FORMAL_CHANNEL_IDX=0 /Users/lazybanana/github/synapse32/rtl/core_modules/registerfile.v";
    "read_verilog -DFORMAL -DRISCV_FORMAL_NRET=1 -DRISCV_FORMAL_ILEN=32 -DRISCV_FORMAL_XLEN=32 -DRISCV_FORMAL_INSN_MODEL=rvfi_insn_" +:+ instruction +:+ " -DRISCV_FORMAL_CHANNEL_IDX=0 /Users/lazybanana/github/synapse32/rtl/core_modules/timer.v";
    "read_verilog -DFORMAL -DRISCV_FORMAL_NRET=1 -DRISCV_FORMAL_ILEN=32 -DRISCV_FORMAL_XLEN=32 -DRISCV_FORMAL_INSN_MODEL=rvfi_insn_" +:+ instruction +:+ " -DRISCV_FORMAL_CHANNEL_IDX=0 /Users/lazybanana/github/synapse32/rtl/core_modules/uart.v";
    "";
    "# Pipeline stages";
    "read_verilog -DFORMAL -DRISCV_FORMAL_NRET=1 -DRISCV_FORMAL_ILEN=32 -DRISCV_FORMAL_XLEN=32 -DRISCV_FORMAL_INSN_MODEL=rvfi_insn_" +:+ instruction +:+ " -DRISCV_FORMAL_CHANNEL_IDX=0 /Users/lazybanana/github/synapse32/rtl/pipeline_stages/EX_MEM.v";
    "read_verilog -DFORMAL -DRISCV_FORMAL_NRET=1 -DRISCV_FORMAL_ILEN=32 -DRISCV_FORMAL_XLEN=32 -DRISCV_FORMAL_INSN_MODEL=rvfi_insn_" +:+ instruction +:+ " -DRISCV_FORMAL_CHANNEL_IDX=0 /Users/lazybanana/github/synapse32/rtl/pipeline_stages/forwarding_unit.v";
    "read_verilog -DFORMAL -DRISCV_FORMAL_NRET=1 -DRISCV_FORMAL_ILEN=32 -DRISCV_FORMAL_XLEN=32 -DRISCV_FORMAL_INSN_MODEL=rvfi_insn_" +:+ instruction +:+ " -DRISCV_FORMAL_CHANNEL_IDX=0 /Users/lazybanana/github/synapse32/rtl/pipeline_stages/ID_EX.v";
    "read_verilog -DFORMAL -DRISCV_FORMAL_ILEN=32 -DRISCV_FORMAL_XLEN=32 -DRISCV_FORMAL_INSN_MODEL=rvfi_insn_" +:+ instruction +:+ " -DRISCV_FORMAL_CHANNEL_IDX=0 /Users/lazybanana/github/synapse32/rtl/pipeline_stages/IF_ID.v";
    "read_verilog -DFORMAL -DRISCV_FORMAL_NRET=1 -DRISCV_FORMAL_ILEN=32 -DRISCV_FORMAL_XLEN=32 -DRISCV_FORMAL_INSN_MODEL=rvfi_insn_" +:+ instruction +:+ " -DRISCV_FORMAL_CHANNEL_IDX=0 /Users/lazybanana/github/synapse32/rtl/pipeline_stages/load_use_detector.v";
    "read_verilog -DFORMAL -DRISCV_FORMAL_NRET=1 -DRISCV_FORMAL_ILEN=32 -DRISCV_FORMAL_XLEN=32 -DRISCV_FORMAL_INSN_MODEL=rvfi_insn_" +:+ instruction +:+ " -DRISCV_FORMAL_CHANNEL_IDX=0 /Users/lazybanana/github/synapse32/rtl/pipeline_stages/MEM_WB.v";
    "read_verilog -DFORMAL -DRISCV_FORMAL_NRET=1 -DRISCV_FORMAL_ILEN=32 -DRISCV_FORMAL_XLEN=32 -DRISCV_FORMAL_INSN_MODEL=rvfi_insn_" +:+ instruction +:+ " -DRISCV_FORMAL_CHANNEL_IDX=0 /Users/lazybanana/github/synapse32/rtl/pipeline_stages/store_load_detector.v";
    "read_verilog -DFORMAL -DRISCV_FORMAL_NRET=1 -DRISCV_FORMAL_ILEN=32 -DRISCV_FORMAL_XLEN=32 -DRISCV_FORMAL_INSN_MODEL=rvfi_insn_" +:+ instruction +:+ " -DRISCV_FORMAL_CHANNEL_IDX=0 /Users/lazybanana/github/synapse32/rtl/pipeline_stages/store_load_forward.v";
    "";
    "# Include files";
    "read_verilog -DFORMAL -DRISCV_FORMAL_NRET=1 -DRISCV_FORMAL_ILEN=32 -DRISCV_FORMAL_XLEN=32 -DRISCV_FORMAL_INSN_MODEL=rvfi_insn_" +:+ instruction +:+ " -DRISCV_FORMAL_CHANNEL_IDX=0 /Users/lazybanana/github/synapse32/rtl/include/instr_defines.vh";
    "read_verilog -DFORMAL -DRISCV_FORMAL_NRET=1 -DRISCV_FORMAL_ILEN=32 -DRISCV_FORMAL_XLEN=32 -DRISCV_FORMAL_INSN_MODEL=rvfi_insn_" +:+ instruction +:+ " -DRISCV_FORMAL_CHANNEL_IDX=0 /Users/lazybanana/github/synapse32/rtl/include/memory_map.vh";
    "";
    "# riscv-formal checks for " +:+ upper instruction +:+ " instruction";
    "read_verilog -sv -formal -DFORMAL -DRISCV_FORMAL_NRET=1 -DRISCV_FORMAL_ILEN=32 -DRISCV_FORMAL_XLEN=32 -DRISCV_FORMAL_INSN_MODEL=rvfi_insn_" +:+ instruction +:+ " -DRISCV_FORMAL_CHANNEL_IDX=0 /Users/lazybanana/github/synapse32/riscv-formal/checks/rvfi_macros.vh";
    "read_verilog -sv -formal -DFORMAL -DRISCV_FORMAL_NRET=1 -DRISCV_FORMAL_ILEN=32 -DRISCV_FORMAL_XLEN=32 -DRISCV_FORMAL_INSN_MODEL=rvfi_insn_" +:+ instruction +:+ " -DRISCV_FORMAL_CHANNEL_IDX=0 /Users/lazybanana/github/synapse32/riscv-formal/insns/insn_" +:+ instruction +:+ ".v";
    "read_verilog -sv -formal -DFORMAL -DRISCV_FORMAL_NRET=1 -DRISCV_FORMAL_ILEN=32 -DRISCV_FORMAL_XLEN=32 -DRISCV_FORMAL_INSN_MODEL=rvfi_insn_" +:+ instruction +:+ " -DRISCV_FORMAL_CHANNEL_IDX=0 /Users/lazybanana/github/synapse32/riscv-formal/checks/rvfi_insn_check.sv";
    "";
    "# Synthesis passes";
    "hierarchy -top top";
    "proc";
    "opt";
    "memory -nomap";
    "flatten";
    "setundef -undriven -anyseq";
    "check";
    "stat";
    "";
    "[files]";
    "/Users/lazybanana/github/synapse32/rtl/top.v";
    "/Users/lazybanana/github/synapse32/rtl/riscv_cpu.v";
    "/Users/lazybanana/github/synapse32/rtl/data_mem.v";
    "/Users/lazybanana/github/synapse32/rtl/execution_unit.v";
    "/Users/lazybanana/github/synapse32/rtl/instr_mem.v";
    "/Users/lazybanana/github/synapse32/rtl/memory_unit.v";
    "/Users/lazybanana/github/synapse32/rtl/seven_seg.v";
    "/Users/lazybanana/github/synapse32/rtl/writeback.v";
    "/Users/lazybanana/github/synapse32/rtl/core_modules/alu.v";
    "/Users/lazybanana/github/synapse32/rtl/core_modules/csr_exec.v";
    "/Users/lazybanana/github/synapse32/rtl/core_modules/csr_file.v";
    "/Users/lazybanana/github/synapse32/rtl/core_modules/decoder.v";
    "/Users/lazybanana/github/synapse32/rtl/core_modules/interrupt_controller.v";
    "/Users/lazybanana/github/synapse32/rtl/core_modules/pc.v";
    "/Users/lazybanana/github/synapse32/rtl/core_modules/registerfile.v";
    "/Users/lazybanana/github/synapse32/rtl/core_modules/timer.v";
    "/Users/lazybanana/github/synapse32/rtl/core_modules/uart.v";
    "/Users/lazybanana/github/synapse32/rtl/pipeline_stages/EX_MEM.v";
    "/Users/lazybanana/github/synapse32/rtl/pipeline_stages/forwarding_unit.v";
    "/Users/lazybanana/github/synapse32/rtl/pipeline_stages/ID_EX.v";
    "/Users/lazybanana/github/synapse32/rtl/pipeline_stages/IF_ID.v";
    "/Users/lazybanana/github/synapse32/rtl/pipeline_stages/load_use_detector.v";
    "/Users/lazybanana/github/synapse32/rtl/pipeline_stages/MEM_WB.v";
    "/Users/lazybanana/github/synapse32/rtl/pipeline_stages/store_load_detector.v";
    "/Users/lazybanana/github/synapse32/rtl/pipeline_stages/store_load_forward.v";
    "/Users/lazybanana/github/synapse32/rtl/include/instr_defines.vh";
    "/Users/lazybanana/github/synapse32/rtl/include/memory_map.vh";
    "/Users/lazybanana/github/synapse32/riscv-formal/checks/rvfi_macros.vh";
    "/Users/lazybanana/github/synapse32/riscv-formal/insns/insn_" +:+ instruction +:+ ".v";
    "/Users/lazybanana/github/synapse32/riscv-formal/checks/rvfi_insn_check.sv"
  ].

Definition system_config_lines (check_name : string) : list string :=
  [
    "[options]";
    "mode prove";
    "expect pass";
    "depth 30";
    "wait on";
    "";
    "[engines]";
    "smtbmc boolector";
    "";
    "[script]";
    "# --- Design files for " +:+ upper check_name +:+ " verification ---";
    "read_verilog -DFORMAL -DRISCV_FORMAL_NRET=1 -DRISCV_FORMAL_ILEN=32 -DRISCV_FORMAL_XLEN=32 -DRISCV_FORMAL_CHANNEL_IDX=0 /Users/lazybanana/github/synapse32/rtl/top.v";
    "read_verilog -DFORMAL -DRISCV_FORMAL_NRET=1 -DRISCV_FORMAL_ILEN=32 -DRISCV_FORMAL_XLEN=32 -DRISCV_FORMAL_CHANNEL_IDX=0 /Users/lazybanana/github/synapse32/rtl/riscv_cpu.v";
    "read_verilog -DFORMAL -DRISCV_FORMAL_NRET=1 -DRISCV_FORMAL_ILEN=32 -DRISCV_FORMAL_XLEN=32 -DRISCV_FORMAL_CHANNEL_IDX=0 /Users/lazybanana/github/synapse32/rtl/data_mem.v";
    "read_verilog -DFORMAL -DRISCV_FORMAL_NRET=1 -DRISCV_FORMAL_ILEN=32 -DRISCV_FORMAL_XLEN=32 -DRISCV_FORMAL_CHANNEL_IDX=0 /Users/lazybanana/github/synapse32/rtl/execution_unit.v";
    "read_verilog -DFORMAL -DRISCV_FORMAL_NRET=1 -DRISCV_FORMAL_ILEN=32 -DRISCV_FORMAL_XLEN=32 -DRISCV_FORMAL_CHANNEL_IDX=0 /Users/lazybanana/github/synapse32/rtl/instr_mem.v";
    "read_verilog -DFORMAL -DRISCV_FORMAL_NRET=1 -DRISCV_FORMAL_ILEN=32 -DRISCV_FORMAL_XLEN=32 -DRISCV_FORMAL_CHANNEL_IDX=0 /Users/lazybanana/github/synapse32/rtl/memory_unit.v";
    "read_verilog -DFORMAL -DRISCV_FORMAL_NRET=1 -DRISCV_FORMAL_ILEN=32 -DRISCV_FORMAL_XLEN=32 -DRISCV_FORMAL_CHANNEL_IDX=0 /Users/lazybanana/github/synapse32/rtl/seven_seg.v";
    "read_verilog -DFORMAL -DRISCV_FORMAL_NRET=1 -DRISCV_FORMAL_ILEN=32 -DRISCV_FORMAL_XLEN=32 -DRISCV_FORMAL_CHANNEL_IDX=0 /Users/lazybanana/github/synapse32/rtl/writeback.v";
    "";
    "# Core modules";
    "read_verilog -DFORMAL -DRISCV_FORMAL_NRET=1 -DRISCV_FORMAL_ILEN=32 -DRISCV_FORMAL_XLEN=32 -DRISCV_FORMAL_CHANNEL_IDX=0 /Users/lazybanana/github/synapse32/rtl/core_modules/alu.v";
    "read_verilog -DFORMAL -DRISCV_FORMAL_NRET=1 -DRISCV_FORMAL_ILEN=32 -DRISCV_FORMAL_XLEN=32 -DRISCV_FORMAL_CHANNEL_IDX=0 /Users/lazybanana/github/synapse32/rtl/core_modules/csr_exec.v";
    "read_verilog -DFORMAL -DRISCV_FORMAL_NRET=1 -DRISCV_FORMAL_ILEN=32 -DRISCV_FORMAL_XLEN=32 -DRISCV_FORMAL_CHANNEL_IDX=0 /Users/lazybanana/github/synapse32/rtl/core_modules/csr_file.v";
    "read_verilog -DFORMAL -DRISCV_FORMAL_NRET=1 -DRISCV_FORMAL_ILEN=32 -DRISCV_FORMAL_XLEN=32 -DRISCV_FORMAL_CHANNEL_IDX=0 /Users/lazybanana/github/synapse32/rtl/core_modules/decoder.v";
    "read_verilog -DFORMAL -DRISCV_FORMAL_NRET=1 -DRISCV_FORMAL_ILEN=32 -DRISCV_FORMAL_XLEN=32 -DRISCV_FORMAL_CHANNEL_IDX=0 /Users/lazybanana/github/synapse32/rtl/core_modules/interrupt_controller.v";
    "read_verilog -DFORMAL -DRISCV_FORMAL_NRET=1 -DRISCV_FORMAL_ILEN=32 -DRISCV_FORMAL_XLEN=32 -DRISCV_FORMAL_CHANNEL_IDX=0 /Users/lazybanana/github/synapse32/rtl/core_modules/pc.v";
    "read_verilog -DFORMAL -DRISCV_FORMAL_NRET=1 -DRISCV_FORMAL_ILEN=32 -DRISCV_FORMAL_XLEN=32 -DRISCV_FORMAL_CHANNEL_IDX=0 /Users/lazybanana/github/synapse32/rtl/core_modules/registerfile.v";
    "read_verilog -DFORMAL -DRISCV_FORMAL_NRET=1 -DRISCV_FORMAL_ILEN=32 -DRISCV_FORMAL_XLEN=32 -DRISCV_FORMAL_CHANNEL_IDX=0 /Users/lazybanana/github/synapse32/rtl/core_modules/timer.v";
    "read_verilog -DFORMAL -DRISCV_FORMAL_NRET=1 -DRISCV_FORMAL_ILEN=32 -DRISCV_FORMAL_XLEN=32 -DRISCV_FORMAL_CHANNEL_IDX=0 /Users/lazybanana/github/synapse32/rtl/core_modules/uart.v";
    "";
    "# Pipeline stages";
    "read_verilog -DFORMAL -DRISCV_FORMAL_NRET=1 -DRISCV_FORMAL_ILEN=32 -DRISCV_FORMAL_XLEN=32 -DRISCV_FORMAL_CHANNEL_IDX=0 /Users/lazybanana/github/synapse32/rtl/pipeline_stages/EX_MEM.v";
    "read_verilog -DFORMAL -DRISCV_FORMAL_NRET=1 -DRISCV_FORMAL_ILEN=32 -DRISCV_FORMAL_XLEN=32 -DRISCV_FORMAL_CHANNEL_IDX=0 /Users/lazybanana/github/synapse32/rtl/pipeline_stages/forwarding_unit.v";
    "read_verilog -DFORMAL -DRISCV_FORMAL_NRET=1 -DRISCV_FORMAL_ILEN=32 -DRISCV_FORMAL_XLEN=32 -DRISCV_FORMAL_CHANNEL_IDX=0 /Users/lazybanana/github/synapse32/rtl/pipeline_stages/ID_EX.v";
    "read_verilog -DFORMAL -DRISCV_FORMAL_NRET=1 -DRISCV_FORMAL_ILEN=32 -DRISCV_FORMAL_XLEN=32 -DRISCV_FORMAL_CHANNEL_IDX=0 /Users/lazybanana/github/synapse32/rtl/pipeline_stages/IF_ID.v";
    "read_verilog -DFORMAL -DRISCV_FORMAL_NRET=1 -DRISCV_FORMAL_ILEN=32 -DRISCV_FORMAL_XLEN=32 -DRISCV_FORMAL_CHANNEL_IDX=0 /Users/lazybanana/github/synapse32/rtl/pipeline_stages/load_use_detector.v";
    "read_verilog -DFORMAL -DRISCV_FORMAL_NRET=1 -DRISCV_FORMAL_ILEN=32 -DRISCV_FORMAL_XLEN=32 -DRISCV_FORMAL_CHANNEL_IDX=0 /Users/lazybanana/github/synapse32/rtl/pipeline_stages/MEM_WB.v";
    "read_verilog -DFORMAL -DRISCV_FORMAL_NRET=1 -DRISCV_FORMAL_ILEN=32 -DRISCV_FORMAL_XLEN=32 -DRISCV_FORMAL_CHANNEL_IDX=0 /Users/lazybanana/github/synapse32/rtl/pipeline_stages/store_load_detector.v";
    "read_verilog -DFORMAL -DRISCV_FORMAL_NRET=1 -DRISCV_FORMAL_ILEN=32 -DRISCV_FORMAL_XLEN=32 -DRISCV_FORMAL_CHANNEL_IDX=0 /Users/lazybanana/github/synapse32/rtl/pipeline_stages/store_load_forward.v";
    "";
    "# Include files";
    "read_verilog -DFORMAL -DRISCV_FORMAL_NRET=1 -DRISCV_FORMAL_ILEN=32 -DRISCV_FORMAL_XLEN=32 -DRISCV_FORMAL_CHANNEL_IDX=0 /Users/lazybanana/github/synapse32/rtl/include/instr_defines.vh";
    "read_verilog -DFORMAL -DRISCV_FORMAL_NRET=1 -DRISCV_FORMAL_ILEN=32 -DRISCV_FORMAL_XLEN=32 -DRISCV_FORMAL_CHANNEL_IDX=0 /Users/lazybanana/github/synapse32/rtl/include/memory_map.vh";
    "";
    "# riscv-formal checks for " +:+ upper check_name +:+ " verification";
    "read_verilog -sv -formal -DFORMAL -DRISCV_FORMAL_NRET=1 -DRISCV_FORMAL_ILEN=32 -DRISCV_FORMAL_XLEN=32 -DRISCV_FORMAL_CHANNEL_IDX=0 /Users/lazybanana/github/synapse32/riscv-formal/checks/rvfi_macros.vh";
    "read_verilog -sv -formal -DFORMAL -DRISCV_FORMAL_NRET=1 -DRISCV_FORMAL_ILEN=32 -DRISCV_FORMAL_XLEN=32 -DRISCV_FORMAL_CHANNEL_IDX=0 /Users/lazybanana/github/synapse32/riscv-formal/checks/rvfi_" +:+ check_name +:+ "_check.sv";
    "";
    "# Synthesis passes";
    "hierarchy -top top";
    "proc";
    "opt";
    "memory -nomap";
    "flatten";
    "setundef -undriven -anyseq";
    "check";
    "stat";
    "";
    "[files]";
    "/Users/lazybanana/github/synapse32/rtl/top.v";
    "/Users/lazybanana/github/synapse32/rtl/riscv_cpu.v";
    "/Users/lazybanana/github/synapse32/rtl/data_mem.v";
    "/Users/lazybanana/github/synapse32/rtl/execution_unit.v";
    "/Users/lazybanana/github/synapse32/rtl/instr_mem.v";
    "/Users/lazybanana/github/synapse32/rtl/memory_unit.v";
    "/Users/lazybanana/github/synapse32/rtl/seven_seg.v";
    "/Users/lazybanana/github/synapse32/rtl/writeback.v";
    "/Users/lazybanana/github/synapse32/rtl/core_modules/alu.v";
    "/Users/lazybanana/github/synapse32/rtl/core_modules/csr_exec.v";
    "/Users/lazybanana/github/synapse32/rtl/core_modules/csr_file.v";
    "/Users/lazybanana/github/synapse32/rtl/core_modules/decoder.v";
    "/Users/lazybanana/github/synapse32/rtl/core_modules/interrupt_controller.v";
    "/Users/lazybanana/github/synapse32/rtl/core_modules/pc.v";
    "/Users/lazybanana/github/synapse32/rtl/core_modules/registerfile.v";
    "/Users/lazybanana/github/synapse32/rtl/core_modules/timer.v";
    "/Users/lazybanana/github/synapse32/rtl/core_modules/uart.v";
    "/Users/lazybanana/github/synapse32/rtl/pipeline_stages/EX_MEM.v";
    "/Users/lazybanana/github/synapse32/rtl/pipeline_stages/forwarding_unit.v";
    "/Users/lazybanana/github/synapse32/rtl/pipeline_stages/ID_EX.v";
    "/Users/lazybanana/github/synapse32/rtl/pipeline_stages/IF_ID.v";
    "/Users/lazybanana/github/synapse32/rtl/pipeline_stages/load_use_detector.v";
    "/Users/lazybanana/github/synapse32/rtl/pipeline_stages/MEM_WB.v";
    "/Users/lazybanana/github/synapse32/rtl/pipeline_stages/store_load_detector.v";
    "/Users/lazybanana/github/synapse32/rtl/pipeline_stages/store_load_forward.v";
    "/Users/lazybanana/github/synapse32/rtl/include/instr_defines.vh";
    "/Users/lazybanana/github/synapse32/rtl/include/memory_map.vh";
    "/Users/lazybanana/github/synapse32/riscv-formal/checks/rvfi_macros.vh";
    "/Users/lazybanana/github/synapse32/riscv-formal/checks/rvfi_" +:+ check_name +:+ "_check.sv"
  ].

Definition integration_config_lines (check_name : string) : list string :=
  [
    "[options]";
    "mode prove";
    "expect pass";
    "depth 50";
    "wait on";
    "";
    "[engines]";
    "smtbmc boolector";
    "";
    "[script]";
    "# --- Complete ISA verification for " +:+ upper check_name +:+ " ---";
    "read_verilog -DFORMAL -DRISCV_FORMAL_NRET=1 -DRISCV_FORMAL_ILEN=32 -DRISCV_FORMAL_XLEN=32 -DRISCV_FORMAL_CHANNEL_IDX=0 /Users/lazybanana/github/synapse32/rtl/top.v";
    "read_verilog -DFORMAL -DRISCV_FORMAL_NRET=1 -DRISCV_FORMAL_ILEN=32 -DRISCV_FORMAL_XLEN=32 -DRISCV_FORMAL_CHANNEL_IDX=0 /Users/lazybanana/github/synapse32/rtl/riscv_cpu.v";
    "read_verilog -DFORMAL -DRISCV_FORMAL_NRET=1 -DRISCV_FORMAL_ILEN=32 -DRISCV_FORMAL_XLEN=32 -DRISCV_FORMAL_CHANNEL_IDX=0 /Users/lazybanana/github/synapse32/rtl/data_mem.v";
    "read_verilog -DFORMAL -DRISCV_FORMAL_NRET=1 -DRISCV_FORMAL_ILEN=32 -DRISCV_FORMAL_XLEN=32 -DRISCV_FORMAL_CHANNEL_IDX=0 /Users/lazybanana/github/synapse32/rtl/execution_unit.v";
    "read_verilog -DFORMAL -DRISCV_FORMAL_NRET=1 -DRISCV_FORMAL_ILEN=32 -DRISCV_FORMAL_XLEN=32 -DRISCV_FORMAL_CHANNEL_IDX=0 /Users/lazybanana/github/synapse32/rtl/instr_mem.v";
    "read_verilog -DFORMAL -DRISCV_FORMAL_NRET=1 -DRISCV_FORMAL_ILEN=32 -DRISCV_FORMAL_XLEN=32 -DRISCV_FORMAL_CHANNEL_IDX=0 /Users/lazybanana/github/synapse32/rtl/memory_unit.v";
    "read_verilog -DFORMAL -DRISCV_FORMAL_NRET=1 -DRISCV_FORMAL_ILEN=32 -DRISCV_FORMAL_XLEN=32 -DRISCV_FORMAL_CHANNEL_IDX=0 /Users/lazybanana/github/synapse32/rtl/seven_seg.v";
    "read_verilog -DFORMAL -DRISCV_FORMAL_NRET=1 -DRISCV_FORMAL_ILEN=32 -DRISCV_FORMAL_XLEN=32 -DRISCV_FORMAL_CHANNEL_IDX=0 /Users/lazybanana/github/synapse32/rtl/writeback.v";
    "";
    "# Core modules";
    "read_verilog -DFORMAL -DRISCV_FORMAL_NRET=1 -DRISCV_FORMAL_ILEN=32 -DRISCV_FORMAL_XLEN=32 -DRISCV_FORMAL_CHANNEL_IDX=0 /Users/lazybanana/github/synapse32/rtl/core_modules/alu.v";
    "read_verilog -DFORMAL -DRISCV_FORMAL_NRET=1 -DRISCV_FORMAL_ILEN=32 -DRISCV_FORMAL_XLEN=32 -DRISCV_FORMAL_CHANNEL_IDX=0 /Users/lazybanana/github/synapse32/rtl/core_modules/csr_exec.v";
    "read_verilog -DFORMAL -DRISCV_FORMAL_NRET=1 -DRISCV_FORMAL_ILEN=32 -DRISCV_FORMAL_XLEN=32 -DRISCV_FORMAL_CHANNEL_IDX=0 /Users/lazybanana/github/synapse32/rtl/core_modules/csr_file.v";
    "read_verilog -DFORMAL -DRISCV_FORMAL_NRET=1 -DRISCV_FORMAL_ILEN=32 -DRISCV_FORMAL_XLEN=32 -DRISCV_FORMAL_CHANNEL_IDX=0 /Users/lazybanana/github/synapse32/rtl/core_modules/decoder.v";
    "read_verilog -DFORMAL -DRISCV_FORMAL_NRET=1 -DRISCV_FORMAL_ILEN=32 -DRISCV_FORMAL_XLEN=32 -DRISCV_FORMAL_CHANNEL_IDX=0 /Users/lazybanana/github/synapse32/rtl/core_modules/interrupt_controller.v";
    "read_verilog -DFORMAL -DRISCV_FORMAL_NRET=1 -DRISCV_FORMAL_ILEN=32 -DRISCV_FORMAL_XLEN=32 -DRISCV_FORMAL_CHANNEL_IDX=0 /Users/lazybanana/github/synapse32/rtl/core_modules/pc.v";
    "read_verilog -DFORMAL -DRISCV_FORMAL_NRET=1 -DRISCV_FORMAL_ILEN=32 -DRISCV_FORMAL_XLEN=32 -DRISCV_FORMAL_CHANNEL_IDX=0 /Users/lazybanana/github/synapse32/rtl/core_modules/registerfile.v";
    "read_verilog -DFORMAL -DRISCV_FORMAL_NRET=1 -DRISCV_FORMAL_ILEN=32 -DRISCV_FORMAL_XLEN=32 -DRISCV_FORMAL_CHANNEL_IDX=0 /Users/lazybanana/github/synapse32/rtl/core_modules/timer.v";
    "read_verilog -DFORMAL -DRISCV_FORMAL_NRET=1 -DRISCV_FORMAL_ILEN=32 -DRISCV_FORMAL_XLEN=32 -DRISCV_FORMAL_CHANNEL_IDX=0 /Users/lazybanana/github/synapse32/rtl/core_modules/uart.v";
    "";
    "# Pipeline stages";
    "read_verilog -DFORMAL -DRISCV_FORMAL_NRET=1 -DRISCV_FORMAL_ILEN=32 -DRISCV_FORMAL_XLEN=32 -DRISCV_FORMAL_CHANNEL_IDX=0 /Users/lazybanana/github/synapse32/rtl/pipeline_stages/EX_MEM.v";
    "read_verilog -DFORMAL -DRISCV_FORMAL_NRET=1 -DRISCV_FORMAL_ILEN=32 -DRISCV_FORMAL_XLEN=32 -DRISCV_FORMAL_CHANNEL_IDX=0 /Users/lazybanana/github/synapse32/rtl/pipeline_stages/forwarding_unit.v";
    "read_verilog -DFORMAL -DRISCV_FORMAL_NRET=1 -DRISCV_FORMAL_ILEN=32 -DRISCV_FORMAL_XLEN=32 -DRISCV_FORMAL_CHANNEL_IDX=0 /Users/lazybanana/github/synapse32/rtl/pipeline_stages/ID_EX.v";
    "read_verilog -DFORMAL -DRISCV_FORMAL_NRET=1 -DRISCV_FORMAL_ILEN=32 -DRISCV_FORMAL_XLEN=32 -DRISCV_FORMAL_CHANNEL_IDX=0 /Users/lazybanana/github/synapse32/rtl/pipeline_stages/IF_ID.v";
    "read_verilog -DFORMAL -DRISCV_FORMAL_NRET=1 -DRISCV_FORMAL_ILEN=32 -DRISCV_FORMAL_XLEN=32 -DRISCV_FORMAL_CHANNEL_IDX=0 /Users/lazybanana/github/synapse32/rtl/pipeline_stages/load_use_detector.v";
    "read_verilog -DFORMAL -DRISCV_FORMAL_NRET=1 -DRISCV_FORMAL_ILEN=32 -DRISCV_FORMAL_XLEN=32 -DRISCV_FORMAL_CHANNEL_IDX=0 /Users/lazybanana/github/synapse32/rtl/pipeline_stages/MEM_WB.v";
    "read_verilog -DFORMAL -DRISCV_FORMAL_NRET=1 -DRISCV_FORMAL_ILEN=32 -DRISCV_FORMAL_XLEN=32 -DRISCV_FORMAL_CHANNEL_IDX=0 /Users/lazybanana/github/synapse32/rtl/pipeline_stages/store_load_detector.v";
    "read_verilog -DFORMAL -DRISCV_FORMAL_NRET=1 -DRISCV_FORMAL_ILEN=32 -DRISCV_FORMAL_XLEN=32 -DRISCV_FORMAL_CHANNEL_IDX=0 /Users/lazybanana/github/synapse32/rtl/pipeline_stages/store_load_forward.v";
    "";
    "# Include files";
    "read_verilog -DFORMAL -DRISCV_FORMAL_NRET=1 -DRISCV_FORMAL_ILEN=32 -DRISCV_FORMAL_XLEN=32 -DRISCV_FORMAL_CHANNEL_IDX=0 /Users/lazybanana/github/synapse32/rtl/include/instr_defines.vh";
    "read_verilog -DFORMAL -DRISCV_FORMAL_NRET=1 -DRISCV_FORMAL_ILEN=32 -DRISCV_FORMAL_XLEN=32 -DRISCV_FORMAL_CHANNEL_IDX=0 /Users/lazybanana/github/synapse32/rtl/include/memory_map.vh";
    "";
    "# Complete ISA verification";
    "read_verilog -sv -formal -DFORMAL -DRISCV_FORMAL_NRET=1 -DRISCV_FORMAL_ILEN=32 -DRISCV_FORMAL_XLEN=32 -DRISCV_FORMAL_CHANNEL_IDX=0 /Users/lazybanana/github/synapse32/riscv-formal/checks/rvfi_macros.vh";
    "read_verilog -sv -formal -DFORMAL -DRISCV_FORMAL_NRET=1 -DRISCV_FORMAL_ILEN=32 -DRISCV_FORMAL_XLEN=32 -DRISCV_FORMAL_CHANNEL_IDX=0 /Users/lazybanana/github/synapse32/riscv-formal/insns/isa_" +:+ check_name +:+ ".v";
    "";
    "# Synthesis passes";
    "hierarchy -top top";
    "proc";
    "opt";
    "memory -nomap";
    "flatten";
    "setundef -undriven -anyseq";
    "check";
    "stat";
    "";
    "[files]";
    "/Users/lazybanana/github/synapse32/rtl/top.v";
    "/Users/lazybanana/github/synapse32/rtl/riscv_cpu.v";
    "/Users/lazybanana/github/synapse32/rtl/data_mem.v";
    "/Users/lazybanana/github/synapse32/rtl/execution_unit.v";
    "/Users/lazybanana/github/synapse32/rtl/instr_mem.v";
    "/Users/lazybanana/github/synapse32/rtl/memory_unit.v";
    "/Users/lazybanana/github/synapse32/rtl/seven_seg.v";
    "/Users/lazybanana/github/synapse32/rtl/writeback.v";
    "/Users/lazybanana/github/synapse32/rtl/core_modules/alu.v";
    "/Users/lazybanana/github/synapse32/rtl/core_modules/csr_exec.v";
    "/Users/lazybanana/github/synapse32/rtl/core_modules/csr_file.v";
    "/Users/lazybanana/github/synapse32/rtl/core_modules/decoder.v";
    "/Users/lazybanana/github/synapse32/rtl/core_modules/interrupt_controller.v";
    "/Users/lazybanana/github/synapse32/rtl/core_modules/pc.v";
    "/Users/lazybanana/github/synapse32/rtl/core_modules/registerfile.v";
    "/Users/lazybanana/github/synapse32/rtl/core_modules/timer.v";
    "/Users/lazybanana/github/synapse32/rtl/core_modules/uart.v";
    "/Users/lazybanana/github/synapse32/rtl/pipeline_stages/EX_MEM.v";
    "/Users/lazybanana/github/synapse32/rtl/pipeline_stages/forwarding_unit.v";
    "/Users/lazybanana/github/synapse32/rtl/pipeline_stages/ID_EX.v";
    "/Users/lazybanana/github/synapse32/rtl/pipeline_stages/IF_ID.v";
    "/Users/lazybanana/github/synapse32/rtl/pipeline_stages/load_use_detector.v";
    "/Users/lazybanana/github/synapse32/rtl/pipeline_stages/MEM_WB.v";
    "/Users/lazybanana/github/synapse32/rtl/pipeline_stages/store_load_detector.v";
    "/Users/lazybanana/github/synapse32/rtl/pipeline_stages/store_load_forward.v";
    "/Users/lazybanana/github/synapse32/rtl/include/instr_defines.vh";
    "/Users/lazybanana/github/synapse32/rtl/include/memory_map.vh";
    "/Users/lazybanana/github/synapse32/riscv-formal/checks/rvfi_macros.vh";
    "/Users/lazybanana/github/synapse32/riscv-formal/insns/isa_" +:+ check_name +:+ ".v"
  ].


Section Generation.

Variable permits : Path -> bool.
Variable write_fault : Path -> option (nat * string).

(** The body shared by the three [create_*_config] functions: render the
    text, write it to [output_dir / f"verify_{name}.sby"], return the
    path. *)
Definition config_path (output_dir : Path) (check : string) : Path :=
  output_dir // ("verify_" +:+ check +:+ ".sby").

Definition create_instruction_config
    (instruction description : string) (output_dir : Path) (st : fs)
  : (exn + Path) * fs :=
  let config_content := unlines (instruction_config_lines instruction) in
  let config_file := config_path output_dir instruction in
  match write_file permits write_fault config_file config_content st with
  | (Some e, st') => (inl e, st')
  | (None, st') => (inr config_file, st')
  end.

Definition create_system_config
    (check_name description : string) (output_dir : Path) (st : fs)
  : (exn + Path) * fs :=
  let config_content := unlines (system_config_lines check_name) in
  let config_file := config_path output_dir check_name in
  match write_file permits write_fault config_file config_content st with
  | (Some e, st') => (inl e, st')
  | (None, st') => (inr config_file, st')
  end.

Definition create_integration_config
    (check_name description : string) (output_dir : Path) (st : fs)
  : (exn + Path) * fs :=
  let isa_config := unlines (integration_config_lines check_name) in
  let config_file := config_path output_dir check_name in
  match write_file permits write_fault config_file isa_config st with
  | (Some e, st') => (inl e, st')
  | (None, st') => (inr config_file, st')
  end.

(** State of one generation loop: the list of written configs, the file
    system and the printed output. *)
Record loop_state : Type := {
  configs : list Path;
  tree : fs;
  printed : list string
}.

(** One [for name, description in CATALOG.items(): try: ... except
    Exception as e: ...] loop; [width] is the field width of the printed
    name. *)
Fixpoint generate_loop
    (create : string -> string -> Path -> fs -> (exn + Path) * fs)
    (width : nat) (output_dir : Path)
    (items : list (string * string)) (s : loop_state) : loop_state :=
  match items with
  | [] => s
  | (check, description) :: rest =>
      match create check description output_dir (tree s) with
      | (inr config_file, st') =>
          generate_loop create width output_dir rest
            {| configs := configs s ++ [config_file];
               tree := st';
               printed := printed s ++
                 ["  [PASS] " +:+ ljust width (upper check) +:+ " - " +:+ description] |}
      | (inl e, st') =>
          generate_loop create width output_dir rest
            {| configs := configs s;
               tree := st';
               printed := printed s ++
                 ["  [ERROR] " +:+ ljust width (upper check) +:+ " - Error: " +:+ str_exn e] |}
      end
  end.

(** Outcome of [main]: the returned value or the exception that left it,
    with the file system and the output at that point. *)
Record outcome : Type := {
  returned : exn + bool;
  final_tree : fs;
  output : list string
}.

Definition rule : string :=
  "============================================================".

(** [main()]; [script_dir] is [Path(__file__).parent]. *)
Definition main (script_dir : Path) (st : fs) : outcome :=
  let instructions_dir := script_dir // "instructions" in
  let system_dir := script_dir // "system_checks" in
  let integration_dir := script_dir // "integration" in
  match mkdir permits instructions_dir st with
  | inl e => {| returned := inl e; final_tree := st; output := [] |}
  | inr st1 =>
  match mkdir permits system_dir st1 with
  | inl e => {| returned := inl e; final_tree := st1; output := [] |}
  | inr st2 =>
  match mkdir permits integration_dir st2 with
  | inl e => {| returned := inl e; final_tree := st2; output := [] |}
  | inr st3 =>
    let out0 :=
      [ "Generating RISC-V Formal Verification Test Suite"; rule;
        LF +:+ "Generating " +:+ str_nat (length RV32I_INSTRUCTIONS)
           +:+ " individual instruction tests..." ] in
    let s1 := generate_loop create_instruction_config 8 instructions_dir
                RV32I_INSTRUCTIONS
                {| configs := []; tree := st3; printed := out0 |} in
    let instruction_configs := configs s1 in
    let out1 := printed s1 ++
      [ LF +:+ "Generating " +:+ str_nat (length SYSTEM_CHECKS)
           +:+ " system-level verification tests..." ] in
    let s2 := generate_loop create_system_config 12 system_dir
                SYSTEM_CHECKS
                {| configs := []; tree := tree s1; printed := out1 |} in
    let system_configs := configs s2 in
    let out2 := printed s2 ++
      [ LF +:+ "Generating " +:+ str_nat (length INTEGRATION_CHECKS)
           +:+ " integration tests..." ] in
    let s3 := generate_loop create_integration_config 8 integration_dir
                INTEGRATION_CHECKS
                {| configs := []; tree := tree s2; printed := out2 |} in
    let integration_configs := configs s3 in
    {| returned := inr true;
       final_tree := tree s3;
       output := printed s3 ++
         [ LF +:+ rule;
           "Generated verification suite:";
           "   " +:+ str_nat (length instruction_configs)
             +:+ " instruction tests in " +:+ path_str instructions_dir;
           "   " +:+ str_nat (length system_configs)
             +:+ " system tests in " +:+ path_str system_dir;
           "   " +:+ str_nat (length integration_configs)
             +:+ " integration tests in " +:+ path_str integration_dir;
           "   Total: " +:+ str_nat (length instruction_configs
                                     + length system_configs
                                     + length integration_configs)
             +:+ " test configurations" ] |}
  end end end.

End Generation.

End Generator.

(** ** Floats, processes and JSON *)

(** The float operations the runner uses.  [format_2f x] is
    [f"{x:.2f}"] and [format_51f x] is [f"{x:5.1f}"]; [float_of_nat] is
    the conversion an integer operand undergoes. *)
Class FloatOps : Type := {
  float : Type;
  float_of_nat : nat -> float;
  fadd : float -> float -> float;
  fsub : float -> float -> float;
  fmul : float -> float -> float;
  fdiv : float -> float -> float;
  fltb : float -> float -> bool;
  format_2f : float -> string;
  format_51f : float -> string
}.

(** What one external process does when [subprocess.run] starts and
    watches it: it exits by itself after [runtime] seconds, it never
    exits, or launching or monitoring it fails with an exception whose
    text is [msg] (the program is not found, its output cannot be
    decoded, ...). *)
Inductive proc_behaviour : Type :=
  | Exits (runtime : Q) (code : Z) (out err : string)
  | Hangs
  | Breaks (msg : string).

(** The state the child is left in; [NotRunning] when it was never
    started or was stopped on the way out. *)
Inductive proc_state : Type :=
  | ExitedByItself
  | Killed
  | NotRunning.

Record CompletedProcess : Type := {
  returncode : Z;
  stdout : string;
  stderr : string
}.

(** [subprocess.run(cmd, capture_output=True, text=True, timeout=t)]: the
    state the child is left in and the value returned or exception raised.
    When the timeout expires the child is killed and waited for before
    [TimeoutExpired] is raised. *)
Definition subprocess_run (timeout : Z) (b : proc_behaviour)
  : proc_state * (exn + CompletedProcess) :=
  match b with
  | Breaks msg => (NotRunning, inl (OSError msg))
  | Hangs => (Killed, inl TimeoutExpired)
  | Exits runtime code out err =>
      if Qle_bool runtime (inject_Z timeout)
      then (ExitedByItself,
            inr {| returncode := code; stdout := out; stderr := err |})
      else (Killed, inl TimeoutExpired)
  end.

Section Json.

Context {F : FloatOps}.

(** The values [json.dump] is given. *)
#[warnings="-register-all"]
Inductive json : Type :=
  | JNull
  | JInt (n : nat)
  | JFloat (x : float)
  | JString (s : string)
  | JArray (items : list json)
  | JObject (fields : list (string * json)).

Definition json_opt_str (o : option string) : json :=
  match o with
  | Some s => JString s
  | None => JNull
  end.

(** [d[k]] on an object. *)
Fixpoint fields_get (k : string) (fields : list (string * json)) : option json :=
  match fields with
  | [] => None
  | (k', v) :: rest => if String.eqb k k' then Some v else fields_get k rest
  end.

Definition json_get (k : string) (j : json) : option json :=
  match j with
  | JObject fields => fields_get k fields
  | _ => None
  end.

End Json.

(** ** Insertion-ordered dictionaries with string keys *)

Section Dict.

Context {V : Type}.

(** [d.get(k)] *)
Fixpoint dict_get (k : string) (d : list (string * V)) : option V :=
  match d with
  | [] => None
  | (k', v) :: rest => if String.eqb k k' then Some v else dict_get k rest
  end.

(** [d[k] = f(d[k])]; a missing key raises [KeyError]. *)
Fixpoint dict_update (k : string) (f : V -> exn + V) (d : list (string * V))
  : exn + list (string * V) :=
  match d with
  | [] => inl (KeyError k)
  | (k', v) :: rest =>
      if String.eqb k k'
      then match f v with
           | inl e => inl e
           | inr v' => inr ((k', v') :: rest)
           end
      else match dict_update k f rest with
           | inl e => inl e
           | inr rest' => inr ((k', v) :: rest')
           end
  end.

(** [if k not in d: d[k] = v] *)
Definition dict_setdefault (k : string) (v : V) (d : list (string * V))
  : list (string * V) :=
  match dict_get k d with
  | Some _ => d
  | None => d ++ [(k, v)]
  end.

End Dict.

(** [d[k] += 1] *)
Definition dict_incr (k : string) (d : list (string * nat))
  : exn + list (string * nat) :=
  dict_update k (fun v => inr (S v)) d.

(** [sum(d.values())] *)
Definition dict_total (d : list (string * nat)) : nat :=
  list_sum (snd <$> d).

(** ** The suite runner, [run_verification_suite.py] *)

Module Runner.

Section Suite.

Context {F : FloatOps}.

(** [json.dumps(doc, indent=2)], the text [json.dump] writes. *)
Variable dumps : json -> string.

(** Data class to store test results. *)
Record TestResult : Type := {
  test_name : string;
  category : string;
  status : string;              (* "PASS", "FAIL", "TIMEOUT", "ERROR" *)
  duration : float;
  log_file : option string;
  error_message : option string
}.

(** The world one invocation runs in. *)
Record Env : Type := {
  (** what [sby -f test_file], started in the file's directory, does *)
  sby : Path -> proc_behaviour;
  (** the tree the job of a test file leaves when it is started in a
      tree: [sby -f] makes a work directory next to the test file and
      writes its logs there, and may write anything else *)
  sby_writes : Path -> fs -> fs;
  (** [time.time() - start_time] as measured by the job of a test file *)
  elapsed : Path -> float;
  (** looking for the logs below a directory ([log_dir.exists()], then
      the glob) raises [OSError] with this text, for instance when the
      directory may not be searched *)
  log_fault : Path -> option string;
  (** the order in which the pooled jobs complete: each number picks one
      of the jobs still pending *)
  schedule : list nat;
  (** [time.time() - self.start_time if self.start_time else 0] when the
      summary is built and when the report is saved *)
  wall_at_summary : float;
  wall_at_save : float;
  (** [time.strftime("%Y-%m-%d %H:%M:%S")] *)
  timestamp : string;
  (** [multiprocessing.cpu_count()] *)
  cpu_count : Z;
  (** what creating or writing a path is allowed, and which writes fail
      once the file is open *)
  permits : Path -> bool;
  write_fault : Path -> option (nat * string);
  (** directory of the importable [generate_instruction_tests] module,
      [None] when the import fails *)
  generator_dir : option Path
}.

Variable env : Env.

(** The runner object. *)
Record Config : Type := {
  max_workers : Z;
  timeout : Z
}.

(** [__init__]: [max_workers or min(multiprocessing.cpu_count(), 8)] *)
Definition init (workers : option Z) (timeout : Z) : Config :=
  {| max_workers :=
       match workers with
       | Some w => if (w =? 0)%Z then Z.min (cpu_count env) 8 else w
       | None => Z.min (cpu_count env) 8
       end;
     timeout := timeout |}.

Variable self : Config.

(** Find all .sby test files in a directory. *)
Definition find_test_files (st : fs) (test_dir : Path) : list Path :=
  if negb (path_exists st test_dir) then []
  else
    (* test_dir.glob("*.sby"); a path that is no directory has no entries *)
    match st !! test_dir with
    | Some Dir =>
        List.filter
          (fun p => bool_decide (path_parent p = test_dir /\ p <> test_dir)
                    && endswith ".sby" (path_name p))
          (fst <$> map_to_list st)
    | _ => []
    end.

(** [list(log_dir.glob("**/*.log"))]: the entries of the tree below
    [log_dir], at any depth, whose name ends in [.log]; nothing when
    [log_dir] is no directory. *)
Definition glob_logs (st : fs) (log_dir : Path) : list Path :=
  match st !! log_dir with
  | Some Dir =>
      List.filter
        (fun p => bool_decide (log_dir `prefix_of` p /\ p <> log_dir)
                  && endswith ".log" (path_name p))
        (fst <$> map_to_list st)
  | _ => []
  end.

(** Find log file if it exists: the lines from [log_dir = ...] to
    [log_file = str(log_files[0])], in the tree the job has left. *)
Definition find_log (st : fs) (log_dir : Path) : exn + option string :=
  match log_fault env log_dir with
  | Some msg => inl (OSError msg)
  | None =>
      if path_exists st log_dir
      then match glob_logs st log_dir with
           | first :: _ => inr (Some (path_str first))
           | [] => inr None
           end
      else inr None
  end.

(** The [try] block of [run_single_test], in the tree [st] the job has
    left. *)
Definition run_single_test_body (test_file : Path) (category : string) (st : fs)
  : exn + TestResult :=
  let test_name := path_stem test_file in
  match snd (subprocess_run (timeout self) (sby env test_file)) with
  | inl e => inl e
  | inr process =>
      let duration := elapsed env test_file in
      let '(status, error_message) :=
        if (returncode process =? 0)%Z
        then ("PASS", None)
        else ("FAIL", Some (str_or (stderr process) (stdout process))) in
      let log_dir := path_parent test_file // test_name in
      match find_log st log_dir with
      | inl e => inl e
      | inr log_file =>
          inr {| test_name := test_name; category := category;
                 status := status; duration := duration;
                 log_file := log_file; error_message := error_message |}
      end
  end.

(** Run a single SBY test and return the result, with the tree the job
    leaves when it is started in [st]. *)
Definition run_single_test (test_file : Path) (category : string) (st : fs)
  : TestResult * fs :=
  let test_name := path_stem test_file in
  let st' := sby_writes env test_file st in
  (match run_single_test_body test_file category st' with
  | inr result => result
  | inl TimeoutExpired =>
      {| test_name := test_name; category := category;
         status := "TIMEOUT"; duration := elapsed env test_file;
         log_file := None;
         error_message :=
           Some ("Test timed out after " +:+ str_Z (timeout self) +:+ " seconds") |}
  | inl e =>
      {| test_name := test_name; category := category;
         status := "ERROR"; duration := elapsed env test_file;
         log_file := None;
         error_message := Some (str_exn e) |}
  end, st').

(** State the child process of a job is left in. *)
Definition process_after (test_file : Path) : proc_state :=
  fst (subprocess_run (timeout self) (sby env test_file)).

(** [as_completed]: the pending futures in the order the schedule
    completes them; futures the schedule does not reach complete in the
    order they were submitted. *)
Fixpoint as_completed {A} (sched : list nat) (pending : list A) : list A :=
  match sched with
  | [] => pending
  | i :: sched' =>
      let k := i mod length pending in
      match pending !! k with
      | Some fut => fut :: as_completed sched' (delete k pending)
      | None => []
      end
  end.

Definition status_symbol (status : string) : string :=
  if String.eqb status "PASS" then "[PASS]"
  else if String.eqb status "FAIL" then "[FAIL]"
  else if String.eqb status "TIMEOUT" then "[TIMEOUT]"
  else if String.eqb status "ERROR" then "[ERROR]"
  else "[UNKNOWN]".

(** The collecting loop of [run_tests_parallel]; [result_of] is
    [future.result()].  The jobs act on the tree one after the other, in
    the order in which they complete: each leaves its writes and looks
    for its log before the next one is accounted for. *)
Fixpoint collect
    (result_of : Path -> string -> fs -> (exn + TestResult) * fs)
    (completed : list (Path * string))
    (results : list TestResult) (out : list string) (st : fs)
  : list TestResult * list string * fs :=
  match completed with
  | [] => (results, out, st)
  | (test_file, category) :: rest =>
      match result_of test_file category st with
      | (inr result, st') =>
          collect result_of rest (results ++ [result])
            (out ++ [ status_symbol (status result)
                      +:+ " [" +:+ ljust 12 category +:+ "] "
                      +:+ ljust 20 (test_name result) +:+ " - "
                      +:+ ljust 8 (status result)
                      +:+ " (" +:+ format_2f (duration result) +:+ "s)" ])
            st'
      | (inl e, st') =>
          collect result_of rest results
            (out ++ [ "[ERROR] [" +:+ ljust 12 category +:+ "] "
                      +:+ ljust 20 (path_name test_file)
                      +:+ " - Exception: " +:+ str_exn e ])
            st'
      end
  end.

(** Run tests in parallel using ThreadPoolExecutor: the results and the
    progress lines, or the exception raised, and the tree left.  The pool
    refuses a worker bound that is not positive, before any job is
    submitted; otherwise the bound limits how many jobs run at once and
    does not enter the result. *)
Definition run_tests_parallel (test_files : list (Path * string)) (st : fs)
  : (exn + (list TestResult * list string)) * fs :=
  if (max_workers self <=? 0)%Z
  then (inl (ValueError "max_workers must be greater than 0"), st)
  else
    let '(results, out, st') :=
      collect
        (fun test_file category st0 =>
           let '(result, st1) := run_single_test test_file category st0 in
           (inr result, st1))
        (as_completed (schedule env) test_files) [] [] st in
    (inr (results, out), st').

(** *** Reporting *)

Definition zero_stats : list (string * nat) :=
  [("PASS", 0); ("FAIL", 0); ("TIMEOUT", 0); ("ERROR", 0)].

(** One round of the counting loop of [generate_summary_report]. *)
Definition tally_step
    (acc : list (string * nat) * list (string * list (string * nat)))
    (result : TestResult)
  : exn + (list (string * nat) * list (string * list (string * nat))) :=
  let '(status_counts, category_stats) := acc in
  match dict_incr (status result) status_counts with
  | inl e => inl e
  | inr status_counts' =>
      let category_stats' :=
        dict_setdefault (category result) zero_stats category_stats in
      match dict_update (category result) (dict_incr (status result))
              category_stats' with
      | inl e => inl e
      | inr category_stats'' => inr (status_counts', category_stats'')
      end
  end.

Fixpoint tally
    (results : list TestResult)
    (acc : list (string * nat) * list (string * list (string * nat)))
  : exn + (list (string * nat) * list (string * list (string * nat))) :=
  match results with
  | [] => inr acc
  | result :: rest =>
      match tally_step acc result with
      | inl e => inl e
      | inr acc' => tally rest acc'
      end
  end.

(** [sum(r.duration for r in results)] *)
Definition total_duration (results : list TestResult) : float :=
  fold_left (fun acc r => fadd acc (duration r)) results (float_of_nat 0).

(** [(a / b) * 100] *)
Definition percent (a b : nat) : float :=
  fmul (fdiv (float_of_nat a) (float_of_nat b)) (float_of_nat 100).

(** [min(results, key=lambda r: r.duration)]: the first smallest. *)
Definition fastest_of (first : TestResult) (rest : list TestResult) : TestResult :=
  fold_left (fun best r => if fltb (duration r) (duration best) then r else best)
    rest first.

(** [max(results, key=lambda r: r.duration)]: the first largest. *)
Definition slowest_of (first : TestResult) (rest : list TestResult) : TestResult :=
  fold_left (fun best r => if fltb (duration best) (duration r) then r else best)
    rest first.

(** [m[:100] + "..." if len(m) > 100 else m] *)
Definition truncate_error (m : string) : string :=
  if (100 <? String.length m)%nat then take_chars 100 m +:+ "..." else m.

(** [failed_tests = [r for r in self.results if r.status != "PASS"]] *)
Definition failed_tests (results : list TestResult) : list TestResult :=
  List.filter (fun r => negb (String.eqb (status r) "PASS")) results.

Definition failed_entry (result : TestResult) : list string :=
  ("  [" +:+ ljust 12 (category result) +:+ "] "
     +:+ ljust 20 (test_name result) +:+ " - " +:+ status result)
  :: match error_message result with
     | Some m => if truthy_str m then ["    Error: " +:+ truncate_error m] else []
     | None => []
     end.

Definition overall_line (total : nat) (entry : string * nat) : string :=
  let '(st, count) := entry in
  "  " +:+ status_symbol st +:+ " " +:+ ljust 8 st +:+ ": "
  +:+ rjust 3 (str_nat count) +:+ " tests ("
  +:+ format_51f (percent count total) +:+ "%)".

Definition category_line (entry : string * list (string * nat)) : string :=
  let '(cat, stats) := entry in
  let total_cat := dict_total stats in
  let passed := default 0 (dict_get "PASS" stats) in
  let pass_rate :=
    if (0 <? total_cat)%nat then percent passed total_cat else float_of_nat 0 in
  "  " +:+ ljust 15 cat +:+ ": " +:+ rjust 2 (str_nat passed) +:+ "/"
  +:+ rjust 2 (str_nat total_cat) +:+ " passed ("
  +:+ format_51f pass_rate +:+ "%)".

(** The list [report] of [generate_summary_report]. *)
Definition summary_lines (results : list TestResult) (wall_time : float)
  : exn + list string :=
  match results with
  | [] => inr ["No test results available."]
  | first :: rest =>
      match tally results (zero_stats, []) with
      | inl e => inl e
      | inr (status_counts, category_stats) =>
          let total := total_duration results in
          let failed := failed_tests results in
          let fastest := fastest_of first rest in
          let slowest := slowest_of first rest in
          let avg_duration := fdiv total (float_of_nat (length results)) in
          inr ([ "RISC-V CPU Formal Verification Summary Report";
                 Generator.rule;
                 "Total Tests: " +:+ str_nat (length results);
                 "Wall Time: " +:+ format_2f wall_time +:+ " seconds";
                 "CPU Time: " +:+ format_2f total +:+ " seconds";
                 (if fltb (float_of_nat 0) wall_time
                  then "Speedup: " +:+ format_2f (fdiv total wall_time) +:+ "x"
                  else "Speedup: N/A");
                 "";
                 "Overall Results:" ]
               ++ (overall_line (length results) <$> status_counts)
               ++ [ ""; "Results by Category:" ]
               ++ (category_line <$> category_stats)
               ++ [ "" ]
               ++ (match failed with
                   | [] => []
                   | _ => ["Failed Tests:"] ++ flat_map failed_entry failed ++ [""]
                   end)
               ++ [ "Performance Statistics:";
                    "  Fastest: " +:+ ljust 20 (test_name fastest)
                      +:+ " (" +:+ format_2f (duration fastest) +:+ "s)";
                    "  Slowest: " +:+ ljust 20 (test_name slowest)
                      +:+ " (" +:+ format_2f (duration slowest) +:+ "s)";
                    "  Average: " +:+ format_2f avg_duration +:+ "s per test" ])
      end
  end.

(** Generate a comprehensive summary report. *)
Definition generate_summary_report (results : list TestResult) (wall_time : float)
  : exn + string :=
  match summary_lines results wall_time with
  | inl e => inl e
  | inr report => inr (join LF report)
  end.

Definition result_json (r : TestResult) : json :=
  JObject [ ("test_name", JString (test_name r));
            ("category", JString (category r));
            ("status", JString (status r));
            ("duration", JFloat (duration r));
            ("log_file", json_opt_str (log_file r));
            ("error_message", json_opt_str (error_message r)) ].

(** The dictionary [report_data] of [save_detailed_report]. *)
Definition report_data (results : list TestResult) : json :=
  JObject [ ("summary",
             JObject [ ("total_tests", JInt (length results));
                       ("wall_time", JFloat (wall_at_save env));
                       ("cpu_time", JFloat (total_duration results));
                       ("timestamp", JString (timestamp env)) ]);
            ("results", JArray (result_json <$> results)) ].

(** Save detailed test results to JSON file. *)
Definition save_detailed_report
    (results : list TestResult) (output_file : Path) (st : fs) : option exn * fs :=
  write_file (permits env) (write_fault env) output_file
    (dumps (report_data results)) st.

(** *** The suite *)

(** What [run_verification_suite] leaves behind: the value returned or
    the exception that left it, the discovered test files, [self.results],
    the file system and the printed output. *)
Record suite_outcome : Type := {
  suite_returned : exn + bool;
  suite_discovered : list (Path * string);
  suite_results : list TestResult;
  suite_tree : fs;
  suite_output : list string
}.

(** Test categories and their directories. *)
Definition test_categories : list (string * string) :=
  [ ("instructions", "instructions");
    ("system", "system_checks");
    ("integration", "integration") ].

(** [if categories: test_categories = {k: v for k, v in ... if k in categories}] *)
Definition selected_categories (categories : option (list string))
  : list (string * string) :=
  match categories with
  | Some (c :: cs) =>
      List.filter (fun kv => existsb (String.eqb (fst kv)) (c :: cs)) test_categories
  | _ => test_categories
  end.

(** Collect all test files. *)
Definition all_test_files_of
    (st : fs) (formal_dir : Path) (selected : list (string * string))
  : list (Path * string) :=
  flat_map
    (fun kv => (fun f => (f, fst kv)) <$> find_test_files st (formal_dir // snd kv))
    selected.

Definition dashes : string :=
  "------------------------------------------------------------".

(** Run the complete verification suite. *)
Definition run_verification_suite
    (st : fs) (formal_dir : Path) (categories : option (list string))
  : suite_outcome :=
  let out0 :=
    [ "Starting RISC-V CPU Formal Verification Suite"; Generator.rule;
      "Working directory: " +:+ path_str formal_dir;
      "Max parallel workers: " +:+ str_Z (max_workers self);
      "Timeout per test: " +:+ str_Z (timeout self) +:+ "s";
      "" ] in
  let selected := selected_categories categories in
  let all_test_files := all_test_files_of st formal_dir selected in
  if negb (truthy_list all_test_files)
  then {| suite_returned := inr false; suite_discovered := all_test_files;
          suite_results := []; suite_tree := st;
          suite_output := out0 ++ ["[ERROR] No test files found!"] |}
  else
    let out1 :=
      out0
      ++ [ "Found " +:+ str_nat (length all_test_files) +:+ " test files across "
           +:+ str_nat (length selected) +:+ " categories" ]
      ++ ((fun kv =>
             "  " +:+ ljust 12 (fst kv) +:+ ": "
             +:+ rjust 3 (str_nat (length (find_test_files st (formal_dir // snd kv))))
             +:+ " tests") <$> selected)
      ++ [ ""; "Running verification tests..."; dashes ] in
    match run_tests_parallel all_test_files st with
    | (inl e, st_jobs) =>
        {| suite_returned := inl e; suite_discovered := all_test_files;
           suite_results := []; suite_tree := st_jobs; suite_output := out1 |}
    | (inr (results, progress), st_jobs) =>
        let out2 := out1 ++ progress ++ [LF +:+ Generator.rule] in
        match generate_summary_report results (wall_at_summary env) with
        | inl e =>
            {| suite_returned := inl e; suite_discovered := all_test_files;
               suite_results := results; suite_tree := st_jobs;
               suite_output := out2 |}
        | inr summary =>
            let out3 := out2 ++ [summary] in
            let report_file := formal_dir // "verification_report.json" in
            match save_detailed_report results report_file st_jobs with
            | (Some e, st') =>
                {| suite_returned := inl e; suite_discovered := all_test_files;
                   suite_results := results; suite_tree := st';
                   suite_output := out3 |}
            | (None, st') =>
                let passed_tests :=
                  length (List.filter (fun r => String.eqb (status r) "PASS") results) in
                {| suite_returned := inr (passed_tests =? length results)%nat;
                   suite_discovered := all_test_files;
                   suite_results := results; suite_tree := st';
                   suite_output :=
                     out3 ++ [ LF +:+ "Detailed report saved to: "
                               +:+ path_str report_file ] |}
            end
        end
    end.

End Suite.

(** *** The command line *)

Section Main.

Context {F : FloatOps}.
Variable dumps : json -> string.
Variable env : Env.

(** The parsed command line. *)
Record Args : Type := {
  formal_dir : Path;                    (* --formal-dir, resolved *)
  categories : option (list string);    (* --categories *)
  workers : option Z;                   (* --workers *)
  timeout_arg : Z;                      (* --timeout, default 300 *)
  generate_only : bool                  (* --generate-only *)
}.

(** What one invocation leaves behind. *)
Record outcome : Type := {
  returned : exn + Z;
  discovered : list (Path * string);
  executed : list TestResult;
  final_tree : fs;
  output : list string
}.

(** The last step of [main]: build the runner, run the suite, turn its
    answer into the returned code. *)
Definition run_suite (args : Args) (st : fs) (out : list string) : outcome :=
  let runner := init env (workers args) (timeout_arg args) in
  let s := run_verification_suite dumps env runner st (formal_dir args) (categories args) in
  {| returned :=
       match suite_returned s with
       | inl e => inl e
       | inr success => inr (if success then 0 else 1)%Z
       end;
     discovered := suite_discovered s;
     executed := suite_results s;
     final_tree := suite_tree s;
     output := out ++ suite_output s |}.

(** Main entry point. *)
Definition main (args : Args) (st : fs) : outcome :=
  if negb (path_exists st (formal_dir args))
  then {| returned := inr 1%Z; discovered := []; executed := [];
          final_tree := st;
          output := ["[ERROR] Formal directory not found: "
                     +:+ path_str (formal_dir args)] |}
  else if negb (path_exists st (formal_dir args // "instructions"))
          || generate_only args
  then
    let out := ["Generating test configurations..."] in
    match generator_dir env with
    | None =>
        {| returned := inr 1%Z; discovered := []; executed := [];
           final_tree := st;
           output := out ++ ["[ERROR] Could not import test generation script"] |}
    | Some script_dir =>
        let g := Generator.main (permits env) (write_fault env) script_dir st in
        match Generator.returned g with
        | inl (ImportError _) =>
            {| returned := inr 1%Z; discovered := []; executed := [];
               final_tree := Generator.final_tree g;
               output := out ++ Generator.output g
                         ++ ["[ERROR] Could not import test generation script"] |}
        | inl e =>
            {| returned := inr 1%Z; discovered := []; executed := [];
               final_tree := Generator.final_tree g;
               output := out ++ Generator.output g
                         ++ ["[ERROR] Error generating tests: " +:+ str_exn e] |}
        | inr _ =>
            let out' := out ++ Generator.output g
                        ++ ["[PASS] Test configurations generated successfully"] in
            if generate_only args
            then {| returned := inr 0%Z; discovered := []; executed := [];
                    final_tree := Generator.final_tree g; output := out' |}
            else run_suite args (Generator.final_tree g) out'
        end
    end
  else run_suite args st [].

(** [sys.exit(main())]: the returned code, or 1 when an exception leaves
    [main]. *)
Definition exit_code (o : outcome) : Z :=
  match returned o with
  | inr code => code
  | inl _ => 1%Z
  end.

End Main.

End Runner.

(** ** Reading an artifact back *)

Module Sby.

(** The lines of a text. *)
Fixpoint lines_of (s : string) : list string :=
  match s with
  | EmptyString => [""]
  | String c s' =>
      if Ascii.eqb c "010"%char then "" :: lines_of s'
      else match lines_of s' with
           | l :: ls => String c l :: ls
           | [] => [String c ""]
           end
  end.

Definition digit_of (c : ascii) : option nat :=
  let n := nat_of_ascii c in
  if (48 <=? n)%nat && (n <=? 57)%nat then Some (n - 48) else None.

Fixpoint parse_digits (s : string) (acc : nat) : option nat :=
  match s with
  | EmptyString => Some acc
  | String c s' =>
      match digit_of c with
      | Some d => parse_digits s' (10 * acc + d)
      | None => None
      end
  end.

Definition parse_nat (s : string) : option nat :=
  match s with
  | EmptyString => None
  | _ => parse_digits s 0
  end.

(** The value of [depth] in the [[options]] section: the number on the
    first line [depth N] between the header [[options]] and the next
    section header. *)
Fixpoint scan_depth (ls : list string) (in_options : bool) : option nat :=
  match ls with
  | [] => None
  | l :: rest =>
      if String.eqb l "[options]" then scan_depth rest true
      else if String.prefix "[" l then scan_depth rest false
      else if in_options && String.prefix "depth " l
      then parse_nat (substring 6 (String.length l - 6) l)
      else scan_depth rest in_options
  end.

Definition depth_of (content : string) : option nat :=
  scan_depth (lines_of content) false.

End Sby.

(** ** A float stand-in for running examples

    Exact rationals, printed to a fixed number of decimals, rounding half
    up.  The theorems below hold for every [FloatOps]; this instance only
    serves to evaluate the model on concrete inputs. *)

Module ExactFloat.

Definition format_fixed (digits : nat) (q : Q) : string :=
  let scale := (10 ^ Z.of_nat digits)%Z in
  let scaled := Qfloor (Qplus (Qmult q (inject_Z scale)) (1 # 2)) in
  let a := Z.abs scaled in
  let frac := pretty (Z.to_N (a mod scale))%Z in
  (if (scaled <? 0)%Z then "-" else "")
  +:+ pretty (Z.to_N (a / scale))%Z +:+ "."
  +:+ String.concat "" (replicate (digits - String.length frac) "0") +:+ frac.

#[global] Instance ops : FloatOps := {|
  float := Q;
  float_of_nat := fun n => inject_Z (Z.of_nat n);
  fadd := Qplus;
  fsub := Qminus;
  fmul := Qmult;
  fdiv := Qdiv;
  fltb := fun a b => negb (Qle_bool b a);
  format_2f := format_fixed 2;
  format_51f := fun q => rjust 5 (format_fixed 1 q)
|}.

(** A serializer stand-in with the layout of compact JSON (no escapes). *)
Definition quoted (s : string) : string :=
  String (ascii_of_nat 34) s +:+ String (ascii_of_nat 34) "".

Fixpoint dumps (j : json) : string :=
  match j with
  | JNull => "null"
  | JInt n => pretty n
  | JFloat x => format_fixed 6 x
  | JString s => quoted s
  | JArray items => "[" +:+ join ", " (dumps <$> items) +:+ "]"
  | JObject fields =>
      "{" +:+ join ", " ((fun kv => quoted (fst kv) +:+ ": " +:+ dumps (snd kv)) <$> fields)
      +:+ "}"
  end.

End ExactFloat.

(** * Vocabulary of the properties *)

(** ** Generation *)

Section GenerationVocabulary.

Variable permits : Path -> bool.
Variable write_fault : Path -> option (nat * string).

(** The path and the text a family of catalog entries is rendered to. *)
Definition artifacts_of
    (render : string -> list string) (output_dir : Path)
    (items : list (string * string)) : list (Path * string) :=
  (fun kv => (Generator.config_path output_dir (fst kv), unlines (render (fst kv))))
    <$> items.

(** Every artifact of the catalog, in the order [main] writes them. *)
Definition artifacts (script_dir : Path) : list (Path * string) :=
  artifacts_of Generator.instruction_config_lines (script_dir // "instructions")
    Generator.RV32I_INSTRUCTIONS
  ++ artifacts_of Generator.system_config_lines (script_dir // "system_checks")
       Generator.SYSTEM_CHECKS
  ++ artifacts_of Generator.integration_config_lines (script_dir // "integration")
       Generator.INTEGRATION_CHECKS.

(** The three [mkdir] calls of [main]: the tree they reach and the
    exception that stopped them, if any. *)
Definition make_dirs (script_dir : Path) (st : fs) : fs * option exn :=
  match mkdir permits (script_dir // "instructions") st with
  | inl e => (st, Some e)
  | inr st1 =>
      match mkdir permits (script_dir // "system_checks") st1 with
      | inl e => (st1, Some e)
      | inr st2 =>
          match mkdir permits (script_dir // "integration") st2 with
          | inl e => (st2, Some e)
          | inr st3 => (st3, None)
          end
      end
  end.

(** The tree after writing one artifact: where the file can be opened it
    holds what the writing lets through; and after a list of them. *)
Definition write_or_skip (st : fs) (task : Path * string) : fs :=
  if can_write permits st (fst task)
  then <[fst task := File (written_text write_fault (fst task) (snd task))]> st
  else st.

Definition write_all (st : fs) (tasks : list (Path * string)) : fs :=
  fold_left write_or_skip tasks st.

(** The status line [main] prints for one catalog entry when the entry is
    generated in tree [st]. *)
Definition entry_line
    (render : string -> list string) (width : nat) (output_dir : Path) (st : fs)
    (kv : string * string) : string :=
  match fst (write_file permits write_fault (Generator.config_path output_dir (fst kv))
               (unlines (render (fst kv))) st) with
  | None => "  [PASS] " +:+ ljust width (upper (fst kv)) +:+ " - " +:+ snd kv
  | Some e => "  [ERROR] " +:+ ljust width (upper (fst kv)) +:+ " - Error: " +:+ str_exn e
  end.

(** Whether the artifact at [p] is written in full in tree [st]: the
    file can be opened and the writing meets no fault. *)
Definition writes_fully (st : fs) (p : Path) : bool :=
  can_write permits st p && bool_decide (write_fault p = None).

(** How many entries of a family are written in full in tree [st]. *)
Definition written_count (output_dir : Path) (st : fs) (items : list (string * string)) : nat :=
  length (List.filter
            (fun kv => writes_fully st (Generator.config_path output_dir (fst kv)))
            items).

(** Whether each catalog entry's artifact is written by a run of [main]
    started in tree [st]: one boolean per entry, in catalog order. *)
Definition entry_successes (script_dir : Path) (st : fs) : list bool :=
  (fun task => writes_fully (fst (make_dirs script_dir st)) (fst task))
    <$> artifacts script_dir.

(** Each [create_*_config] renders, writes, and returns the path. *)
Definition creates
    (create : string -> string -> Path -> fs -> (exn + Path) * fs)
    (render : string -> list string) : Prop :=
  forall check description output_dir st,
    create check description output_dir st =
    match write_file permits write_fault (Generator.config_path output_dir check)
            (unlines (render check)) st with
    | (Some e, st') => (inl e, st')
    | (None, st') => (inr (Generator.config_path output_dir check), st')
    end.

(** Everything [main] prints when its directories exist as tree [st]. *)
Definition main_output (script_dir : Path) (st : fs) : list string :=
  let instructions_dir := script_dir // "instructions" in
  let system_dir := script_dir // "system_checks" in
  let integration_dir := script_dir // "integration" in
  let n_instruction := written_count instructions_dir st Generator.RV32I_INSTRUCTIONS in
  let n_system := written_count system_dir st Generator.SYSTEM_CHECKS in
  let n_integration := written_count integration_dir st Generator.INTEGRATION_CHECKS in
  [ "Generating RISC-V Formal Verification Test Suite"; Generator.rule;
    LF +:+ "Generating " +:+ str_nat (length Generator.RV32I_INSTRUCTIONS)
       +:+ " individual instruction tests..." ]
  ++ (entry_line Generator.instruction_config_lines 8 instructions_dir st
        <$> Generator.RV32I_INSTRUCTIONS)
  ++ [ LF +:+ "Generating " +:+ str_nat (length Generator.SYSTEM_CHECKS)
          +:+ " system-level verification tests..." ]
  ++ (entry_line Generator.system_config_lines 12 system_dir st
        <$> Generator.SYSTEM_CHECKS)
  ++ [ LF +:+ "Generating " +:+ str_nat (length Generator.INTEGRATION_CHECKS)
          +:+ " integration tests..." ]
  ++ (entry_line Generator.integration_config_lines 8 integration_dir st
        <$> Generator.INTEGRATION_CHECKS)
  ++ [ LF +:+ Generator.rule;
       "Generated verification suite:";
       "   " +:+ str_nat n_instruction
         +:+ " instruction tests in " +:+ path_str instructions_dir;
       "   " +:+ str_nat n_system
         +:+ " system tests in " +:+ path_str system_dir;
       "   " +:+ str_nat n_integration
         +:+ " integration tests in " +:+ path_str integration_dir;
       "   Total: " +:+ str_nat (n_instruction + n_system + n_integration)
         +:+ " test configurations" ].

End GenerationVocabulary.

(** [content] of an association list of tasks. *)
Fixpoint task_content (p : Path) (tasks : list (Path * string)) : option string :=
  match tasks with
  | [] => None
  | (q, c) :: rest => if bool_decide (q = p) then Some c else task_content p rest
  end.

(** A string without a line feed. *)
Fixpoint single_line (s : string) : bool :=
  match s with
  | EmptyString => true
  | String c s' => negb (Ascii.eqb c "010"%char) && single_line s'
  end.

(** The file names of a family of catalog entries. *)
Definition artifact_names (items : list (string * string)) : list string :=
  (fun kv => "verify_" +:+ fst kv +:+ ".sby") <$> items.

(** The run of [main] started in [st] writes the artifact at [p]: the
    three directories can be made, [open(p, 'w')] succeeds and the
    writing meets no fault. *)
Definition writes_artifact
    (permits : Path -> bool) (write_fault : Path -> option (nat * string))
    (script_dir : Path) (st : fs) (p : Path) : Prop :=
  snd (make_dirs permits script_dir st) = None
  /\ can_write permits (fst (make_dirs permits script_dir st)) p = true
  /\ write_fault p = None.

(** ** The runner *)

(** The four statuses of a finished job. *)
Definition valid_status (s : string) : Prop :=
  s = "PASS" \/ s = "FAIL" \/ s = "TIMEOUT" \/ s = "ERROR".

Section RunnerVocabulary.

Context {F : FloatOps}.

(** Every result has passed. *)
Definition all_passed (results : list Runner.TestResult) : Prop :=
  Forall (fun r => Runner.status r = "PASS") results.

(** The jobs of a list run one after the other from tree [st]: their
    results, in this order, and the tree they leave. *)
Fixpoint run_jobs (env : Runner.Env) (self : Runner.Config)
    (jobs : list (Path * string)) (st : fs) : list Runner.TestResult * fs :=
  match jobs with
  | [] => ([], st)
  | (test_file, category) :: rest =>
      let '(result, st1) := Runner.run_single_test env self test_file category st in
      let '(results, st2) := run_jobs env self rest st1 in
      (result :: results, st2)
  end.

(** [r] is the result of running [job], in some tree. *)
Definition result_of_job (env : Runner.Env) (self : Runner.Config)
    (job : Path * string) (r : Runner.TestResult) : Prop :=
  exists st, r = fst (Runner.run_single_test env self (fst job) (snd job) st).

(** The lines the suite prints first. *)
Definition banner (self : Runner.Config) (formal_dir : Path) : list string :=
  [ "Starting RISC-V CPU Formal Verification Suite"; Generator.rule;
    "Working directory: " +:+ path_str formal_dir;
    "Max parallel workers: " +:+ str_Z (Runner.max_workers self);
    "Timeout per test: " +:+ str_Z (Runner.timeout self) +:+ "s";
    "" ].

(** The generation step of [main] succeeds: the formal directory exists,
    the generator's module is found and its three directories can be
    made. *)
Definition generation_succeeds (env : Runner.Env) (args : Runner.Args) (st : fs) : Prop :=
  path_exists st (Runner.formal_dir args) = true
  /\ exists script_dir,
       Runner.generator_dir env = Some script_dir
       /\ snd (make_dirs (Runner.permits env) script_dir st) = None.

(** An invocation without the generate-only switch gets as far as the
    suite: the formal directory exists, and its [instructions] directory
    exists or the generation step succeeds. *)
Definition reaches_suite (env : Runner.Env) (args : Runner.Args) (st : fs) : Prop :=
  path_exists st (Runner.formal_dir args) = true
  /\ (path_exists st (Runner.formal_dir args // "instructions") = true
      \/ generation_succeeds env args st).

(** The tree after the generation step of such an invocation: the tree
    it was started in, or the one the generator leaves. *)
Definition start_tree (env : Runner.Env) (args : Runner.Args) (st : fs) : fs :=
  if path_exists st (Runner.formal_dir args)
     && negb (path_exists st (Runner.formal_dir args // "instructions"))
  then match Runner.generator_dir env with
       | Some script_dir =>
           Generator.final_tree
             (Generator.main (Runner.permits env) (Runner.write_fault env) script_dir st)
       | None => st
       end
  else st.

(** What [main] prints before the suite starts. *)
Definition generation_lines (env : Runner.Env) (args : Runner.Args) (st : fs)
  : list string :=
  if path_exists st (Runner.formal_dir args // "instructions") then []
  else match Runner.generator_dir env with
       | Some script_dir =>
           ["Generating test configurations..."]
           ++ Generator.output
                (Generator.main (Runner.permits env) (Runner.write_fault env) script_dir st)
           ++ ["[PASS] Test configurations generated successfully"]
       | None => []
       end.

(** The tree the jobs of a suite leave, before the report is saved. *)
Definition jobs_tree (env : Runner.Env) (self : Runner.Config)
    (st : fs) (formal_dir : Path) (categories : option (list string)) : fs :=
  snd (run_jobs env self
         (Runner.as_completed (Runner.schedule env)
            (Runner.all_test_files_of st formal_dir
               (Runner.selected_categories categories)))
         st).

(** The report file can be written when the jobs of the invocation are
    done: it can be opened and the writing meets no fault. *)
Definition report_writable (env : Runner.Env) (args : Runner.Args) (st : fs) : Prop :=
  let runner := Runner.init env (Runner.workers args) (Runner.timeout_arg args) in
  let report_file := Runner.formal_dir args // "verification_report.json" in
  can_write (Runner.permits env)
    (jobs_tree env runner (start_tree env args st) (Runner.formal_dir args)
       (Runner.categories args))
    report_file = true
  /\ Runner.write_fault env report_file = None.

(** Reading a result back from the object [save_detailed_report] stores
    for it. *)
Definition opt_str_of_json (j : json) : option (option string) :=
  match j with
  | JNull => Some None
  | JString s => Some (Some s)
  | _ => None
  end.

Definition result_of_json (j : json) : option Runner.TestResult :=
  match json_get "test_name" j, json_get "category" j, json_get "status" j,
        json_get "duration" j, json_get "log_file" j, json_get "error_message" j with
  | Some (JString n), Some (JString c), Some (JString s),
    Some (JFloat d), Some lf, Some em =>
      match opt_str_of_json lf, opt_str_of_json em with
      | Some lf', Some em' =>
          Some {| Runner.test_name := n; Runner.category := c; Runner.status := s;
                  Runner.duration := d; Runner.log_file := lf';
                  Runner.error_message := em' |}
      | _, _ => None
      end
  | _, _, _, _, _, _ => None
  end.

(** The entries of the results array of a report document. *)
Definition report_results (doc : json) : list json :=
  match json_get "results" doc with
  | Some (JArray items) => items
  | _ => []
  end.

(** Two outcomes of the counting loop agree: both raise, or both give the
    same status counts and the same counts for every category. *)
Definition same_tally
    (a b : exn + (list (string * nat) * list (string * list (string * nat)))) : Prop :=
  match a, b with
  | inr (sc, cs), inr (sc', cs') =>
      sc = sc' /\ forall c, dict_get c cs = dict_get c cs'
  | inl _, inl _ => True
  | _, _ => False
  end.

End RunnerVocabulary.

(** ** Outcomes up to the identity of the exception *)

Definition agree {A} (R : A -> A -> Prop) (a b : exn + A) : Prop :=
  match a, b with
  | inr x, inr y => R x y
  | inl _, inl _ => True
  | _, _ => False
  end.

(** Two ordered dictionaries with the same lookups. *)
Definition same_lookups {V} (d d' : list (string * V)) : Prop :=
  forall k, dict_get k d = dict_get k d'.

(** [e1 >>= f] on outcomes. *)
Definition and_then {A B} (a : exn + A) (f : A -> exn + B) : exn + B :=
  match a with
  | inl e => inl e
  | inr x => f x
  end.

(** One round of the counting loop on the per-category dictionary. *)
Definition category_step (cat st : string) (cs : list (string * list (string * nat)))
  : exn + list (string * list (string * nat)) :=
  dict_update cat (dict_incr st) (dict_setdefault cat Runner.zero_stats cs).

(** Two states of the counting loop with the same status counts and the
    same counts for every category. *)
Definition same_acc
    (a b : list (string * nat) * list (string * list (string * nat))) : Prop :=
  fst a = fst b /\ same_lookups (snd a) (snd b).

Definition status_keys : list string := ["PASS"; "FAIL"; "TIMEOUT"; "ERROR"].

(** ** Example inputs *)

Module Examples.

Definition allow_all (p : Path) : bool := true.

Definition no_fault (p : Path) : option (nat * string) := None.

(** The device takes five characters of whatever is written to [q] and
    then reports that it is full. *)
Definition full_after_five (q p : Path) : option (nat * string) :=
  if bool_decide (p = q) then Some (5, "[Errno 28] No space left on device") else None.

Definition formal : Path := ["formal"].

(** Only the directory of the scripts exists. *)
Definition fresh_tree : fs := <[formal := Dir]> ∅.

(** As [fresh_tree], but a directory sits where the artifact of [add]
    belongs, so that [open(..., 'w')] fails for this one entry. *)
Definition blocked_tree : fs :=
  <[formal // "instructions" // "verify_add.sby" := Dir]>
    (<[formal // "instructions" := Dir]> fresh_tree).

Definition add_path : Path := formal // "instructions" // "verify_add.sby".
Definition add_text : string := unlines (Generator.instruction_config_lines "add").
Definition sub_path : Path := formal // "instructions" // "verify_sub.sby".
Definition sub_text : string := unlines (Generator.instruction_config_lines "sub").

(** Two failed jobs, for the summary. *)
Definition alpha : @Runner.TestResult ExactFloat.ops :=
  {| Runner.test_name := "verify_add"; Runner.category := "instructions";
     Runner.status := "FAIL"; Runner.duration := 1%Q;
     Runner.log_file := None; Runner.error_message := Some "assertion failed" |}.

Definition beta : @Runner.TestResult ExactFloat.ops :=
  {| Runner.test_name := "verify_reg"; Runner.category := "system";
     Runner.status := "TIMEOUT"; Runner.duration := 1%Q;
     Runner.log_file := None;
     Runner.error_message := Some "Test timed out after 300 seconds" |}.

(** The scenario of three instruction jobs: [a] exits 0, [b] exits 1 and
    [c] runs past a timeout of one second. *)
Definition suite_tree : fs :=
  <[formal // "instructions" // "a.sby" := File "a"]>
    (<[formal // "instructions" // "b.sby" := File "b"]>
       (<[formal // "instructions" // "c.sby" := File "c"]>
          (<[formal // "instructions" := Dir]> fresh_tree))).

(** What [sby -f] leaves: the work directory of the test file, named
    after it, with the log of the model in it. *)
Definition work_dir (test_file : Path) : Path :=
  path_parent test_file // path_stem test_file.

Definition sby_leaves (test_file : Path) (st : fs) : fs :=
  <[work_dir test_file // "model" // "design.log" := File "log"]>
    (<[work_dir test_file // "model" := Dir]>
       (<[work_dir test_file := Dir]> st)).

(** The world of the scenario; [log_fault] says where looking for logs
    raises and [script_dir] where the generator's module is found. *)
Definition scenario_world
    (log_fault : Path -> option string) (script_dir : option Path)
  : @Runner.Env ExactFloat.ops :=
  {| Runner.sby := fun p =>
       if bool_decide (path_name p = "a.sby") then Exits (1 # 2) 0 "ok" ""
       else if bool_decide (path_name p = "b.sby") then Exits (1 # 4) 1 "out" "boom"
       else Exits 5 0 "" "";
     Runner.sby_writes := sby_leaves;
     Runner.elapsed := fun p =>
       if bool_decide (path_name p = "a.sby") then (1 # 2)%Q
       else if bool_decide (path_name p = "b.sby") then (1 # 4)%Q
       else 1%Q;
     Runner.log_fault := log_fault;
     Runner.schedule := [1; 1];
     Runner.wall_at_summary := (3 # 2)%Q;
     Runner.wall_at_save := (3 # 2)%Q;
     Runner.timestamp := "2025-01-01 00:00:00";
     Runner.cpu_count := 4%Z;
     Runner.permits := allow_all;
     Runner.write_fault := no_fault;
     Runner.generator_dir := script_dir |}.

Definition scenario_env : @Runner.Env ExactFloat.ops :=
  scenario_world (fun _ => None) (Some formal).

(** As [scenario_env], but no work directory may be searched. *)
Definition unsearchable (log_dir : Path) : option string :=
  Some ("[Errno 13] Permission denied: '" +:+ path_str log_dir +:+ "'").

Definition unsearchable_env : @Runner.Env ExactFloat.ops :=
  scenario_world unsearchable (Some formal).

Definition scenario_config : Runner.Config :=
  {| Runner.max_workers := 2; Runner.timeout := 1 |}.

Definition scenario_args : Runner.Args :=
  {| Runner.formal_dir := formal; Runner.categories := None;
     Runner.workers := Some 2%Z; Runner.timeout_arg := 1%Z;
     Runner.generate_only := false |}.

Definition generate_only_args : Runner.Args :=
  {| Runner.formal_dir := formal; Runner.categories := None;
     Runner.workers := None; Runner.timeout_arg := 300%Z;
     Runner.generate_only := true |}.

(** One test, which passes. *)
Definition single_tree : fs :=
  <[formal // "instructions" // "a.sby" := File "a"]>
    (<[formal // "instructions" := Dir]> fresh_tree).

Definition a_path : Path := formal // "instructions" // "a.sby".

(** One passing test, and a directory where the report file belongs. *)
Definition report_blocked_tree : fs :=
  <[formal // "verification_report.json" := Dir]>
    (<[formal // "instructions" // "a.sby" := File "a"]>
       (<[formal // "instructions" := Dir]> fresh_tree)).

End Examples.

(** ** Vocabulary of the further properties *)

(** The jobs the catalog stands for: one per entry, under the category
    key the runner uses for the entry's family. *)
Definition catalog_jobs (script_dir : Path) : list (Path * string) :=
  ((fun kv => (Generator.config_path (script_dir // "instructions") (fst kv), "instructions"))
     <$> Generator.RV32I_INSTRUCTIONS)
  ++ ((fun kv => (Generator.config_path (script_dir // "system_checks") (fst kv), "system"))
        <$> Generator.SYSTEM_CHECKS)
  ++ ((fun kv => (Generator.config_path (script_dir // "integration") (fst kv), "integration"))
        <$> Generator.INTEGRATION_CHECKS).

(** No [*.sby] entry lies directly in one of the three output directories
    except at the path of an artifact of the catalog. *)
Definition no_foreign_sby (script_dir : Path) (st : fs) : Prop :=
  forall p sub,
    sub ∈ ["instructions"; "system_checks"; "integration"] ->
    is_Some (st !! p) ->
    path_parent p = script_dir // sub ->
    endswith ".sby" (path_name p) = true ->
    p ∈ fst <$> artifacts script_dir.

(** The generator, started in tree [st] with module directory
    [script_dir], makes its directories and can open the artifact at path
    [p] for writing. *)
Definition opens_artifact
    (permits : Path -> bool) (script_dir : Path) (st : fs) (p : Path) : Prop :=
  snd (make_dirs permits script_dir st) = None
  /\ can_write permits (fst (make_dirs permits script_dir st)) p = true.

(** The three output directories of the generator. *)
Definition output_dirs (script_dir : Path) : list Path :=
  [script_dir // "instructions"; script_dir // "system_checks";
   script_dir // "integration"].

Section CountingVocabulary.

Context {F : FloatOps}.

(** How many results have status [s]. *)
Definition count_status (s : string) (results : list Runner.TestResult) : nat :=
  length (List.filter (fun r => String.eqb (Runner.status r) s) results).

(** The four status counts of a list of results, in the order of the keys
    of [status_counts]. *)
Definition counts_of (results : list Runner.TestResult) : list (string * nat) :=
  (fun s => (s, count_status s results)) <$> status_keys.

(** The results of one category. *)
Definition in_category (c : string) (results : list Runner.TestResult)
  : list Runner.TestResult :=
  List.filter (fun r => String.eqb (Runner.category r) c) results.

(** The distinct strings of a list, in the order of their first
    occurrence: the key order of a dictionary filled from the list. *)
Definition first_seen (l : list string) : list string :=
  fold_left (fun seen c => if bool_decide (c ∈ seen) then seen else seen ++ [c]) l [].

(** The status counts of every category, in the order in which the
    categories first occur. *)
Definition category_counts (results : list Runner.TestResult)
  : list (string * list (string * nat)) :=
  (fun c => (c, counts_of (in_category c results)))
    <$> first_seen (Runner.category <$> results).

(** The progress line printed for a finished job. *)
Definition progress_line (r : Runner.TestResult) : string :=
  ("[" +:+ Runner.status r +:+ "]")
  +:+ " [" +:+ ljust 12 (Runner.category r) +:+ "] "
  +:+ ljust 20 (Runner.test_name r) +:+ " - "
  +:+ ljust 8 (Runner.status r)
  +:+ " (" +:+ format_2f (Runner.duration r) +:+ "s)".

End CountingVocabulary.

(** The job of a test file leaves the three category directories below
    [formal_dir] as they are, and neither adds nor removes a [*.sby] entry
    directly in one of them. *)
Definition job_keeps_tests {F : FloatOps}
    (env : Runner.Env) (formal_dir : Path) (job : Path * string) : Prop :=
  forall (t : fs) (sub : string),
    sub ∈ ["instructions"; "system_checks"; "integration"] ->
    Runner.sby_writes env (fst job) t !! (formal_dir // sub) = t !! (formal_dir // sub)
    /\ forall p, path_parent p = formal_dir // sub ->
         endswith ".sby" (path_name p) = true ->
         (is_Some (Runner.sby_writes env (fst job) t !! p) <-> is_Some (t !! p)).

(** The job of a test file leaves path [p] as it is. *)
Definition job_leaves {F : FloatOps}
    (env : Runner.Env) (p : Path) (job : Path * string) : Prop :=
  forall t : fs, Runner.sby_writes env (fst job) t !! p = t !! p.

(** ** Further example inputs *)

Module Scenarios.

(** The command line [--workers -1 --timeout 1]. *)
Definition negative_workers_args : Runner.Args :=
  {| Runner.formal_dir := Examples.formal; Runner.categories := None;
     Runner.workers := Some (-1)%Z; Runner.timeout_arg := 1%Z;
     Runner.generate_only := false |}.

(** As [Examples.scenario_env], with the generator module found in
    [script_dir], or not found at all. *)
Definition env_with_generator (script_dir : option Path)
  : @Runner.Env ExactFloat.ops :=
  Examples.scenario_world (fun _ => None) script_dir.

(** A directory whose parent does not exist in [Examples.fresh_tree]. *)
Definition orphan_dir : Path := ["nowhere"; "formal"].

End Scenarios.

(** ** Reading the script and the file list of an artifact back *)

Module Script.

(** The word after the last blank of a line; [cur] is the word read so
    far. *)
Fixpoint last_token (s cur : string) : string :=
  match s with
  | EmptyString => cur
  | String c s' =>
      if Ascii.eqb c " "%char then last_token s' ""
      else last_token s' (cur +:+ String c "")
  end.

(** A string without a blank. *)
Fixpoint no_space (s : string) : bool :=
  match s with
  | EmptyString => true
  | String c s' => negb (Ascii.eqb c " "%char) && no_space s'
  end.

(** The file a [read_verilog] directive loads: its last word. *)
Definition read_path (line : string) : option string :=
  if String.prefix "read_verilog " line then Some (last_token line "") else None.

Fixpoint skip_to (header : string) (lines : list string) : list string :=
  match lines with
  | [] => []
  | l :: rest => if String.eqb l header then rest else skip_to header rest
  end.

Fixpoint until_header (lines : list string) : list string :=
  match lines with
  | [] => []
  | l :: rest => if String.prefix "[" l then [] else l :: until_header rest
  end.

(** The lines of section [[name]]: those after its header, up to the next
    header. *)
Definition section_lines (name : string) (lines : list string) : list string :=
  until_header (skip_to ("[" +:+ name +:+ "]") lines).

(** The files the script of an artifact loads, in the order of the
    directives. *)
Definition loaded_files (content : string) : list string :=
  omap read_path (section_lines "script" (Sby.lines_of content)).

(** The files the [[files]] section of an artifact lists. *)
Definition listed_files (content : string) : list string :=
  List.filter (fun l => negb (String.eqb l ""))
    (section_lines "files" (Sby.lines_of content)).

(** The commands of the script other than the loading directives: its
    lines that are not blank, no comment and no [read_verilog]. *)
Definition script_commands (content : string) : list string :=
  List.filter
    (fun l => negb (String.eqb l "") && negb (String.prefix "#" l)
              && negb (String.prefix "read_verilog " l))
    (section_lines "script" (Sby.lines_of content)).

(** The synthesis passes every script ends with. *)
Definition pipeline : list string :=
  [ "hierarchy -top top"; "proc"; "opt"; "memory -nomap"; "flatten";
    "setundef -undriven -anyseq"; "check"; "stat" ].

End Script.

(** * Properties of the generator *)

Section GeneratorFacts.

Variable permits : Path -> bool.
Variable write_fault : Path -> option (nat * string).

Lemma write_file_tree p c st :
  snd (write_file permits write_fault p c st) = write_or_skip permits write_fault st (p, c).
Proof.
  unfold write_or_skip, can_write, write_file. cbn [fst snd].
  destruct (is_dir st p); [done|].
  destruct (is_dir st (path_parent p)); [|done].
  destruct (permits p); [|done]. cbn [negb andb].
  by destruct (write_fault p) as [[n msg]|].
Qed.

(** The writing raises nothing exactly when the file can be opened and
    the writing meets no fault. *)
Lemma write_file_ok p c st :
  writes_fully permits write_fault st p = true ->
  fst (write_file permits write_fault p c st) = None.
Proof.
  unfold writes_fully, can_write, write_file.
  intros [H Hf]%andb_true_iff. apply bool_decide_eq_true in Hf. rewrite Hf.
  destruct (is_dir st p); [done|].
  destruct (is_dir st (path_parent p)); [|done].
  by destruct (permits p).
Qed.

Lemma write_file_fail p c st :
  writes_fully permits write_fault st p = false ->
  exists e, fst (write_file permits write_fault p c st) = Some e.
Proof.
  unfold writes_fully, can_write, write_file. intros H.
  destruct (is_dir st p); [eauto|].
  destruct (is_dir st (path_parent p)); [|eauto].
  destruct (permits p); [|eauto]. cbn [negb andb] in *.
  destruct (write_fault p) as [[n msg]|]; [eauto|].
  by rewrite bool_decide_eq_true_2 in H.
Qed.

(** Writing files never changes which paths are directories. *)
Lemma is_dir_write_or_skip st task q :
  is_dir (write_or_skip permits write_fault st task) q = is_dir st q.
Proof.
  unfold write_or_skip.
  destruct (can_write permits st (fst task)) eqn:H; [|done].
  unfold is_dir. destruct (decide (fst task = q)) as [<-|Hne].
  - rewrite lookup_insert_eq.
    unfold can_write, is_dir in H.
    by destruct (st !! fst task) as [[]|].
  - by rewrite lookup_insert_ne.
Qed.

Lemma is_dir_write_file p c st q :
  is_dir (snd (write_file permits write_fault p c st)) q = is_dir st q.
Proof. rewrite write_file_tree. apply is_dir_write_or_skip. Qed.

Lemma is_dir_write_all tasks st q :
  is_dir (write_all permits write_fault st tasks) q = is_dir st q.
Proof.
  unfold write_all. revert st.
  induction tasks as [|t tasks IH]; intros st; [done|].
  simpl. by rewrite IH, is_dir_write_or_skip.
Qed.

Lemma can_write_dirs st st' p :
  (forall q, is_dir st' q = is_dir st q) ->
  can_write permits st' p = can_write permits st p.
Proof. intros H. unfold can_write. by rewrite !H. Qed.

Lemma writes_fully_dirs st st' p :
  (forall q, is_dir st' q = is_dir st q) ->
  writes_fully permits write_fault st' p = writes_fully permits write_fault st p.
Proof. intros H. unfold writes_fully. by rewrite (can_write_dirs st st' p H). Qed.

Lemma write_file_dirs st st' p c :
  (forall q, is_dir st' q = is_dir st q) ->
  fst (write_file permits write_fault p c st') = fst (write_file permits write_fault p c st).
Proof.
  intros H. unfold write_file. rewrite !H.
  destruct (is_dir st p); [done|].
  destruct (is_dir st (path_parent p)); [|done].
  destruct (permits p); [|done]. cbn [negb].
  by destruct (write_fault p) as [[n msg]|].
Qed.

Lemma entry_line_dirs render width dir st st' kv :
  (forall q, is_dir st' q = is_dir st q) ->
  entry_line permits write_fault render width dir st' kv
  = entry_line permits write_fault render width dir st kv.
Proof.
  intros H. unfold entry_line. by rewrite (write_file_dirs st st' _ _ H).
Qed.

Lemma creates_instruction :
  creates permits write_fault (Generator.create_instruction_config permits write_fault) Generator.instruction_config_lines.
Proof. by intros ????. Qed.

Lemma creates_system :
  creates permits write_fault (Generator.create_system_config permits write_fault) Generator.system_config_lines.
Proof. by intros ????. Qed.

Lemma creates_integration :
  creates permits write_fault (Generator.create_integration_config permits write_fault) Generator.integration_config_lines.
Proof. by intros ????. Qed.

(** One generation loop: every entry is visited, whatever happened to the
    entries before it. *)
Lemma generate_loop_spec create render width dir items s :
  creates permits write_fault create render ->
  Generator.generate_loop create width dir items s =
  {| Generator.configs :=
       Generator.configs s
       ++ (Generator.config_path dir <$>
             (fst <$> List.filter
                (fun kv => writes_fully permits write_fault (Generator.tree s)
                             (Generator.config_path dir (fst kv))) items));
     Generator.tree :=
       write_all permits write_fault (Generator.tree s) (artifacts_of render dir items);
     Generator.printed :=
       Generator.printed s
       ++ (entry_line permits write_fault render width dir (Generator.tree s) <$> items) |}.
Proof.
  intros Hc. revert s.
  induction items as [|[check description] items IH]; intros [cfgs st out].
  - simpl. by rewrite !app_nil_r.
  - cbn [Generator.generate_loop Generator.tree Generator.configs Generator.printed].
    rewrite Hc.
    cbn [List.filter fmap list_fmap artifacts_of write_all fold_left fst snd].
    pose proof (write_file_tree (Generator.config_path dir check)
                  (unlines (render check)) st) as Htree.
    assert (Hline : entry_line permits write_fault render width dir st (check, description) =
                    match fst (write_file permits write_fault (Generator.config_path dir check)
                                 (unlines (render check)) st) with
                    | None => "  [PASS] " +:+ ljust width (upper check) +:+ " - " +:+ description
                    | Some e => "  [ERROR] " +:+ ljust width (upper check)
                                +:+ " - Error: " +:+ str_exn e
                    end) by done.
    rewrite Hline. clear Hline.
    assert (Hd : forall q,
               is_dir (write_or_skip permits write_fault st
                         (Generator.config_path dir check, unlines (render check))) q
               = is_dir st q)
      by (intros q; apply is_dir_write_or_skip).
    destruct (writes_fully permits write_fault st (Generator.config_path dir check)) eqn:Hw.
    + pose proof (write_file_ok _ (unlines (render check)) st Hw) as Hok.
      destruct (write_file permits write_fault _ _ st) as [[e|] st'];
        cbn [fst snd] in *; [done|]. subst st'.
      rewrite IH. cbn [Generator.tree Generator.configs Generator.printed].
      rewrite (List.filter_ext _ _ (fun kv => writes_fully_dirs st _ _ Hd)).
      rewrite (list_fmap_ext (entry_line permits write_fault render width dir _)
                 (entry_line permits write_fault render width dir st) items)
        by (intros; by apply entry_line_dirs).
      by rewrite <- !app_assoc.
    + destruct (write_file_fail _ (unlines (render check)) st Hw) as [e He].
      destruct (write_file permits write_fault _ _ st) as [[e'|] st'];
        cbn [fst snd] in *; [|done]. subst st'.
      rewrite IH. cbn [Generator.tree Generator.configs Generator.printed].
      rewrite (List.filter_ext _ _ (fun kv => writes_fully_dirs st _ _ Hd)).
      rewrite (list_fmap_ext (entry_line permits write_fault render width dir _)
                 (entry_line permits write_fault render width dir st) items)
        by (intros; by apply entry_line_dirs).
      by rewrite <- !app_assoc.
Qed.

Lemma write_all_app st a b :
  write_all permits write_fault st (a ++ b) = write_all permits write_fault (write_all permits write_fault st a) b.
Proof. apply fold_left_app. Qed.

Lemma written_count_dirs dir st st' items :
  (forall q, is_dir st' q = is_dir st q) ->
  written_count permits write_fault dir st' items = written_count permits write_fault dir st items.
Proof.
  intros H. unfold written_count. f_equal.
  apply List.filter_ext. intros kv. by apply writes_fully_dirs.
Qed.

(** [main] in one piece: it stops only at a failing [mkdir]; once the
    three directories exist it visits every entry and returns [True]. *)
Lemma outcome_eq r t t' o o' :
  t = t' -> o = o' ->
  {| Generator.returned := r; Generator.final_tree := t; Generator.output := o |} =
  {| Generator.returned := r; Generator.final_tree := t'; Generator.output := o' |}.
Proof. by intros -> ->. Qed.

#[local] Opaque Generator.RV32I_INSTRUCTIONS Generator.SYSTEM_CHECKS
  Generator.INTEGRATION_CHECKS Generator.instruction_config_lines
  Generator.system_config_lines Generator.integration_config_lines
  str_nat path_str upper ljust unlines.

Lemma main_spec dir st :
  Generator.main permits write_fault dir st =
  match make_dirs permits dir st with
  | (t, Some e) =>
      {| Generator.returned := inl e; Generator.final_tree := t;
         Generator.output := [] |}
  | (st3, None) =>
      {| Generator.returned := inr true;
         Generator.final_tree := write_all permits write_fault st3 (artifacts dir);
         Generator.output := main_output permits write_fault dir st3 |}
  end.
Proof.
  unfold Generator.main, make_dirs.
  destruct (mkdir permits (dir // "instructions") st) as [e|st1]; [done|].
  destruct (mkdir permits (dir // "system_checks") st1) as [e|st2]; [done|].
  destruct (mkdir permits (dir // "integration") st2) as [e|st3]; [done|].
  rewrite (generate_loop_spec _ _ _ _ _ _ creates_instruction).
  cbn [Generator.tree Generator.configs Generator.printed].
  rewrite (generate_loop_spec _ _ _ _ _ _ creates_system).
  cbn [Generator.tree Generator.configs Generator.printed].
  rewrite (generate_loop_spec _ _ _ _ _ _ creates_integration).
  cbn [Generator.tree Generator.configs Generator.printed].
  set (t1 := write_all permits write_fault st3 _).
  set (t2 := write_all permits write_fault t1 _).
  assert (H1 : forall q, is_dir t1 q = is_dir st3 q)
    by (intros q; apply is_dir_write_all).
  assert (H2 : forall q, is_dir t2 q = is_dir st3 q)
    by (intros q; unfold t2; by rewrite is_dir_write_all).
  apply outcome_eq.
  - unfold artifacts. by rewrite !write_all_app.
  - unfold main_output.
    rewrite (list_fmap_ext (entry_line permits write_fault _ 12 _ t1)
               (entry_line permits write_fault Generator.system_config_lines 12
                  (dir // "system_checks") st3) Generator.SYSTEM_CHECKS)
      by (intros; by apply entry_line_dirs).
    rewrite (list_fmap_ext (entry_line permits write_fault _ 8 _ t2)
               (entry_line permits write_fault Generator.integration_config_lines 8
                  (dir // "integration") st3) Generator.INTEGRATION_CHECKS)
      by (intros; by apply entry_line_dirs).
    cbn [app]. rewrite !length_fmap.
    fold (written_count permits write_fault (dir // "instructions") st3 Generator.RV32I_INSTRUCTIONS).
    fold (written_count permits write_fault (dir // "system_checks") t1 Generator.SYSTEM_CHECKS).
    fold (written_count permits write_fault (dir // "integration") t2 Generator.INTEGRATION_CHECKS).
    rewrite (written_count_dirs _ st3 t1) by done.
    rewrite (written_count_dirs _ st3 t2) by done.
    rewrite <- !app_assoc. reflexivity.
Qed.

Lemma generator_returned dir st :
  Generator.returned (Generator.main permits write_fault dir st)
  = match snd (make_dirs permits dir st) with
    | Some e => inl e
    | None => inr true
    end.
Proof. rewrite main_spec. by destruct (make_dirs permits dir st) as [t [e|]]. Qed.

(** What a run of writes leaves at a path. *)
Lemma write_all_lookup tasks st p :
  NoDup (fst <$> tasks) ->
  write_all permits write_fault st tasks !! p =
  match task_content p tasks with
  | Some c =>
      if can_write permits st p
      then Some (File (written_text write_fault p c)) else st !! p
  | None => st !! p
  end.
Proof.
  unfold write_all. revert st.
  induction tasks as [|[q c] tasks IH]; intros st Hnd; [done|].
  apply NoDup_cons in Hnd as [Hq Hnd].
  cbn [fold_left task_content]. rewrite IH by done.
  rewrite (can_write_dirs _ _ p (is_dir_write_or_skip st (q, c))).
  unfold write_or_skip. cbn [fst snd].
  case_bool_decide as Hqp.
  - subst q.
    assert (task_content p tasks = None) as ->.
    { clear -Hq. induction tasks as [|[q' c'] tasks IH]; [done|].
      simpl. case_bool_decide; [set_solver|]. apply IH. set_solver. }
    destruct (can_write permits st p); [by rewrite lookup_insert_eq|done].
  - destruct (can_write permits st q); [|done].
    rewrite lookup_insert_ne by done. done.
Qed.

Lemma task_content_Some p c tasks :
  NoDup (fst <$> tasks) -> (p, c) ∈ tasks -> task_content p tasks = Some c.
Proof.
  induction tasks as [|[q c'] tasks IH]; intros Hnd Hin; [by apply elem_of_nil in Hin|].
  apply NoDup_cons in Hnd as [Hq Hnd]. simpl.
  apply elem_of_cons in Hin as [Heq|Hin].
  - injection Heq as -> ->. by rewrite bool_decide_eq_true_2.
  - case_bool_decide; [|by apply IH].
    subst q. exfalso. apply Hq. apply list_elem_of_fmap. by exists (p, c).
Qed.

Lemma task_content_elem p c tasks :
  task_content p tasks = Some c -> (p, c) ∈ tasks.
Proof.
  induction tasks as [|[q c'] tasks IH]; [done|]. simpl.
  case_bool_decide; [|set_solver]. intros [= ->]. subst. set_solver.
Qed.

Lemma write_all_idem st tasks :
  NoDup (fst <$> tasks) ->
  write_all permits write_fault (write_all permits write_fault st tasks) tasks = write_all permits write_fault st tasks.
Proof.
  intros Hnd. apply map_eq. intros p.
  rewrite (write_all_lookup tasks (write_all permits write_fault st tasks)) by done.
  rewrite (can_write_dirs _ _ p (is_dir_write_all tasks st)).
  destruct (task_content p tasks) as [c|] eqn:Hc; [|done].
  destruct (can_write permits st p) eqn:Hw; [|done].
  by rewrite write_all_lookup, Hc, Hw.
Qed.

(** *** Directories *)

Lemma mkdir_existing p st :
  is_dir st p = true -> mkdir permits p st = inr st.
Proof. unfold is_dir, mkdir. by destruct (st !! p) as [[]|]. Qed.

Lemma mkdir_is_dir p st st' :
  mkdir permits p st = inr st' ->
  is_dir st' p = true /\ (forall q, is_dir st q = true -> is_dir st' q = true).
Proof.
  unfold mkdir. destruct (st !! p) as [[|c]|] eqn:Hp.
  - intros [= <-]. split; [|done]. unfold is_dir. by rewrite Hp.
  - done.
  - destruct (negb (is_dir st (path_parent p))); [done|].
    destruct (negb (permits p)); [done|]. intros [= <-]. split.
    + unfold is_dir. by rewrite lookup_insert_eq.
    + intros q Hq. unfold is_dir in *. destruct (decide (p = q)) as [<-|].
      * by rewrite lookup_insert_eq.
      * by rewrite lookup_insert_ne.
Qed.

Lemma make_dirs_existing dir st :
  is_dir st (dir // "instructions") = true ->
  is_dir st (dir // "system_checks") = true ->
  is_dir st (dir // "integration") = true ->
  make_dirs permits dir st = (st, None).
Proof.
  intros H1 H2 H3. unfold make_dirs. by rewrite !mkdir_existing.
Qed.

Lemma make_dirs_ok dir st st3 :
  make_dirs permits dir st = (st3, None) ->
  is_dir st3 (dir // "instructions") = true
  /\ is_dir st3 (dir // "system_checks") = true
  /\ is_dir st3 (dir // "integration") = true.
Proof.
  unfold make_dirs.
  destruct (mkdir permits (dir // "instructions") st) as [e|st1] eqn:H1; [done|].
  destruct (mkdir permits (dir // "system_checks") st1) as [e|st2] eqn:H2; [done|].
  destruct (mkdir permits (dir // "integration") st2) as [e|st3'] eqn:H3; [done|].
  intros [= <-].
  apply mkdir_is_dir in H1 as [H1 _], H2 as [H2 H2'], H3 as [H3 H3'].
  auto.
Qed.

(** Creating the directories again stops at the same place. *)
Lemma make_dirs_idem dir st :
  make_dirs permits dir (fst (make_dirs permits dir st)) = make_dirs permits dir st.
Proof.
  destruct (make_dirs permits dir st) as [t [e|]] eqn:Hm.
  - revert Hm. unfold make_dirs.
    destruct (mkdir permits (dir // "instructions") st) as [e1|st1] eqn:H1.
    { intros [= <- <-]. simpl. by rewrite H1. }
    destruct (mkdir permits (dir // "system_checks") st1) as [e2|st2] eqn:H2.
    { intros [= <- <-]. simpl. apply mkdir_is_dir in H1 as [H1 _].
      by rewrite (mkdir_existing _ _ H1), H2. }
    destruct (mkdir permits (dir // "integration") st2) as [e3|st3] eqn:H3; [|done].
    intros [= <- <-]. simpl.
    apply mkdir_is_dir in H1 as [H1 _], H2 as [H2 H2'].
    by rewrite (mkdir_existing _ _ (H2' _ H1)), (mkdir_existing _ _ H2), H3.
  - simpl. apply make_dirs_ok in Hm as (H1 & H2 & H3).
    by apply make_dirs_existing.
Qed.

End GeneratorFacts.

(** *** The artifact paths are pairwise distinct *)

Lemma artifacts_of_paths render dir items :
  fst <$> artifacts_of render dir items = (fun n => dir ++ [n]) <$> artifact_names items.
Proof.
  unfold artifacts_of, artifact_names. rewrite <- !list_fmap_compose.
  by apply list_fmap_ext.
Qed.

Lemma artifact_names_NoDup :
  NoDup (artifact_names Generator.RV32I_INSTRUCTIONS)
  /\ NoDup (artifact_names Generator.SYSTEM_CHECKS)
  /\ NoDup (artifact_names Generator.INTEGRATION_CHECKS).
Proof.
  repeat split; apply (bool_decide_unpack _); vm_compute; exact I.
Qed.

Lemma artifacts_NoDup dir : NoDup (fst <$> artifacts dir).
Proof.
  destruct artifact_names_NoDup as (N1 & N2 & N3).
  assert (Hinj : forall d : Path, Inj (=) (=) (fun n : string => d ++ [n])).
  { intros d a b Hab. by apply app_inv_head in Hab as [= ->]. }
  assert (Hsep : forall (a b : string) (x y : string),
             a <> b -> (dir // a) ++ [x] <> (dir // b) ++ [y]).
  { intros a b x y Hab Heq. apply app_inj_tail in Heq as [Heq _].
    unfold path_div in Heq. by apply app_inv_head in Heq as [= ->]. }
  unfold artifacts. rewrite !fmap_app, !artifacts_of_paths.
  apply NoDup_app. split; [by apply NoDup_fmap_2|]. split.
  - intros p Hp Hq. apply list_elem_of_fmap in Hp as (x & -> & _).
    apply elem_of_app in Hq as [Hq|Hq];
      apply list_elem_of_fmap in Hq as (y & Hq & _); by apply Hsep in Hq.
  - apply NoDup_app. split; [by apply NoDup_fmap_2|]. split; [|by apply NoDup_fmap_2].
    intros p Hp Hq. apply list_elem_of_fmap in Hp as (x & -> & _).
    apply list_elem_of_fmap in Hq as (y & Hq & _). by apply Hsep in Hq.
Qed.

(** *** Claims about the generator *)

Section GeneratorClaims.

Variable permits : Path -> bool.
Variable write_fault : Path -> option (nat * string).

Lemma final_tree_spec dir st :
  Generator.final_tree (Generator.main permits write_fault dir st) =
  match make_dirs permits dir st with
  | (t, Some _) => t
  | (st3, None) => write_all permits write_fault st3 (artifacts dir)
  end.
Proof. rewrite main_spec. by destruct (make_dirs permits dir st) as [t [e|]]. Qed.

Lemma written_text_no_fault p c :
  write_fault p = None -> written_text write_fault p c = c.
Proof. unfold written_text. by intros ->. Qed.

Lemma artifact_is_file dir st3 p c :
  (p, c) ∈ artifacts dir ->
  can_write permits st3 p = true ->
  write_fault p = None ->
  write_all permits write_fault st3 (artifacts dir) !! p = Some (File c).
Proof.
  intros Hin Hw Hf. rewrite write_all_lookup by apply artifacts_NoDup.
  by rewrite (task_content_Some p c), Hw, written_text_no_fault
    by (apply artifacts_NoDup || done).
Qed.

Lemma regenerate_after_delete dir st3 p c :
  is_dir st3 (dir // "instructions") = true ->
  is_dir st3 (dir // "system_checks") = true ->
  is_dir st3 (dir // "integration") = true ->
  (p, c) ∈ artifacts dir ->
  can_write permits st3 p = true ->
  let once := write_all permits write_fault st3 (artifacts dir) in
  Generator.final_tree (Generator.main permits write_fault dir (delete p once)) = once.
Proof.
  intros D1 D2 D3 Hin Hw once.
  assert (Hlook : forall q, once !! q =
            match task_content q (artifacts dir) with
            | Some c' =>
                if can_write permits st3 q
                then Some (File (written_text write_fault q c')) else st3 !! q
            | None => st3 !! q
            end)
    by (intros q; apply write_all_lookup, artifacts_NoDup).
  assert (Hp : task_content p (artifacts dir) = Some c)
    by (apply task_content_Some; [apply artifacts_NoDup|done]).
  assert (Hfile : once !! p = Some (File (written_text write_fault p c)))
    by (by rewrite Hlook, Hp, Hw).
  assert (Hd : forall q, is_dir (delete p once) q = is_dir st3 q).
  { intros q. rewrite <- (is_dir_write_all permits write_fault (artifacts dir) st3 q).
    fold once. unfold is_dir. destruct (decide (p = q)) as [<-|].
    - by rewrite lookup_delete_eq, Hfile.
    - by rewrite lookup_delete_ne. }
  rewrite final_tree_spec, make_dirs_existing by (by rewrite Hd).
  apply map_eq. intros q.
  rewrite write_all_lookup by apply artifacts_NoDup.
  rewrite (can_write_dirs permits _ _ q Hd), Hlook.
  destruct (task_content q (artifacts dir)) as [c'|] eqn:Hq.
  - destruct (can_write permits st3 q) eqn:Hwq; [done|].
    destruct (decide (p = q)) as [<-|]; [congruence|].
    by rewrite lookup_delete_ne, Hlook, Hq, Hwq.
  - destruct (decide (p = q)) as [<-|]; [congruence|].
    by rewrite lookup_delete_ne, Hlook, Hq.
Qed.

End GeneratorClaims.

Section GeneratorTheorems.

Variable permits : Path -> bool.
Variable write_fault : Path -> option (nat * string).

(** C5.  Generation is idempotent.  Running [main] a second time on the
    tree the first run left changes nothing, so every artifact is
    byte-identical; an artifact the run writes holds the rendering of its
    catalog entry; and after deleting one written artifact, a further run
    restores exactly that artifact and leaves every other path of the
    tree as it was. *)
Theorem C5_generation_idempotent (script_dir : Path) (st : fs) :
  let once := Generator.final_tree (Generator.main permits write_fault script_dir st) in
  let twice := Generator.final_tree (Generator.main permits write_fault script_dir once) in
  twice = once
  /\ (forall p c, (p, c) ∈ artifacts script_dir ->
        writes_artifact permits write_fault script_dir st p ->
        once !! p = Some (File c) /\ twice !! p = Some (File c))
  /\ (forall p c, (p, c) ∈ artifacts script_dir ->
        writes_artifact permits write_fault script_dir st p ->
        let again :=
          Generator.final_tree (Generator.main permits write_fault script_dir (delete p once)) in
        again !! p = Some (File c)
        /\ forall q, q <> p -> again !! q = once !! q).
Proof.
  intros once twice.
  assert (Hidem : twice = once).
  { unfold twice, once. rewrite !final_tree_spec.
    destruct (make_dirs permits script_dir st) as [t [e|]] eqn:Hm.
    - pose proof (make_dirs_idem permits script_dir st) as Hi.
      rewrite Hm in Hi. simpl in Hi. by rewrite Hi.
    - pose proof (make_dirs_ok permits _ _ _ Hm) as (D1 & D2 & D3).
      rewrite make_dirs_existing by (by rewrite is_dir_write_all).
      apply write_all_idem, artifacts_NoDup. }
  assert (Hfile : forall p c, (p, c) ∈ artifacts script_dir ->
            writes_artifact permits write_fault script_dir st p -> once !! p = Some (File c)).
  { intros p c Hin (Hm & Hw & Hf). unfold once. rewrite final_tree_spec.
    destruct (make_dirs permits script_dir st) as [st3 [e|]]; [done|].
    by apply artifact_is_file. }
  split; [done|]. split.
  - intros p c Hin Hw. rewrite Hidem. split; by apply Hfile.
  - intros p c Hin Hw again.
    assert (again = once) as ->; [|split; [by apply Hfile|done]].
    unfold again, once. rewrite (final_tree_spec permits write_fault script_dir st).
    destruct Hw as (Hm & Hw & Hf).
    destruct (make_dirs permits script_dir st) as [st3 [e|]] eqn:Hmk; [done|].
    pose proof (make_dirs_ok permits _ _ _ Hmk) as (D1 & D2 & D3).
    by apply (regenerate_after_delete permits write_fault script_dir st3 p c).
Qed.

(** C4, as amended.  When the three output directories can be made,
    [main] returns [True]; it prints one status line per catalog entry,
    [PASS] when the artifact is written in full and [ERROR] with the
    exception's text when opening or writing it fails; and a failing
    entry stops no other entry.  Every artifact that is written in full
    is in the final tree; the path of an entry whose file cannot be
    opened is left as it was; and where the writing fails after the file
    was opened, the file is left with the part of the text that was
    written, which may be empty. *)
Theorem C4_entry_failures_are_isolated (script_dir : Path) (st : fs) :
  snd (make_dirs permits script_dir st) = None ->
  let st3 := fst (make_dirs permits script_dir st) in
  let o := Generator.main permits write_fault script_dir st in
  Generator.returned o = inr true
  /\ Generator.output o = main_output permits write_fault script_dir st3
  /\ (forall render width dir kv,
        if can_write permits st3 (Generator.config_path dir (fst kv))
        then match write_fault (Generator.config_path dir (fst kv)) with
             | None =>
                 entry_line permits write_fault render width dir st3 kv =
                 "  [PASS] " +:+ ljust width (upper (fst kv)) +:+ " - " +:+ snd kv
             | Some (_, msg) =>
                 entry_line permits write_fault render width dir st3 kv =
                 "  [ERROR] " +:+ ljust width (upper (fst kv)) +:+ " - Error: " +:+ msg
             end
        else exists e,
             entry_line permits write_fault render width dir st3 kv =
             "  [ERROR] " +:+ ljust width (upper (fst kv)) +:+ " - Error: " +:+ str_exn e)
  /\ (forall p c, (p, c) ∈ artifacts script_dir ->
        Generator.final_tree o !! p =
        if can_write permits st3 p
        then match write_fault p with
             | None => Some (File c)
             | Some (n, _) => Some (File (take_chars n c))
             end
        else st3 !! p).
Proof.
  intros Hm st3 o. unfold o, st3. rewrite main_spec.
  destruct (make_dirs permits script_dir st) as [t [e|]]; [done|].
  cbn [fst snd Generator.returned Generator.output Generator.final_tree].
  repeat split.
  - intros render width dir kv. unfold entry_line, write_file, can_write.
    destruct (is_dir t (Generator.config_path dir (fst kv))); [by eexists|].
    destruct (is_dir t (path_parent (Generator.config_path dir (fst kv))));
      [|by eexists].
    destruct (permits (Generator.config_path dir (fst kv))); [|by eexists].
    cbn [negb andb].
    by destruct (write_fault (Generator.config_path dir (fst kv))) as [[n msg]|].
  - intros p c Hin. rewrite write_all_lookup by apply artifacts_NoDup.
    rewrite (task_content_Some p c) by (apply artifacts_NoDup || done).
    unfold written_text. by destruct (write_fault p) as [[n msg]|].
Qed.

End GeneratorTheorems.

(** C4, as stated, fails: the value [main] returns is [True] whatever
    happened to the entries.  In [fresh_tree] every entry is written; in
    [blocked_tree] the entry [add] fails, which shows only in its printed
    line; both runs return [True], so no per-entry list can be read off
    the returned value. *)
Lemma C4_returns_no_entry_list :
  let ok := Generator.main Examples.allow_all Examples.no_fault Examples.formal Examples.fresh_tree in
  let blocked := Generator.main Examples.allow_all Examples.no_fault Examples.formal Examples.blocked_tree in
  Generator.returned ok = inr true
  /\ Generator.returned blocked = inr true
  /\ "  [PASS] ADD      - R-type arithmetic" ∈ Generator.output ok
  /\ (exists line, line ∈ Generator.output blocked
                     /\ String.prefix "  [ERROR] ADD      - Error: " line = true)
  /\ ~ (exists decode : exn + bool -> list bool,
          forall permits write_fault script_dir st,
            decode (Generator.returned (Generator.main permits write_fault script_dir st))
            = entry_successes permits write_fault script_dir st).
Proof.
  assert (H1 : Generator.returned
                 (Generator.main Examples.allow_all Examples.no_fault Examples.formal Examples.fresh_tree)
               = inr true) by (vm_compute; reflexivity).
  assert (H2 : Generator.returned
                 (Generator.main Examples.allow_all Examples.no_fault Examples.formal Examples.blocked_tree)
               = inr true) by (vm_compute; reflexivity).
  split; [done|]. split; [done|].
  split; [apply (bool_decide_unpack _); vm_compute; exact I|].
  split.
  { exists ("  [ERROR] ADD      - Error: "
            +:+ "[Errno 21] Is a directory: 'formal/instructions/verify_add.sby'").
    split; [apply (bool_decide_unpack _); vm_compute; exact I|reflexivity]. }
  intros [decode Hd].
  pose proof (Hd Examples.allow_all Examples.no_fault Examples.formal Examples.fresh_tree)
    as Ha.
  pose proof (Hd Examples.allow_all Examples.no_fault Examples.formal Examples.blocked_tree)
    as Hb.
  rewrite H1 in Ha. rewrite H2, Ha in Hb.
  apply (f_equal (fun l => l !! 0)) in Hb.
  vm_compute in Hb. discriminate Hb.
Qed.

(** C4 at work in [blocked_tree], on a device that is full after five
    characters of the artifact of [sub]: the entry [add] cannot be opened
    and its path stays the directory it was, the entry [sub] is left with
    the five characters written, and the entry [addi] is written in
    full. *)
Lemma C4_entry_failures_are_isolated_witness :
  let o := Generator.main Examples.allow_all (Examples.full_after_five Examples.sub_path)
             Examples.formal Examples.blocked_tree in
  Generator.returned o = inr true
  /\ Generator.final_tree o !! Examples.add_path = Some Dir
  /\ Generator.final_tree o !! Examples.sub_path = Some (File "[opti")
  /\ Generator.final_tree o !! (Examples.formal // "instructions" // "verify_addi.sby")
     = Some (File (unlines (Generator.instruction_config_lines "addi"))).
Proof.
  assert (Hm : snd (make_dirs Examples.allow_all Examples.formal Examples.blocked_tree) = None)
    by (vm_compute; reflexivity).
  pose proof (C4_entry_failures_are_isolated Examples.allow_all
                (Examples.full_after_five Examples.sub_path)
                Examples.formal Examples.blocked_tree Hm) as (Hr & _ & _ & Hf).
  split; [exact Hr|]. split; [|split].
  - rewrite (Hf Examples.add_path Examples.add_text).
    + vm_compute. reflexivity.
    + apply (bool_decide_unpack _). vm_compute. exact I.
  - rewrite (Hf Examples.sub_path Examples.sub_text).
    + vm_compute. reflexivity.
    + apply (bool_decide_unpack _). vm_compute. exact I.
  - rewrite (Hf _ (unlines (Generator.instruction_config_lines "addi"))).
    + vm_compute. reflexivity.
    + apply (bool_decide_unpack _). vm_compute. exact I.
Defined.

(** C5 at work: in [fresh_tree] the artifact of [add] is written; deleting
    it and generating again restores it. *)
Lemma C5_generation_idempotent_witness :
  let once := Generator.final_tree
                (Generator.main Examples.allow_all Examples.no_fault Examples.formal Examples.fresh_tree) in
  Generator.final_tree
    (Generator.main Examples.allow_all Examples.no_fault Examples.formal (delete Examples.add_path once))
    !! Examples.add_path = Some (File Examples.add_text).
Proof.
  refine (proj1 (proj2 (proj2 (C5_generation_idempotent Examples.allow_all Examples.no_fault
                                  Examples.formal Examples.fresh_tree))
                   Examples.add_path Examples.add_text _ _)).
  - apply (bool_decide_unpack _). vm_compute. exact I.
  - repeat split; vm_compute; reflexivity.
Defined.

(** * The proof depth of an artifact *)

Lemma lines_of_line (l rest : string) :
  single_line l = true ->
  Sby.lines_of (l +:+ LF +:+ rest) = l :: Sby.lines_of rest.
Proof.
  change (LF +:+ rest) with (String "010" rest).
  induction l as [|c l IH]; intros Hl; [done|].
  simpl in Hl. apply andb_true_iff in Hl as [Hc Hl].
  simpl. destruct (Ascii.eqb c "010") eqn:E; [done|].
  by rewrite IH.
Qed.

(** The options section comes first and no catalog text enters it, so the
    depth can be read without looking at the rest of the artifact. *)
Lemma depth_of_options (l4 : string) (rest : list string) :
  single_line l4 = true ->
  Sby.depth_of (unlines ("[options]" :: "mode prove" :: "expect pass" :: l4 :: rest))
  = Sby.scan_depth (l4 :: Sby.lines_of (unlines rest)) true.
Proof.
  intros H4. unfold Sby.depth_of. cbn [unlines].
  rewrite !lines_of_line by done. reflexivity.
Qed.

Lemma instruction_depth (instruction : string) :
  Sby.depth_of (unlines (Generator.instruction_config_lines instruction)) = Some 20.
Proof.
  unfold Generator.instruction_config_lines. by rewrite depth_of_options.
Qed.

Lemma system_depth (check_name : string) :
  Sby.depth_of (unlines (Generator.system_config_lines check_name)) = Some 30.
Proof.
  unfold Generator.system_config_lines. by rewrite depth_of_options.
Qed.

Lemma integration_depth (check_name : string) :
  Sby.depth_of (unlines (Generator.integration_config_lines check_name)) = Some 50.
Proof.
  unfold Generator.integration_config_lines. by rewrite depth_of_options.
Qed.

(** C8.  The proof depth grows with the category: whatever the check
    identifiers, the depth set in an instruction artifact (20) is below
    the depth set in a system-check artifact (30), which is below the
    depth set in an integration artifact (50). *)
Theorem C8_depth_increases_by_category
    (instruction system_check integration_check : string) :
  exists di ds dg : nat,
    Sby.depth_of (unlines (Generator.instruction_config_lines instruction)) = Some di
    /\ Sby.depth_of (unlines (Generator.system_config_lines system_check)) = Some ds
    /\ Sby.depth_of (unlines (Generator.integration_config_lines integration_check)) = Some dg
    /\ di = 20 /\ ds = 30 /\ dg = 50
    /\ di < ds /\ ds < dg.
Proof.
  exists 20, 30, 50.
  rewrite instruction_depth, system_depth, integration_depth.
  repeat split; lia.
Qed.

(** * Properties of the runner *)

Section RunnerFacts.

Context {F : FloatOps}.
Variable env : Runner.Env.
Variable self : Runner.Config.

(** ** One job *)

Lemma run_single_test_status test_file category st :
  valid_status
    (Runner.status (fst (Runner.run_single_test env self test_file category st))).
Proof.
  unfold valid_status, Runner.run_single_test, Runner.run_single_test_body.
  cbn [fst].
  destruct (snd (subprocess_run _ _)) as [[]|process]; simpl; auto.
  destruct (Runner.find_log env _ _) as [[]|log];
    destruct (returncode process =? 0)%Z; simpl; auto.
Qed.

Lemma run_single_test_tree test_file category st :
  snd (Runner.run_single_test env self test_file category st)
  = Runner.sby_writes env test_file st.
Proof. done. Qed.

(** Looking for the log raises exactly when the environment says so. *)
Lemma find_log_raises st log_dir :
  match Runner.log_fault env log_dir with
  | Some msg => Runner.find_log env st log_dir = inl (OSError msg)
  | None => exists l, Runner.find_log env st log_dir = inr l
  end.
Proof.
  unfold Runner.find_log. destruct (Runner.log_fault env log_dir); [done|].
  destruct (path_exists st log_dir); [|by eexists].
  destruct (Runner.glob_logs st log_dir); by eexists.
Qed.

(** ** The pool *)

Lemma as_completed_Permutation {A} (sched : list nat) (pending : list A) :
  Permutation (Runner.as_completed sched pending) pending.
Proof.
  revert pending. induction sched as [|i sched IH]; intros pending; [done|].
  simpl. destruct (pending !! (i mod length pending)) as [fut|] eqn:Hk.
  - rewrite IH. symmetry. by apply delete_Permutation.
  - destruct pending as [|x pending]; [done|].
    apply lookup_ge_None in Hk.
    pose proof (Nat.mod_upper_bound i (length (x :: pending))) as Hb.
    simpl in *. lia.
Qed.

Lemma collect_total completed results out st :
  let '(rs, _, st') :=
    Runner.collect
      (fun f c st0 =>
         let '(r, st1) := Runner.run_single_test env self f c st0 in (inr r, st1))
      completed results out st in
  rs = results ++ fst (run_jobs env self completed st)
  /\ st' = snd (run_jobs env self completed st).
Proof.
  revert results out st.
  induction completed as [|[f c] completed IH]; intros results out st.
  - simpl. by rewrite app_nil_r.
  - cbn [Runner.collect run_jobs].
    destruct (Runner.run_single_test env self f c st) as [r st1].
    specialize (IH (results ++ [r])
                  (out ++ [ Runner.status_symbol (Runner.status r)
                            +:+ " [" +:+ ljust 12 c +:+ "] "
                            +:+ ljust 20 (Runner.test_name r) +:+ " - "
                            +:+ ljust 8 (Runner.status r)
                            +:+ " (" +:+ format_2f (Runner.duration r) +:+ "s)" ])
                  st1).
    destruct (Runner.collect _ completed _ _ st1) as [[rs o] st'].
    destruct (run_jobs env self completed st1) as [rs' st2].
    cbn [fst snd] in *. destruct IH as [-> ->].
    by rewrite <- app_assoc.
Qed.

Lemma run_tests_parallel_spec test_files st :
  (0 < Runner.max_workers self)%Z ->
  exists progress,
    Runner.run_tests_parallel env self test_files st
    = (inr (fst (run_jobs env self
                   (Runner.as_completed (Runner.schedule env) test_files) st),
            progress),
       snd (run_jobs env self
              (Runner.as_completed (Runner.schedule env) test_files) st)).
Proof.
  intros Hw. unfold Runner.run_tests_parallel.
  destruct (Runner.max_workers self <=? 0)%Z eqn:E; [lia|].
  pose proof (collect_total (Runner.as_completed (Runner.schedule env) test_files)
                [] [] st) as H.
  destruct (Runner.collect _ _ _ _ st) as [[rs o] st'].
  destruct H as [-> ->]. by eexists.
Qed.

Lemma run_tests_parallel_refused test_files st :
  (Runner.max_workers self <= 0)%Z ->
  Runner.run_tests_parallel env self test_files st
  = (inl (ValueError "max_workers must be greater than 0"), st).
Proof.
  intros Hw. unfold Runner.run_tests_parallel.
  destruct (Runner.max_workers self <=? 0)%Z eqn:E; [done|lia].
Qed.

(** Every job of the list gives one result, in the order of the list. *)
Lemma run_jobs_results jobs st :
  Forall2 (result_of_job env self) jobs (fst (run_jobs env self jobs st)).
Proof.
  revert st. induction jobs as [|[f c] jobs IH]; intros st; [constructor|].
  cbn [run_jobs].
  destruct (Runner.run_single_test env self f c st) as [r st1] eqn:Hr.
  specialize (IH st1). destruct (run_jobs env self jobs st1) as [rs st2].
  cbn [fst] in *. constructor; [|done].
  exists st. cbn [fst snd]. by rewrite Hr.
Qed.

Lemma run_jobs_length jobs st :
  length (fst (run_jobs env self jobs st)) = length jobs.
Proof. symmetry. eapply Forall2_length, run_jobs_results. Qed.

Lemma run_jobs_valid jobs st :
  Forall (fun r => valid_status (Runner.status r)) (fst (run_jobs env self jobs st)).
Proof.
  pose proof (run_jobs_results jobs st) as H.
  induction H as [|job r jobs rs [t ->] _ IH]; constructor; [|done].
  apply run_single_test_status.
Qed.

End RunnerFacts.

(** * The counting loop of the summary *)

Section DictFacts.

Context {V : Type}.

Lemma dict_get_app (k : string) (d d' : list (string * V)) :
  dict_get k (d ++ d') =
  match dict_get k d with
  | Some v => Some v
  | None => dict_get k d'
  end.
Proof.
  induction d as [|[k' v] d IH]; [done|]. simpl.
  by destruct (String.eqb k k').
Qed.

Lemma dict_get_setdefault (k c : string) (v : V) (d : list (string * V)) :
  dict_get k (dict_setdefault c v d) =
  if String.eqb k c then Some (default v (dict_get c d)) else dict_get k d.
Proof.
  unfold dict_setdefault.
  destruct (String.eqb k c) eqn:E.
  - apply String.eqb_eq in E as ->.
    destruct (dict_get c d) as [x|] eqn:Hc; [done|].
    rewrite dict_get_app, Hc. simpl. by rewrite String.eqb_refl.
  - destruct (dict_get c d) as [x|] eqn:Hc; [done|].
    rewrite dict_get_app. destruct (dict_get k d); [done|].
    simpl. by rewrite E.
Qed.

(** [dict_update] reads and writes the entry [dict_get] sees. *)
Lemma dict_update_spec (k : string) (f : V -> exn + V) (d : list (string * V)) :
  match dict_get k d with
  | None => dict_update k f d = inl (KeyError k)
  | Some v =>
      match f v with
      | inl e => dict_update k f d = inl e
      | inr v' =>
          exists d', dict_update k f d = inr d'
                     /\ fst <$> d' = fst <$> d
                     /\ forall k', dict_get k' d' =
                                   if String.eqb k' k then Some v' else dict_get k' d
      end
  end.
Proof.
  induction d as [|[k0 v0] d IH]; [done|]. simpl.
  destruct (String.eqb k k0) eqn:E.
  - apply String.eqb_eq in E as <-.
    destruct (f v0) as [e|v']; [done|].
    eexists. split; [done|]. split; [done|].
    intros k'. simpl. by destruct (String.eqb k' k).
  - destruct (dict_get k d) as [v|].
    + destruct (f v) as [e|v'].
      * by rewrite IH.
      * destruct IH as (d' & -> & Hk & Hg).
        eexists. split; [done|]. split; [by rewrite !fmap_cons, Hk|].
        intros k'. simpl. rewrite Hg.
        destruct (String.eqb k' k0) eqn:E0; [|done].
        apply String.eqb_eq in E0 as ->.
        by rewrite String.eqb_sym, E.
    + by rewrite IH.
Qed.

End DictFacts.

Lemma dict_incr_spec (k : string) (d : list (string * nat)) :
  match dict_get k d with
  | None => dict_incr k d = inl (KeyError k)
  | Some v =>
      exists d', dict_incr k d = inr d'
                 /\ fst <$> d' = fst <$> d
                 /\ forall k', dict_get k' d' =
                               if String.eqb k' k then Some (S v) else dict_get k' d
  end.
Proof.
  pose proof (dict_update_spec k (fun v => inr (S v)) d) as H.
  unfold dict_incr. by destruct (dict_get k d).
Qed.

Lemma dict_incr_total (k : string) (d d' : list (string * nat)) :
  dict_incr k d = inr d' -> dict_total d' = S (dict_total d).
Proof.
  unfold dict_incr, dict_total. revert d'.
  induction d as [|[k0 v0] d IH]; intros d'; [done|].
  cbn [dict_update]. destruct (String.eqb k k0).
  - intros [= <-]. rewrite !fmap_cons. by unfold list_sum.
  - destruct (dict_update k _ d) as [e|d1]; [done|].
    intros [= <-]. specialize (IH d1 eq_refl).
    rewrite !fmap_cons. unfold list_sum in *. simpl. lia.
Qed.

Lemma dict_get_keys {V} (k : string) (d : list (string * V)) :
  k ∈ fst <$> d -> is_Some (dict_get k d).
Proof.
  induction d as [|[k0 v0] d IH]; simpl; [by intros ?%elem_of_nil|].
  intros [->|Hin]%elem_of_cons.
  - by rewrite String.eqb_refl.
  - destruct (String.eqb k k0); [done|by apply IH].
Qed.

(** Two increments commute. *)
Lemma dict_incr_comm (k1 k2 : string) (d : list (string * nat)) :
  agree eq (and_then (dict_incr k1 d) (dict_incr k2))
           (and_then (dict_incr k2 d) (dict_incr k1)).
Proof.
  unfold dict_incr.
  induction d as [|[k0 v0] d IH]; [done|]. simpl.
  destruct (String.eqb k1 k0) eqn:E1, (String.eqb k2 k0) eqn:E2; simpl;
    rewrite ?E1, ?E2; simpl; try done.
  - destruct (dict_update k2 _ d); simpl; [done|]. by rewrite E1.
  - destruct (dict_update k1 _ d); simpl; [done|]. by rewrite E2.
  - destruct (dict_update k1 _ d) as [e1|d1], (dict_update k2 _ d) as [e2|d2];
      simpl in *; rewrite ?E1, ?E2; try done.
    + by destruct (dict_update k1 _ d2).
    + by destruct (dict_update k2 _ d1).
    + destruct (dict_update k2 _ d1), (dict_update k1 _ d2); simpl in *; congruence.
Qed.

(** ** The per-category dictionary *)

Lemma category_step_spec cat st cs :
  match dict_incr st (default Runner.zero_stats (dict_get cat cs)) with
  | inl e => category_step cat st cs = inl e
  | inr d1 =>
      exists cs', category_step cat st cs = inr cs'
                  /\ forall c, dict_get c cs' =
                               if String.eqb c cat then Some d1 else dict_get c cs
  end.
Proof.
  unfold category_step.
  pose proof (dict_update_spec cat (dict_incr st)
                (dict_setdefault cat Runner.zero_stats cs)) as H.
  rewrite dict_get_setdefault, String.eqb_refl in H.
  destruct (dict_incr st _) as [e|d1]; [done|].
  destruct H as (cs' & -> & _ & Hg). exists cs'. split; [done|].
  intros c. rewrite Hg, dict_get_setdefault. by destruct (String.eqb c cat).
Qed.

Lemma category_step_proper cat st cs1 cs2 :
  same_lookups cs1 cs2 ->
  agree same_lookups (category_step cat st cs1) (category_step cat st cs2).
Proof.
  intros H.
  pose proof (category_step_spec cat st cs1) as H1.
  pose proof (category_step_spec cat st cs2) as H2.
  rewrite <- (H cat) in H2.
  destruct (dict_incr st _) as [e|d1].
  - by rewrite H1, H2.
  - destruct H1 as (c1 & -> & G1), H2 as (c2 & -> & G2). simpl.
    intros c. rewrite G1, G2. by destruct (String.eqb c cat).
Qed.

Lemma category_step_swap cx sx cy sy cs :
  agree same_lookups
    (and_then (category_step cx sx cs) (category_step cy sy))
    (and_then (category_step cy sy cs) (category_step cx sx)).
Proof.
  pose proof (category_step_spec cx sx cs) as Hx.
  pose proof (category_step_spec cy sy cs) as Hy.
  destruct (String.eqb cx cy) eqn:E.
  - apply String.eqb_eq in E as <-.
    pose proof (dict_incr_comm sx sy (default Runner.zero_stats (dict_get cx cs))) as Hc.
    destruct (dict_incr sx _) as [ex|dx], (dict_incr sy _) as [ey|dy]; simpl in Hc.
    + by rewrite Hx, Hy.
    + destruct Hy as (c2 & -> & G2). rewrite Hx. simpl.
      pose proof (category_step_spec cx sx c2) as H2.
      rewrite G2, String.eqb_refl in H2. simpl in H2.
      destruct (dict_incr sx dy); [by rewrite H2|done].
    + destruct Hx as (c1 & -> & G1). rewrite Hy. simpl.
      pose proof (category_step_spec cx sy c1) as H1.
      rewrite G1, String.eqb_refl in H1. simpl in H1.
      destruct (dict_incr sy dx); [by rewrite H1|done].
    + destruct Hx as (c1 & -> & G1), Hy as (c2 & -> & G2). simpl.
      pose proof (category_step_spec cx sy c1) as H1.
      pose proof (category_step_spec cx sx c2) as H2.
      rewrite G1, String.eqb_refl in H1. rewrite G2, String.eqb_refl in H2.
      simpl in H1, H2.
      destruct (dict_incr sy dx) as [e1|d1], (dict_incr sx dy) as [e2|d2]; try done.
      * by rewrite H1, H2.
      * destruct H1 as (c1' & -> & G1'), H2 as (c2' & -> & G2'). simpl in *. subst d2.
        intros c. rewrite G1', G2', G1, G2. by destruct (String.eqb c cx).
  - assert (E' : String.eqb cy cx = false) by by rewrite String.eqb_sym.
    destruct (dict_incr sx _) as [ex|dx] eqn:Ix, (dict_incr sy _) as [ey|dy] eqn:Iy.
    + by rewrite Hx, Hy.
    + destruct Hy as (c2 & -> & G2). rewrite Hx. simpl.
      pose proof (category_step_spec cx sx c2) as H2.
      rewrite G2, E, Ix in H2. by rewrite H2.
    + destruct Hx as (c1 & -> & G1). rewrite Hy. simpl.
      pose proof (category_step_spec cy sy c1) as H1.
      rewrite G1, E', Iy in H1. by rewrite H1.
    + destruct Hx as (c1 & -> & G1), Hy as (c2 & -> & G2). simpl.
      pose proof (category_step_spec cy sy c1) as H1.
      pose proof (category_step_spec cx sx c2) as H2.
      rewrite G1, E', Iy in H1. rewrite G2, E, Ix in H2.
      destruct H1 as (c1' & -> & G1'), H2 as (c2' & -> & G2'). simpl.
      intros c. rewrite G1', G2', G1, G2.
      destruct (String.eqb c cy) eqn:Ey, (String.eqb c cx) eqn:Ex; try done.
      apply String.eqb_eq in Ey, Ex. subst. by rewrite String.eqb_refl in E.
Qed.

Section TallyFacts.

Context {F : FloatOps}.

Let acc : Type := (list (string * nat) * list (string * list (string * nat)))%type.

Lemma same_tally_agree (a b : exn + acc) :
  same_tally a b <-> agree same_acc a b.
Proof. unfold same_tally, agree, same_acc. by destruct a as [?|[??]], b as [?|[??]]. Qed.

Lemma agree_refl (a : exn + acc) : agree same_acc a a.
Proof. by destruct a as [?|[??]]. Qed.

Lemma agree_trans (a b c : exn + acc) :
  agree same_acc a b -> agree same_acc b c -> agree same_acc a c.
Proof.
  destruct a as [?|[??]], b as [?|[??]], c as [?|[??]]; simpl; try done.
  unfold same_acc. simpl. intros [E1 H1] [E2 H2].
  split; [congruence|]. intros k. by rewrite H1.
Qed.

Lemma tally_step_unfold (a : acc) (r : Runner.TestResult) :
  Runner.tally_step a r =
  and_then (dict_incr (Runner.status r) (fst a))
    (fun sc' => and_then (category_step (Runner.category r) (Runner.status r) (snd a))
                  (fun cs' => inr (sc', cs'))).
Proof. by destruct a. Qed.

Lemma tally_step_proper (a b : acc) r :
  same_acc a b -> agree same_acc (Runner.tally_step a r) (Runner.tally_step b r).
Proof.
  intros [H1 H2]. rewrite !tally_step_unfold, H1.
  destruct (dict_incr _ (fst b)) as [e|sc']; [done|]. simpl.
  pose proof (category_step_proper (Runner.category r) (Runner.status r) _ _ H2) as H.
  by destruct (category_step _ _ (snd a)), (category_step _ _ (snd b)).
Qed.

Lemma tally_step_swap (a : acc) x y :
  agree same_acc
    (and_then (Runner.tally_step a x) (fun a' => Runner.tally_step a' y))
    (and_then (Runner.tally_step a y) (fun a' => Runner.tally_step a' x)).
Proof.
  destruct a as [sc cs].
  pose proof (dict_incr_comm (Runner.status x) (Runner.status y) sc) as Hs.
  pose proof (category_step_swap (Runner.category x) (Runner.status x)
                (Runner.category y) (Runner.status y) cs) as Hc.
  rewrite !tally_step_unfold. cbn [fst snd].
  destruct (dict_incr (Runner.status x) sc) as [e1|s1] eqn:I1,
           (dict_incr (Runner.status y) sc) as [e2|s2] eqn:I2;
    cbn [and_then] in Hs |- *.
  - done.
  - destruct (category_step _ (Runner.status y) cs) as [?|c2]; cbn [and_then]; [done|].
    rewrite tally_step_unfold. cbn [fst snd]. by destruct (dict_incr _ s2).
  - destruct (category_step _ (Runner.status x) cs) as [?|c1]; cbn [and_then]; [done|].
    rewrite tally_step_unfold. cbn [fst snd]. by destruct (dict_incr _ s1).
  - destruct (category_step _ (Runner.status x) cs) as [?|c1],
             (category_step _ (Runner.status y) cs) as [?|c2];
      cbn [and_then] in Hc |- *; rewrite ?tally_step_unfold; cbn [fst snd]; try done.
    + destruct (dict_incr _ s2); cbn [and_then]; [done|].
      by destruct (category_step _ _ c2).
    + destruct (dict_incr _ s1); cbn [and_then]; [done|].
      by destruct (category_step _ _ c1).
    + destruct (dict_incr _ s1) as [?|s12], (dict_incr _ s2) as [?|s21];
        cbn [and_then agree] in Hs |- *; try done. subst s21.
      by destruct (category_step _ _ c1), (category_step _ _ c2).
Qed.

Lemma tally_proper l (a b : acc) :
  same_acc a b -> agree same_acc (Runner.tally l a) (Runner.tally l b).
Proof.
  revert a b. induction l as [|r l IH]; intros a b H; [done|]. simpl.
  pose proof (tally_step_proper a b r H) as Hs.
  destruct (Runner.tally_step a r), (Runner.tally_step b r); try done.
  by apply IH.
Qed.

Lemma tally_cons2 x y l (a : acc) :
  Runner.tally (x :: y :: l) a =
  and_then (and_then (Runner.tally_step a x) (fun a' => Runner.tally_step a' y))
    (Runner.tally l).
Proof. simpl. by destruct (Runner.tally_step a x). Qed.

(** The counting loop does not depend on the order of the results. *)
Lemma tally_Permutation l l' (a : acc) :
  Permutation l l' -> agree same_acc (Runner.tally l a) (Runner.tally l' a).
Proof.
  intros H. revert a. induction H as [|x l l' _ IH|x y l|l l' l'' _ IH1 _ IH2]; intros a.
  - done.
  - simpl. destruct (Runner.tally_step a x); [done|]. apply IH.
  - rewrite !tally_cons2.
    pose proof (tally_step_swap a y x) as Hs.
    destruct (and_then (Runner.tally_step a y) _),
             (and_then (Runner.tally_step a x) _); try done.
    by apply tally_proper.
  - eapply agree_trans; [apply IH1|apply IH2].
Qed.

Lemma valid_status_key (s : string) : valid_status s -> s ∈ status_keys.
Proof.
  unfold valid_status, status_keys.
  intros [->|[->|[->| ->]]]; repeat constructor.
Qed.

(** On results with valid statuses the counting loop never raises, keeps
    the four status keys, and counts every result once. *)
Lemma tally_valid l sc cs :
  Forall (fun r => valid_status (Runner.status r)) l ->
  fst <$> sc = status_keys ->
  (forall c d, dict_get c cs = Some d -> fst <$> d = status_keys) ->
  exists sc' cs',
    Runner.tally l (sc, cs) = inr (sc', cs')
    /\ fst <$> sc' = status_keys
    /\ dict_total sc' = dict_total sc + length l.
Proof.
  intros Hl. revert sc cs.
  induction Hl as [|r l Hr _ IH]; intros sc cs Hsc Hcs.
  - exists sc, cs. simpl. repeat split; [done|lia].
  - apply valid_status_key in Hr.
    cbn [Runner.tally]. rewrite tally_step_unfold. cbn [fst snd].
    pose proof (dict_incr_spec (Runner.status r) sc) as H1.
    destruct (dict_get_keys (Runner.status r) sc) as [v Hv]; [by rewrite Hsc|].
    rewrite Hv in H1. destruct H1 as (sc1 & I1 & K1 & _).
    rewrite I1. cbn [and_then].
    pose proof (category_step_spec (Runner.category r) (Runner.status r) cs) as H2.
    set (d0 := default Runner.zero_stats (dict_get (Runner.category r) cs)) in *.
    assert (Hd0 : fst <$> d0 = status_keys).
    { unfold d0. destruct (dict_get (Runner.category r) cs) as [d|] eqn:Hc; simpl.
      - by apply (Hcs (Runner.category r)).
      - done. }
    pose proof (dict_incr_spec (Runner.status r) d0) as H3.
    destruct (dict_get_keys (Runner.status r) d0) as [v0 Hv0]; [by rewrite Hd0|].
    rewrite Hv0 in H3. destruct H3 as (d1 & I3 & K3 & _).
    rewrite I3 in H2. destruct H2 as (cs1 & -> & G1). cbn [and_then].
    destruct (IH sc1 cs1) as (sc' & cs' & Ht & Hk & Hn).
    + by rewrite K1.
    + intros c d. rewrite G1. destruct (String.eqb c (Runner.category r)).
      * intros [= <-]. by rewrite K3.
      * apply Hcs.
    + exists sc', cs'. split; [done|]. split; [done|].
      rewrite Hn, (dict_incr_total _ _ _ I1). simpl. lia.
Qed.

Lemma filter_Permutation {A} (f : A -> bool) (l l' : list A) :
  Permutation l l' -> Permutation (List.filter f l) (List.filter f l').
Proof.
  induction 1 as [|x l l' _ IH|x y l|l l' l'' _ IH1 _ IH2]; simpl.
  - done.
  - destruct (f x); [by constructor|done].
  - destruct (f x), (f y); try done. apply perm_swap.
  - by etransitivity.
Qed.

End TallyFacts.

(** * Claims about single jobs and the pool *)

Section JobTheorems.

Context {F : FloatOps}.
Variable env : Runner.Env.
Variable self : Runner.Config.

(** C9.  [run_single_test] is total: for every test file and category,
    in every tree, it returns a result whose name and category are those
    of the job and whose status is one of PASS, FAIL, TIMEOUT, ERROR.
    Whatever exception the body raises is turned into a result: a timeout
    into TIMEOUT, any other into ERROR carrying the exception's text; in
    particular a process that cannot be launched or monitored gives
    ERROR. *)
Theorem C9_run_single_test_total (test_file : Path) (category : string) (st : fs) :
  let r := fst (Runner.run_single_test env self test_file category st) in
  valid_status (Runner.status r)
  /\ Runner.test_name r = path_stem test_file
  /\ Runner.category r = category
  /\ (forall e,
        Runner.run_single_test_body env self test_file category
          (Runner.sby_writes env test_file st) = inl e ->
        (e = TimeoutExpired /\ Runner.status r = "TIMEOUT")
        \/ (e <> TimeoutExpired /\ Runner.status r = "ERROR"
            /\ Runner.error_message r = Some (str_exn e)))
  /\ (forall msg, Runner.sby env test_file = Breaks msg ->
        Runner.status r = "ERROR" /\ Runner.error_message r = Some msg).
Proof.
  intros r. split; [apply run_single_test_status|].
  unfold r, Runner.run_single_test, Runner.run_single_test_body. cbn [fst].
  destruct (Runner.sby env test_file) as [t code out err| |msg] eqn:Hb; simpl.
  - destruct (Qle_bool t (inject_Z (Runner.timeout self))); simpl.
    + destruct (Runner.find_log env _ _) as [e|log] eqn:Hl;
        destruct (code =? 0)%Z; simpl.
      * pose proof (find_log_raises env (Runner.sby_writes env test_file st)
                      (path_parent test_file // path_stem test_file)) as Hr.
        destruct (Runner.log_fault env _); [|by destruct Hr; congruence].
        rewrite Hl in Hr. injection Hr as ->. naive_solver.
      * pose proof (find_log_raises env (Runner.sby_writes env test_file st)
                      (path_parent test_file // path_stem test_file)) as Hr.
        destruct (Runner.log_fault env _); [|by destruct Hr; congruence].
        rewrite Hl in Hr. injection Hr as ->. naive_solver.
      * naive_solver.
      * naive_solver.
    + naive_solver.
  - naive_solver.
  - naive_solver.
Qed.

(** C2, as amended.  The outcome of one job is classified by what its
    process does and by whether looking for its log afterwards raises:
    PASS exactly when the process exits with code 0 within the timeout
    and the look for the log raises nothing; FAIL exactly when it exits
    within the timeout with another code and the look for the log raises
    nothing, the diagnostic being the captured stderr, or the captured
    stdout when stderr is empty; TIMEOUT exactly when the process is
    still running at the timeout, and then the process has been killed;
    ERROR exactly when launching or monitoring the process fails, or the
    process exits within the timeout and the look for its log raises, the
    diagnostic being the exception's text. *)
Theorem C2_outcome_classification (test_file : Path) (category : string) (st : fs) :
  let r := fst (Runner.run_single_test env self test_file category st) in
  let b := Runner.sby env test_file in
  let limit := inject_Z (Runner.timeout self) in
  let looking := Runner.log_fault env (path_parent test_file // path_stem test_file) in
  (Runner.status r = "PASS" <->
     (exists t out err, b = Exits t 0 out err /\ (t <= limit)%Q) /\ looking = None)
  /\ (Runner.status r = "PASS" -> Runner.error_message r = None)
  /\ (Runner.status r = "FAIL" <->
        (exists t code out err,
           b = Exits t code out err /\ (t <= limit)%Q /\ code <> 0%Z)
        /\ looking = None)
  /\ (forall t code out err,
        b = Exits t code out err -> Runner.status r = "FAIL" ->
        Runner.error_message r = Some (if truthy_str err then err else out))
  /\ (Runner.status r = "TIMEOUT" <->
        b = Hangs \/ exists t code out err,
                       b = Exits t code out err /\ ~ (t <= limit)%Q)
  /\ (Runner.status r = "TIMEOUT" ->
        Runner.process_after env self test_file = Killed)
  /\ (Runner.status r = "ERROR" <->
        (exists msg, b = Breaks msg)
        \/ ((exists t code out err, b = Exits t code out err /\ (t <= limit)%Q)
            /\ exists msg, looking = Some msg))
  /\ (forall msg, b = Breaks msg -> Runner.error_message r = Some msg)
  /\ (forall t code out err msg,
        b = Exits t code out err -> (t <= limit)%Q -> looking = Some msg ->
        Runner.error_message r = Some msg).
Proof.
  intros r b limit looking.
  pose proof (find_log_raises env (Runner.sby_writes env test_file st)
                (path_parent test_file // path_stem test_file)) as Hlook.
  fold looking in Hlook.
  unfold r, b, limit, Runner.process_after, Runner.run_single_test,
    Runner.run_single_test_body. cbn [fst].
  destruct (Runner.sby env test_file) as [t code out err| |msg] eqn:Hb; simpl.
  - destruct (Qle_bool t (inject_Z (Runner.timeout self))) eqn:Ht; simpl.
    + apply Qle_bool_iff in Ht.
      destruct looking as [msg|].
      * rewrite Hlook. destruct (code =? 0)%Z; simpl; naive_solver.
      * destruct Hlook as [l ->].
        destruct (code =? 0)%Z eqn:Hc; simpl.
        -- apply Z.eqb_eq in Hc. subst code. naive_solver.
        -- apply Z.eqb_neq in Hc. naive_solver.
    + assert (Hn : ~ (t <= inject_Z (Runner.timeout self))%Q).
      { intros H%Qle_bool_iff. congruence. }
      naive_solver.
  - naive_solver.
  - naive_solver.
Qed.

(** C3, as amended.  With a positive worker bound, the pool returns
    exactly one result per submitted job: the results are, in the order
    of completion, the results of the submitted jobs, each job once; and
    the counting loop of the summary succeeds on them with status counts
    that add up to the number of jobs submitted. *)
Theorem C3_every_job_is_counted (test_files : list (Path * string)) (st : fs) :
  (0 < Runner.max_workers self)%Z ->
  exists results progress status_counts category_stats,
    fst (Runner.run_tests_parallel env self test_files st) = inr (results, progress)
    /\ (exists completed,
          Permutation completed test_files
          /\ Forall2 (result_of_job env self) completed results)
    /\ length results = length test_files
    /\ Runner.tally results (Runner.zero_stats, []) = inr (status_counts, category_stats)
    /\ fst <$> status_counts = ["PASS"; "FAIL"; "TIMEOUT"; "ERROR"]
    /\ dict_total status_counts = length test_files.
Proof.
  intros Hw.
  destruct (run_tests_parallel_spec env self test_files st Hw) as [progress Hrun].
  set (completed := Runner.as_completed (Runner.schedule env) test_files) in *.
  set (results := fst (run_jobs env self completed st)) in *.
  assert (Hperm : Permutation completed test_files)
    by apply as_completed_Permutation.
  assert (Hlen : length results = length test_files).
  { unfold results. by rewrite run_jobs_length, (Permutation_length Hperm). }
  destruct (tally_valid results Runner.zero_stats []) as (sc & cs & Ht & Hk & Hn).
  - apply run_jobs_valid.
  - done.
  - done.
  - exists results, progress, sc, cs. rewrite Hrun.
    repeat split; try done.
    + exists completed. split; [done|apply run_jobs_results].
    + rewrite Hn, Hlen. done.
Qed.

End JobTheorems.

(** * Claims about the report *)

Lemma length_append (a b : string) :
  String.length (a +:+ b) = String.length a + String.length b.
Proof. induction a as [|c a IH]; simpl; [done|by rewrite IH]. Qed.


Section ReportTheorems.

Context {F : FloatOps}.

(** C6, as amended.  The counts of the summary do not depend on the order
    of the results: for two permutations of one result list the number of
    results is the same, the failed tests listed are the same up to their
    order, and the counting loop either raises for both or gives the same
    status counts and, for every category, the same per-status counts. *)
Theorem C6_counts_are_order_independent (l l' : list Runner.TestResult) :
  Permutation l l' ->
  length l = length l'
  /\ Permutation (Runner.failed_tests l) (Runner.failed_tests l')
  /\ same_tally (Runner.tally l (Runner.zero_stats, []))
                (Runner.tally l' (Runner.zero_stats, [])).
Proof.
  intros H. split; [by apply Permutation_length|].
  split; [by apply filter_Permutation|].
  apply same_tally_agree. by apply tally_Permutation.
Qed.



End ReportTheorems.

(** C6, as stated, fails: the text of the summary follows the order of
    the results.  With the two failed results in either order the counts
    agree, but the lines of the categories and of the failed tests, and
    the fastest and slowest test among equals, come out in the order of
    the list. *)
Lemma C6_summary_depends_on_order :
  ~ (forall (F : FloatOps) (l l' : list Runner.TestResult) (wall : float),
        Permutation l l' ->
        Runner.generate_summary_report l wall = Runner.generate_summary_report l' wall).
Proof.
  intros H.
  specialize (H ExactFloat.ops [Examples.alpha; Examples.beta]
                [Examples.beta; Examples.alpha] 2%Q (perm_swap _ _ _)).
  vm_compute in H. discriminate H.
Qed.

(** The hypothesis of C6 at two results in both orders. *)
Lemma C6_counts_are_order_independent_witness :
  same_tally
    (Runner.tally [Examples.alpha; Examples.beta] (Runner.zero_stats, []))
    (Runner.tally [Examples.beta; Examples.alpha] (Runner.zero_stats, [])).
Proof.
  exact (proj2 (proj2 (C6_counts_are_order_independent
                         [Examples.alpha; Examples.beta]
                         [Examples.beta; Examples.alpha] (perm_swap _ _ _)))).
Defined.


(** * Claims about discovery, the suite and the exit code *)

Section SuiteFacts.

Context {F : FloatOps}.
Variable dumps : json -> string.
Variable env : Runner.Env.




(** No test file: the suite reports the error and returns [False]; it
    runs nothing, prints no summary and writes no report. *)
Lemma suite_nothing_discovered self st formal_dir categories :
  Runner.all_test_files_of st formal_dir (Runner.selected_categories categories) = [] ->
  let s := Runner.run_verification_suite dumps env self st formal_dir categories in
  Runner.suite_returned s = inr false
  /\ Runner.suite_discovered s = []
  /\ Runner.suite_results s = []
  /\ Runner.suite_tree s = st
  /\ Runner.suite_output s = banner self formal_dir ++ ["[ERROR] No test files found!"].
Proof.
  intros H s. unfold s, Runner.run_verification_suite. rewrite H. simpl.
  repeat split.
Qed.

Lemma filter_length_all {A} (f : A -> bool) (l : list A) :
  length (List.filter f l) = length l <-> Forall (fun x => f x = true) l.
Proof.
  induction l as [|x l IH]; simpl; [by split|].
  pose proof (List.filter_length_le f l) as Hle.
  destruct (f x) eqn:E; simpl.
  - split.
    + intros [= H]. constructor; [done|]. by apply IH.
    + intros H. inversion H; subst. f_equal. by apply IH.
  - split; [lia|]. intros H. inversion H; congruence.
Qed.

Lemma passed_all (results : list Runner.TestResult) :
  (length (List.filter (fun r => String.eqb (Runner.status r) "PASS") results)
   =? length results)%nat = true
  <-> all_passed results.
Proof.
  rewrite Nat.eqb_eq, filter_length_all. unfold all_passed.
  apply Forall_iff. intros r. apply String.eqb_eq.
Qed.

Lemma summary_of_jobs self jobs st wall :
  exists summary,
    Runner.generate_summary_report (fst (run_jobs env self jobs st)) wall = inr summary.
Proof.
  unfold Runner.generate_summary_report, Runner.summary_lines.
  pose proof (run_jobs_valid env self jobs st) as Hv.
  destruct (fst (run_jobs env self jobs st)) as [|first rest] eqn:Hres; [by eexists|].
  destruct (tally_valid (first :: rest) Runner.zero_stats [] Hv)
    as (sc & cs & -> & _); [done|done|]. by eexists.
Qed.

(** A suite that discovers test files and is refused its worker bound:
    no job runs and nothing is written. *)
Lemma suite_refused self st formal_dir categories :
  let all := Runner.all_test_files_of st formal_dir (Runner.selected_categories categories) in
  let s := Runner.run_verification_suite dumps env self st formal_dir categories in
  all <> [] ->
  (Runner.max_workers self <= 0)%Z ->
  Runner.suite_discovered s = all
  /\ Runner.suite_results s = []
  /\ Runner.suite_returned s = inl (ValueError "max_workers must be greater than 0")
  /\ Runner.suite_tree s = st.
Proof.
  intros all s Hne Hw. unfold s, Runner.run_verification_suite. fold all.
  destruct all as [|job all'] eqn:Hall; [done|]. cbn [truthy_list negb].
  by rewrite run_tests_parallel_refused.
Qed.

(** A suite that discovers test files and runs them: what it returns and
    leaves. *)
Lemma suite_something_discovered self st formal_dir categories :
  let all := Runner.all_test_files_of st formal_dir (Runner.selected_categories categories) in
  let s := Runner.run_verification_suite dumps env self st formal_dir categories in
  let completed := Runner.as_completed (Runner.schedule env) all in
  let report_file := formal_dir // "verification_report.json" in
  all <> [] ->
  (0 < Runner.max_workers self)%Z ->
  Runner.suite_discovered s = all
  /\ Runner.suite_results s = fst (run_jobs env self completed st)
  /\ Runner.suite_tree s
     = snd (Runner.save_detailed_report dumps env (Runner.suite_results s) report_file
              (jobs_tree env self st formal_dir categories))
  /\ Runner.suite_returned s
     = match fst (Runner.save_detailed_report dumps env (Runner.suite_results s)
                    report_file (jobs_tree env self st formal_dir categories)) with
       | Some e => inl e
       | None =>
           inr (length (List.filter (fun r => String.eqb (Runner.status r) "PASS")
                          (Runner.suite_results s))
                =? length (Runner.suite_results s))%nat
       end.
Proof.
  intros all s completed report_file Hne Hw.
  unfold s, Runner.run_verification_suite, jobs_tree. fold all. fold completed.
  destruct all as [|job all'] eqn:Hall; [done|]. cbn [truthy_list negb].
  destruct (run_tests_parallel_spec env self (job :: all') st Hw) as [progress ->].
  fold completed.
  destruct (summary_of_jobs self completed st (Runner.wall_at_summary env))
    as [summary ->].
  fold report_file.
  destruct (Runner.save_detailed_report dumps env _ report_file _) as [[e|] st'] eqn:Hsave;
    cbn [Runner.suite_results Runner.suite_returned Runner.suite_tree
         Runner.suite_discovered]; rewrite Hsave; done.
Qed.

Lemma suite_discovered_spec self st formal_dir categories :
  Runner.suite_discovered
    (Runner.run_verification_suite dumps env self st formal_dir categories)
  = Runner.all_test_files_of st formal_dir (Runner.selected_categories categories).
Proof.
  destruct (Runner.all_test_files_of st formal_dir _) as [|job all] eqn:Hall.
  - by destruct (suite_nothing_discovered self st _ _ Hall) as (_ & ? & _).
  - destruct (decide (0 < Runner.max_workers self)%Z) as [Hw|Hw].
    + pose proof (suite_something_discovered self st formal_dir categories) as H.
      cbv zeta in H. rewrite Hall in H. destruct H as (H & _); [done|done|]. exact H.
    + pose proof (suite_refused self st formal_dir categories) as H.
      cbv zeta in H. rewrite Hall in H. destruct H as (H & _); [done|lia|]. exact H.
Qed.

(** Saving the report raises nothing exactly when the file can be opened
    and the writing meets no fault. *)
Lemma save_result results file st :
  fst (Runner.save_detailed_report dumps env results file st) = None
  <-> can_write (Runner.permits env) st file = true
      /\ Runner.write_fault env file = None.
Proof.
  unfold Runner.save_detailed_report, write_file, can_write.
  destruct (is_dir st file); [naive_solver|].
  destruct (is_dir st (path_parent file)); [|naive_solver].
  destruct (Runner.permits env file); [|naive_solver]. cbn [negb andb].
  destruct (Runner.write_fault env file) as [[n msg]|]; naive_solver.
Qed.

End SuiteFacts.

Section ExitCode.

Context {F : FloatOps}.
Variable dumps : json -> string.
Variable env : Runner.Env.

(** The suite as [main] runs it. *)
Lemma run_suite_facts args st out :
  let runner := Runner.init env (Runner.workers args) (Runner.timeout_arg args) in
  let o := Runner.run_suite dumps env args st out in
  let writable :=
    can_write (Runner.permits env)
      (jobs_tree env runner st (Runner.formal_dir args) (Runner.categories args))
      (Runner.formal_dir args // "verification_report.json") = true
    /\ Runner.write_fault env (Runner.formal_dir args // "verification_report.json") = None in
  Runner.discovered o
  = Runner.all_test_files_of st (Runner.formal_dir args)
      (Runner.selected_categories (Runner.categories args))
  /\ (Runner.exit_code o = 0%Z ->
        Runner.executed o <> [] /\ all_passed (Runner.executed o) /\ writable)
  /\ (writable ->
        (Runner.exit_code o = 0 \/ Runner.exit_code o = 1)%Z
        /\ (Runner.executed o <> [] -> all_passed (Runner.executed o) ->
            Runner.exit_code o = 0%Z))
  /\ (Runner.discovered o = [] ->
        Runner.exit_code o = 1%Z /\ Runner.executed o = []
        /\ Runner.final_tree o = st
        /\ Runner.output o
           = out ++ banner runner (Runner.formal_dir args)
             ++ ["[ERROR] No test files found!"]).
Proof.
  intros runner o writable.
  unfold o, Runner.exit_code, Runner.run_suite.
  cbn [Runner.returned Runner.discovered Runner.executed Runner.final_tree Runner.output].
  fold runner.
  split; [apply suite_discovered_spec|].
  destruct (Runner.all_test_files_of st (Runner.formal_dir args)
              (Runner.selected_categories (Runner.categories args))) as [|job all] eqn:Hall.
  - destruct (suite_nothing_discovered dumps env runner st _ _ Hall)
      as (-> & -> & -> & -> & ->).
    repeat split; try done; try (by right); naive_solver.
  - destruct (decide (0 < Runner.max_workers runner)%Z) as [Hw|Hw].
    + pose proof (suite_something_discovered dumps env runner st (Runner.formal_dir args)
                    (Runner.categories args)) as H.
      rewrite Hall in H. destruct H as (Hd & Hres & _ & Hret); [done|done|].
      set (s := Runner.run_verification_suite dumps env runner st
                  (Runner.formal_dir args) (Runner.categories args)) in *.
      assert (Hne : Runner.suite_results s <> []).
      { rewrite Hres. intros E%(f_equal length).
        rewrite run_jobs_length, (Permutation_length (as_completed_Permutation _ _)) in E.
        done. }
      rewrite Hret, Hd.
      pose proof (save_result dumps env (Runner.suite_results s)
                    (Runner.formal_dir args // "verification_report.json")
                    (jobs_tree env runner st (Runner.formal_dir args)
                       (Runner.categories args))) as Hsave.
      fold writable in Hsave.
      destruct (fst (Runner.save_detailed_report _ _ _ _ _)) as [e|].
      * split; [done|]. split; [|done]. intros Hwr. apply Hsave in Hwr. done.
      * assert (Hwr : writable) by (by apply Hsave).
        pose proof (passed_all (Runner.suite_results s)) as Hp.
        destruct (_ =? _)%nat.
        -- split; [intros _; split; [done|split; [by apply Hp|done]]|].
           split; [|done]. intros _. split; [by left|done].
        -- split; [done|]. split; [|done]. intros _. split; [by right|].
           intros _ Hall'. apply Hp in Hall'. done.
    + pose proof (suite_refused dumps env runner st (Runner.formal_dir args)
                    (Runner.categories args)) as H.
      rewrite Hall in H. destruct H as (Hd & -> & -> & _); [done|lia|].
      rewrite Hd. split; [done|]. split; [|done].
      intros _. split; [by right|done].
Qed.

End ExitCode.

Section SuiteTheorems.

Context {F : FloatOps}.
Variable dumps : json -> string.
Variable env : Runner.Env.


(** C1, as amended.  [main] is applied to the parsed command line.  With
    the generate-only switch it discovers and executes nothing, and exits
    with code 0 when the generation step succeeds.  Without the switch:
    the exit code is 0 only if at least one job was executed and every
    executed job has status PASS; whenever the report file can be written
    when the jobs are done, the exit code is 0 or 1, and it is 0 exactly
    when at least one job was executed and every executed job has status
    PASS; and when no test file is discovered the exit code is 1, no job
    is executed, no report is written (the tree is as the generation step
    left it) and, when the suite is reached, the output ends with the
    banner and the no-test-files error: no summary is printed. *)
Theorem C1_exit_code (args : Runner.Args) (st : fs) :
  let o := Runner.main dumps env args st in
  let runner := Runner.init env (Runner.workers args) (Runner.timeout_arg args) in
  (Runner.generate_only args = true ->
     Runner.discovered o = [] /\ Runner.executed o = []
     /\ (generation_succeeds env args st -> Runner.exit_code o = 0%Z))
  /\ (Runner.generate_only args = false ->
        (Runner.exit_code o = 0%Z ->
           Runner.executed o <> [] /\ all_passed (Runner.executed o))
        /\ (report_writable env args st ->
              (Runner.exit_code o = 0 \/ Runner.exit_code o = 1)%Z
              /\ (Runner.exit_code o = 0%Z <->
                    Runner.executed o <> [] /\ all_passed (Runner.executed o)))
        /\ (Runner.discovered o = [] ->
              Runner.exit_code o = 1%Z
              /\ Runner.executed o = []
              /\ Runner.final_tree o = start_tree env args st
              /\ (reaches_suite env args st ->
                    Runner.output o
                    = generation_lines env args st
                      ++ banner runner (Runner.formal_dir args)
                      ++ ["[ERROR] No test files found!"]))).
Proof.
  intros o runner. split.
  - intros Hg. unfold o, Runner.main, generation_succeeds. rewrite Hg, orb_true_r.
    destruct (path_exists st (Runner.formal_dir args)); cbn [negb].
    2: { repeat split. by intros [? _]. }
    destruct (Runner.generator_dir env) as [script_dir|].
    2: { repeat split. by intros (_ & d & ? & _). }
    rewrite generator_returned.
    destruct (snd (make_dirs (Runner.permits env) script_dir st)) as [e|] eqn:Hm.
    + assert (Hnot : forall X : Prop,
                (true = true /\ exists d, Some script_dir = Some d
                   /\ snd (make_dirs (Runner.permits env) d st) = None) -> X).
      { intros X (_ & d & [= <-] & Hd). congruence. }
      destruct e; repeat split; by apply Hnot.
    + by repeat split.
  - intros Hg.
    assert (Hsuite : forall out,
              start_tree env args st = start_tree env args st ->
              forall t, t = start_tree env args st ->
              let o' := Runner.run_suite dumps env args t out in
              (Runner.exit_code o' = 0%Z ->
                 Runner.executed o' <> [] /\ all_passed (Runner.executed o'))
              /\ (report_writable env args st ->
                    (Runner.exit_code o' = 0 \/ Runner.exit_code o' = 1)%Z
                    /\ (Runner.exit_code o' = 0%Z <->
                          Runner.executed o' <> [] /\ all_passed (Runner.executed o')))
              /\ (Runner.discovered o' = [] ->
                    Runner.exit_code o' = 1%Z
                    /\ Runner.executed o' = []
                    /\ Runner.final_tree o' = start_tree env args st
                    /\ Runner.output o'
                       = out ++ banner runner (Runner.formal_dir args)
                         ++ ["[ERROR] No test files found!"])).
    { intros out _ t -> o'.
      destruct (run_suite_facts dumps env args (start_tree env args st) out)
        as (_ & H0 & Hw & Hnone).
      fold o' in H0, Hw, Hnone. unfold report_writable. fold runner.
      split; [intros E; by destruct (H0 E) as (? & ? & _)|].
      split; [|exact Hnone].
      intros Hwr. destruct (Hw Hwr) as [H01 Hback].
      split; [done|]. split; [intros E; by destruct (H0 E) as (? & ? & _)|].
      intros [? ?]. by apply Hback. }
    assert (Hstop : forall (t : fs) (out : list string) (X : Prop),
              let o' := {| Runner.returned := inr 1%Z; Runner.discovered := [];
                           Runner.executed := []; Runner.final_tree := t;
                           Runner.output := out |} in
              (Runner.exit_code o' = 0%Z ->
                 Runner.executed o' <> [] /\ all_passed (Runner.executed o'))
              /\ (X ->
                    (Runner.exit_code o' = 0 \/ Runner.exit_code o' = 1)%Z
                    /\ (Runner.exit_code o' = 0%Z <->
                          Runner.executed o' <> [] /\ all_passed (Runner.executed o')))
              /\ Runner.exit_code o' = 1%Z /\ Runner.executed o' = []
              /\ Runner.final_tree o' = t).
    { intros t out X o'. unfold Runner.exit_code. cbn.
      split; [done|]. split; [|done]. intros _. split; [by right|].
      split; [done|]. by intros [? _]. }
    unfold o, Runner.main, start_tree, reaches_suite, generation_succeeds,
      generation_lines in *.
    rewrite Hg, orb_false_r.
    destruct (path_exists st (Runner.formal_dir args)); cbn [negb andb] in *.
    2: { destruct (Hstop st ["[ERROR] Formal directory not found: "
                             +:+ path_str (Runner.formal_dir args)]
                     (report_writable env args st)) as (H0 & Hw & H1 & He & Ht).
         split; [done|]. split; [done|]. intros _. repeat split; try done.
         by intros [? _]. }
    destruct (path_exists st (Runner.formal_dir args // "instructions"));
      cbn [negb] in *.
    { destruct (Hsuite [] eq_refl st eq_refl) as (H0 & Hw & Hnone).
      split; [done|]. split; [done|]. intros Hd.
      destruct (Hnone Hd) as (? & ? & ? & ?). by repeat split. }
    destruct (Runner.generator_dir env) as [script_dir|].
    2: { destruct (Hstop st (["Generating test configurations..."]
                             ++ ["[ERROR] Could not import test generation script"])
                     (report_writable env args st)) as (H0 & Hw & H1 & He & Ht).
         split; [done|]. split; [done|]. intros _. repeat split; try done.
         intros (_ & [?|(_ & d & ? & _)]); done. }
    rewrite generator_returned in *.
    destruct (snd (make_dirs (Runner.permits env) script_dir st)) as [e|] eqn:Hm.
    + assert (Hnot : forall X : Prop,
                (true = true /\ (false = true \/ true = true /\ exists d,
                   Some script_dir = Some d
                   /\ snd (make_dirs (Runner.permits env) d st) = None)) -> X).
      { intros X (_ & [?|(_ & d & [= <-] & Hd)]); congruence. }
      destruct e;
        match goal with
        | |- context [ {| Runner.returned := _; Runner.discovered := _;
                          Runner.executed := _; Runner.final_tree := ?t;
                          Runner.output := ?out |} ] =>
            destruct (Hstop t out (report_writable env args st))
              as (H0 & Hw & H1 & He & Ht)
        end;
        (split; [done|]); (split; [done|]); intros _; repeat split; try done;
        apply Hnot.
    + destruct (Hsuite (["Generating test configurations..."]
                        ++ Generator.output
                             (Generator.main (Runner.permits env) (Runner.write_fault env)
                                script_dir st)
                        ++ ["[PASS] Test configurations generated successfully"])
                  eq_refl _ eq_refl) as (H0 & Hw & Hnone).
      split; [done|]. split; [done|]. intros Hd.
      destruct (Hnone Hd) as (? & ? & ? & Hout). by repeat split.
Qed.

End SuiteTheorems.

(** * The claims at concrete inputs *)

(** C1, as stated, fails.  A generate-only invocation exits with code 0
    although no test file was discovered and no job was executed; and an
    invocation whose only job passes exits with code 1 when the report
    file cannot be written. *)
Lemma C1_exit_code_is_not_all_passed :
  let o := Runner.main ExactFloat.dumps Examples.scenario_env
             Examples.generate_only_args Examples.fresh_tree in
  let o' := Runner.main ExactFloat.dumps Examples.scenario_env
              Examples.scenario_args Examples.report_blocked_tree in
  (Runner.exit_code o = 0%Z /\ Runner.executed o = [] /\ Runner.discovered o = [])
  /\ (Runner.exit_code o' = 1%Z /\ Runner.executed o' <> []
      /\ all_passed (Runner.executed o')).
Proof.
  split; split.
  - vm_compute. reflexivity.
  - split; [apply nil_length_inv|]; vm_compute; reflexivity.
  - vm_compute. reflexivity.
  - split.
    + intros H%(f_equal length). vm_compute in H. discriminate H.
    + apply passed_all. vm_compute. reflexivity.
Qed.

(** C1 at an invocation whose only job passes and whose report file can
    be written: the exit code is 0. *)
Lemma C1_exit_code_witness :
  let o := Runner.main ExactFloat.dumps Examples.scenario_env
             Examples.scenario_args Examples.single_tree in
  report_writable Examples.scenario_env Examples.scenario_args Examples.single_tree
  /\ Runner.executed o <> []
  /\ all_passed (Runner.executed o)
  /\ Runner.exit_code o = 0%Z.
Proof.
  intros o.
  assert (Hw : report_writable Examples.scenario_env Examples.scenario_args
                 Examples.single_tree)
    by (split; vm_compute; reflexivity).
  assert (Hne : Runner.executed o <> [])
    by (intros H%(f_equal length); vm_compute in H; discriminate H).
  assert (Hall : all_passed (Runner.executed o))
    by (apply passed_all; vm_compute; reflexivity).
  split; [exact Hw|]. split; [exact Hne|]. split; [exact Hall|].
  exact (proj2 (proj2 (proj1 (proj2 (proj2 (C1_exit_code ExactFloat.dumps
                 Examples.scenario_env Examples.scenario_args Examples.single_tree)
               eq_refl)) Hw)) (conj Hne Hall)).
Defined.

(** C2, as stated, fails.  The process of the job exits with code 0
    within the timeout, and the job ends as ERROR, because looking for
    its log raises. *)
Lemma C2_exit_zero_can_end_as_error :
  let r := fst (Runner.run_single_test Examples.unsearchable_env
                  Examples.scenario_config Examples.a_path "instructions"
                  Examples.single_tree) in
  Runner.sby Examples.unsearchable_env Examples.a_path = Exits (1 # 2) 0 "ok" ""
  /\ (1 # 2 <= inject_Z (Runner.timeout Examples.scenario_config))%Q
  /\ Runner.status r = "ERROR"
  /\ Runner.status r <> "PASS"
  /\ Runner.error_message r
     = Some "[Errno 13] Permission denied: 'formal/instructions/a'".
Proof.
  repeat split; try (vm_compute; reflexivity); try (vm_compute; discriminate).
Qed.

(** C3, as stated, fails.  With the worker bound -1 three jobs are handed
    to [run_tests_parallel], which raises before any of them runs: there
    is no result and no report, and [main] ends with the exception. *)
Lemma C3_negative_bound_yields_no_result :
  let jobs := Runner.all_test_files_of Examples.suite_tree Examples.formal
                Runner.test_categories in
  let self := {| Runner.max_workers := -1; Runner.timeout := 1 |} in
  let o := Runner.main ExactFloat.dumps Examples.scenario_env
             Scenarios.negative_workers_args Examples.suite_tree in
  length jobs = 3
  /\ Runner.run_tests_parallel Examples.scenario_env self jobs Examples.suite_tree
     = (inl (ValueError "max_workers must be greater than 0"), Examples.suite_tree)
  /\ length (Runner.discovered o) = 3
  /\ Runner.executed o = []
  /\ Runner.returned o = inl (ValueError "max_workers must be greater than 0")
  /\ Runner.final_tree o = Examples.suite_tree.
Proof.
  repeat split; vm_compute; reflexivity.
Qed.

(** The hypothesis of C3 holds for the three-job scenario. *)
Lemma C3_every_job_is_counted_witness :
  let jobs := Runner.all_test_files_of Examples.suite_tree Examples.formal
                Runner.test_categories in
  exists results progress status_counts category_stats,
    fst (Runner.run_tests_parallel Examples.scenario_env Examples.scenario_config jobs
           Examples.suite_tree)
    = inr (results, progress)
    /\ (exists completed,
          Permutation completed jobs
          /\ Forall2 (result_of_job Examples.scenario_env Examples.scenario_config)
               completed results)
    /\ length results = length jobs
    /\ Runner.tally results (Runner.zero_stats, []) = inr (status_counts, category_stats)
    /\ fst <$> status_counts = ["PASS"; "FAIL"; "TIMEOUT"; "ERROR"]
    /\ dict_total status_counts = length jobs.
Proof.
  exact (C3_every_job_is_counted Examples.scenario_env Examples.scenario_config
           (Runner.all_test_files_of Examples.suite_tree Examples.formal
              Runner.test_categories) Examples.suite_tree eq_refl).
Defined.


(** The scenario of three jobs: one passes, one fails, one times out. *)
Example scenario_counts :
  Runner.tally
    (fst (run_jobs Examples.scenario_env Examples.scenario_config
            (Runner.as_completed (Runner.schedule Examples.scenario_env)
               (Runner.all_test_files_of Examples.suite_tree Examples.formal
                  Runner.test_categories))
            Examples.suite_tree))
    (Runner.zero_stats, [])
  = inr ([("PASS", 1); ("FAIL", 1); ("TIMEOUT", 1); ("ERROR", 0)],
         [("instructions", [("PASS", 1); ("FAIL", 1); ("TIMEOUT", 1); ("ERROR", 0)])]).
Proof. vm_compute. reflexivity. Qed.

(** The job leaves its work directory, and the log found is read from
    it. *)
Example job_leaves_work_directory :
  let run := Runner.run_single_test Examples.scenario_env Examples.scenario_config
               Examples.a_path "instructions" Examples.single_tree in
  Runner.log_file (fst run) = Some "formal/instructions/a/model/design.log"
  /\ snd run !! (Examples.formal // "instructions" // "a") = Some Dir
  /\ Examples.single_tree !! (Examples.formal // "instructions" // "a") = None.
Proof. repeat split; vm_compute; reflexivity. Qed.

Example stem_of_artifact :
  path_stem (Examples.formal // "instructions" // "verify_add.sby") = "verify_add".
Proof. reflexivity. Qed.

Example stem_keeps_inner_dots : path_stem ["x.tar.gz"] = "x.tar".
Proof. reflexivity. Qed.

Example glob_keeps_sby_only :
  Runner.find_test_files
    (<[Examples.formal // "instructions" // "notes.txt" := File ""]> Examples.suite_tree)
    (Examples.formal // "instructions")
  = [ Examples.formal // "instructions" // "c.sby";
      Examples.formal // "instructions" // "b.sby";
      Examples.formal // "instructions" // "a.sby" ].
Proof. vm_compute. reflexivity. Qed.

Example scenario_exit_code :
  Runner.exit_code
    (Runner.main ExactFloat.dumps Examples.scenario_env Examples.scenario_args
       Examples.suite_tree) = 1%Z.
Proof. vm_compute. reflexivity. Qed.

Example generate_then_discover :
  length (Runner.all_test_files_of
            (Generator.final_tree
               (Generator.main Examples.allow_all Examples.no_fault Examples.formal
                  Examples.fresh_tree))
            Examples.formal Runner.test_categories) = 51.
Proof. vm_compute. reflexivity. Qed.

(** * Further properties: names, discovery, generation *)



Lemma path_name_div (d : Path) (n : string) : path_name (d // n) = n.
Proof. unfold path_name, path_div. apply last_last. Qed.

Lemma path_parent_div (d : Path) (n : string) : path_parent (d // n) = d.
Proof. unfold path_parent, path_div. apply removelast_last. Qed.

Lemma substring_all (s : string) : substring 0 (String.length s) s = s.
Proof. induction s as [|c s IH]; simpl; [done|by rewrite IH]. Qed.

Lemma endswith_app (a suf : string) : endswith suf (a +:+ suf) = true.
Proof.
  unfold endswith. rewrite length_append.
  apply andb_true_iff. split; [apply Nat.leb_le; lia|].
  replace (String.length a + String.length suf - String.length suf)
    with (String.length a) by lia.
  apply String.eqb_eq.
  induction a as [|c a IH]; simpl; [apply substring_all|done].
Qed.


(** ** The name of a job *)

Section JobNames.

Context {F : FloatOps}.
Variable env : Runner.Env.
Variable self : Runner.Config.

Lemma run_single_test_name test_file category st :
  Runner.test_name (fst (Runner.run_single_test env self test_file category st))
  = path_stem test_file
  /\ Runner.category (fst (Runner.run_single_test env self test_file category st))
     = category.
Proof.
  unfold Runner.run_single_test, Runner.run_single_test_body. cbn [fst].
  destruct (snd (subprocess_run _ _)) as [[]|process]; simpl; auto.
  destruct (Runner.find_log env _ _) as [[]|log];
    destruct (returncode process =? 0)%Z; simpl; auto.
Qed.




End JobNames.

(** ** Discovery *)

Lemma find_test_files_elem (st : fs) (d p : Path) :
  p ∈ Runner.find_test_files st d <->
  st !! d = Some Dir /\ is_Some (st !! p) /\ path_parent p = d /\ p <> d
  /\ endswith ".sby" (path_name p) = true.
Proof.
  unfold Runner.find_test_files, path_exists.
  destruct (st !! d) as [[|c]|] eqn:Hd; simpl.
  - rewrite list_elem_of_In, filter_In, <- list_elem_of_In.
    rewrite list_elem_of_fmap, andb_true_iff, bool_decide_eq_true. split.
    + intros [([q n] & -> & Hq) [[Hpar Hne] Hend]].
      apply elem_of_map_to_list in Hq. simpl in *. by rewrite Hq.
    + intros (_ & [n Hn] & Hpar & Hne & Hend). split; [|done].
      exists (p, n). split; [done|]. by apply elem_of_map_to_list.
  - split; [by intros ?%elem_of_nil|]. by intros [? _].
  - split; [by intros ?%elem_of_nil|]. by intros [? _].
Qed.

Lemma NoDup_List_filter {A} (f : A -> bool) (l : list A) :
  NoDup l -> NoDup (List.filter f l).
Proof.
  induction 1 as [|x l Hx Hnd IH]; simpl; [constructor|].
  destruct (f x); [|done]. constructor; [|done].
  rewrite list_elem_of_In, filter_In, <- list_elem_of_In. tauto.
Qed.

Lemma find_test_files_NoDup (st : fs) (d : Path) :
  NoDup (Runner.find_test_files st d).
Proof.
  unfold Runner.find_test_files.
  destruct (negb (path_exists st d)); [constructor|].
  destruct (st !! d) as [[|c]|]; try constructor.
  apply NoDup_List_filter, NoDup_fst_map_to_list.
Qed.

Lemma path_div_ne (d : Path) (n : string) : d // n <> d.
Proof.
  unfold path_div. intros H. apply (f_equal length) in H.
  rewrite length_app in H. simpl in H. lia.
Qed.

Lemma path_div_inj (d : Path) (a b : string) : d // a = d // b -> a = b.
Proof. unfold path_div. intros H. by apply app_inv_head in H as [= ->]. Qed.

Lemma all_test_files_of_elem st formal_dir selected (f : Path) (category : string) :
  (f, category) ∈ Runner.all_test_files_of st formal_dir selected <->
  exists subdir,
    (category, subdir) ∈ selected
    /\ f ∈ Runner.find_test_files st (formal_dir // subdir).
Proof.
  unfold Runner.all_test_files_of.
  rewrite list_elem_of_In, in_flat_map. split.
  - intros ([k v] & Hkv & Hin). apply list_elem_of_In in Hkv, Hin.
    apply list_elem_of_fmap in Hin as (f' & [= -> ->] & Hf). simpl in *. eauto.
  - intros (subdir & Hsel & Hf). exists (category, subdir).
    split; [by apply list_elem_of_In|]. apply list_elem_of_In.
    apply list_elem_of_fmap. eauto.
Qed.

Lemma selected_categories_elem categories (category subdir : string) :
  (category, subdir) ∈ Runner.selected_categories categories <->
  (category, subdir) ∈ Runner.test_categories
  /\ match categories with
     | Some (c :: cs) => category ∈ c :: cs
     | _ => True
     end.
Proof.
  unfold Runner.selected_categories.
  destruct categories as [[|c cs]|]; [naive_solver..| |naive_solver].
  rewrite list_elem_of_In, filter_In, <- list_elem_of_In.
  apply and_iff_compat_l. cbn [fst].
  rewrite existsb_exists. split.
  - intros (x & Hx & Heq). apply String.eqb_eq in Heq as ->. by apply list_elem_of_In.
  - intros Hin. exists category. split; [by apply list_elem_of_In|apply String.eqb_refl].
Qed.

(** X2.  What the suite discovers.  A pair of a file and a category is
    among the discovered jobs exactly when the category is one of the
    three known ones, it is selected (every category is when none is
    named on the command line), the directory of the category exists
    below the formal directory as a directory, and the file is an entry
    directly in that directory whose name ends in [.sby]. *)
Theorem discovered_jobs_spec
    (st : fs) (formal_dir : Path) (categories : option (list string))
    (f : Path) (category : string) :
  (f, category) ∈ Runner.all_test_files_of st formal_dir
                    (Runner.selected_categories categories)
  <->
  exists subdir,
    (category, subdir) ∈ [ ("instructions", "instructions");
                           ("system", "system_checks");
                           ("integration", "integration") ]
    /\ match categories with
       | Some (c :: cs) => category ∈ c :: cs
       | _ => True
       end
    /\ st !! (formal_dir // subdir) = Some Dir
    /\ is_Some (st !! f)
    /\ path_parent f = formal_dir // subdir
    /\ endswith ".sby" (path_name f) = true.
Proof.
  rewrite all_test_files_of_elem.
  apply exist_proper. intros subdir.
  rewrite selected_categories_elem, find_test_files_elem.
  change Runner.test_categories with
    [ ("instructions", "instructions"); ("system", "system_checks");
      ("integration", "integration") ].
  split; [naive_solver|].
  intros (? & ? & ? & ? & Hpar & ?). repeat split; try done.
  intros Heq. rewrite Heq, path_parent_div in Hpar.
  symmetry in Hpar. by apply path_div_ne in Hpar.
Qed.

Lemma all_test_files_of_NoDup st formal_dir (selected : list (string * string)) :
  NoDup (fst <$> selected) ->
  NoDup (Runner.all_test_files_of st formal_dir selected).
Proof.
  unfold Runner.all_test_files_of.
  induction selected as [|[k v] selected IH]; intros Hnd; [constructor|].
  rewrite fmap_cons in Hnd. apply NoDup_cons in Hnd as [Hk Hnd].
  cbn [flat_map fst snd]. apply NoDup_app. split; [|split; [|by apply IH]].
  - apply NoDup_fmap_2; [|apply find_test_files_NoDup]. by intros a b [= ->].
  - intros [f c] Hin Hin'. apply list_elem_of_fmap in Hin as (f' & Heq & _).
    assert (c = k) as -> by congruence.
    apply (all_test_files_of_elem st formal_dir selected f k) in Hin'
      as (subdir & Hsel & _).
    apply Hk. apply list_elem_of_fmap. by exists (k, subdir).
Qed.

Lemma selected_categories_NoDup categories :
  NoDup (fst <$> Runner.selected_categories categories).
Proof.
  assert (Hall : NoDup (fst <$> Runner.test_categories)).
  { apply (bool_decide_unpack _). vm_compute. exact I. }
  unfold Runner.selected_categories.
  destruct categories as [[|c cs]|]; try done.
  generalize (fun kv : string * string => existsb (String.eqb (fst kv)) (c :: cs)).
  intros g. revert Hall. generalize Runner.test_categories.
  induction l as [|kv l IH]; [done|]. rewrite fmap_cons.
  intros [Hkv Hnd]%NoDup_cons. simpl. destruct (g kv); [|by apply IH].
  rewrite fmap_cons. apply NoDup_cons. split; [|by apply IH].
  intros Hin. apply Hkv. apply list_elem_of_fmap in Hin as (x & -> & Hx).
  apply list_elem_of_fmap. exists x. split; [done|].
  apply list_elem_of_In in Hx. apply filter_In in Hx as [Hx _].
  by apply list_elem_of_In.
Qed.

(** X3.  No job is discovered twice: the list of pairs of file and
    category the suite submits to the pool has no duplicate, whatever the
    tree and the requested categories, also when a category is named
    several times on the command line. *)
Theorem discovered_jobs_NoDup
    (st : fs) (formal_dir : Path) (categories : option (list string)) :
  NoDup (Runner.all_test_files_of st formal_dir (Runner.selected_categories categories)).
Proof. apply all_test_files_of_NoDup, selected_categories_NoDup. Qed.

(** ** What the generator leaves alone *)

Section GeneratorFrame.

Variable permits : Path -> bool.
Variable write_fault : Path -> option (nat * string).

Lemma mkdir_lookup (q : Path) (st st' : fs) (p : Path) :
  mkdir permits q st = inr st' ->
  st' !! p = st !! p \/ (p = q /\ st !! p = None /\ st' !! p = Some Dir).
Proof.
  unfold mkdir. destruct (st !! q) as [[|c]|] eqn:Hq; try done.
  - intros [= <-]. by left.
  - destruct (negb (is_dir st (path_parent q))); [done|].
    destruct (negb (permits q)); [done|]. intros [= <-].
    destruct (decide (p = q)) as [->|Hne].
    + right. by rewrite lookup_insert_eq.
    + left. by rewrite lookup_insert_ne.
Qed.

Lemma make_dirs_lookup (dir : Path) (st : fs) (p : Path) :
  fst (make_dirs permits dir st) !! p = st !! p
  \/ (p ∈ output_dirs dir /\ st !! p = None
      /\ fst (make_dirs permits dir st) !! p = Some Dir).
Proof.
  unfold make_dirs, output_dirs. rewrite !elem_of_cons, elem_of_nil.
  destruct (mkdir permits (dir // "instructions") st) as [e|st1] eqn:H1; [by left|].
  apply (mkdir_lookup _ _ _ p) in H1.
  destruct (mkdir permits (dir // "system_checks") st1) as [e|st2] eqn:H2.
  { cbn [fst]. destruct H1 as [E1|(E1 & N1 & D1)]; auto. }
  apply (mkdir_lookup _ _ _ p) in H2.
  destruct (mkdir permits (dir // "integration") st2) as [e|st3] eqn:H3.
  { cbn [fst]. destruct H2 as [E2|(E2 & N2 & D2)], H1 as [E1|(E1 & N1 & D1)];
      first [ left; congruence | right; repeat split; (congruence || auto) ]. }
  apply (mkdir_lookup _ _ _ p) in H3.
  cbn [fst].
  destruct H3 as [E3|(E3 & N3 & D3)], H2 as [E2|(E2 & N2 & D2)],
    H1 as [E1|(E1 & N1 & D1)];
    first [ left; congruence | right; repeat split; (congruence || auto) ].
Qed.

Lemma task_content_None (p : Path) (tasks : list (Path * string)) :
  p ∉ fst <$> tasks -> task_content p tasks = None.
Proof.
  induction tasks as [|[q c] tasks IH]; [done|]. rewrite fmap_cons. simpl.
  intros Hp. case_bool_decide; [set_solver|]. apply IH. set_solver.
Qed.

Lemma write_all_frame (st : fs) (tasks : list (Path * string)) (p : Path) :
  NoDup (fst <$> tasks) -> p ∉ fst <$> tasks ->
  write_all permits write_fault st tasks !! p = st !! p.
Proof.
  intros Hnd Hp. by rewrite write_all_lookup, task_content_None.
Qed.

Lemma write_all_keeps (st : fs) (tasks : list (Path * string)) (p : Path) :
  NoDup (fst <$> tasks) ->
  is_Some (st !! p) -> is_Some (write_all permits write_fault st tasks !! p).
Proof.
  intros Hnd Hp. rewrite write_all_lookup by done.
  destruct (task_content p tasks); [|done].
  by destruct (can_write permits st p).
Qed.

Lemma write_all_keeps_dir (st : fs) (tasks : list (Path * string)) (p : Path) :
  NoDup (fst <$> tasks) ->
  st !! p = Some Dir -> write_all permits write_fault st tasks !! p = Some Dir.
Proof.
  intros Hnd Hp. rewrite write_all_lookup by done.
  destruct (task_content p tasks); [|done].
  unfold can_write, is_dir. by rewrite Hp.
Qed.

(** X4.  What the generator leaves alone.  A run of [main] changes no
    path other than its three output directories and the paths of the
    artifacts of the catalog; it removes nothing (a path that existed
    still exists); and a directory is still a directory afterwards: no
    artifact is written over a directory. *)
Theorem generator_frame (script_dir : Path) (st : fs) :
  let final := Generator.final_tree (Generator.main permits write_fault script_dir st) in
  (forall p, p ∉ output_dirs script_dir -> p ∉ fst <$> artifacts script_dir ->
             final !! p = st !! p)
  /\ (forall p, is_Some (st !! p) -> is_Some (final !! p))
  /\ (forall p, st !! p = Some Dir -> final !! p = Some Dir).
Proof.
  intros final. unfold final. rewrite final_tree_spec.
  pose proof (make_dirs_lookup script_dir st) as Hdirs.
  destruct (make_dirs permits script_dir st) as [t [e|]] eqn:Hm; cbn [fst] in Hdirs.
  - split; [|split].
    + intros p Hp _. destruct (Hdirs p) as [->|[? _]]; done.
    + intros p [n Hn]. destruct (Hdirs p) as [->|(_ & ? & _)]; [by eexists|congruence].
    + intros p Hp. destruct (Hdirs p) as [->|(_ & ? & _)]; [done|congruence].
  - split; [|split].
    + intros p Hp Ha. rewrite write_all_frame by (apply artifacts_NoDup || done).
      destruct (Hdirs p) as [->|[? _]]; done.
    + intros p [n Hn]. apply write_all_keeps; [apply artifacts_NoDup|].
      destruct (Hdirs p) as [->|(_ & ? & _)]; [by eexists|congruence].
    + intros p Hp. apply write_all_keeps_dir; [apply artifacts_NoDup|].
      destruct (Hdirs p) as [->|(_ & ? & _)]; [done|congruence].
Qed.

(** ** From generation to discovery *)

Lemma artifact_path_elem (script_dir : Path) (p : Path) :
  p ∈ fst <$> artifacts script_dir <->
  exists sub items kv,
    (sub, items) ∈ [ ("instructions", Generator.RV32I_INSTRUCTIONS);
                     ("system_checks", Generator.SYSTEM_CHECKS);
                     ("integration", Generator.INTEGRATION_CHECKS) ]
    /\ kv ∈ items
    /\ p = Generator.config_path (script_dir // sub) (fst kv).
Proof.
  unfold artifacts, artifacts_of. rewrite !fmap_app, <- !list_fmap_compose.
  rewrite !elem_of_app, !list_elem_of_fmap. cbn [compose fst]. split.
  - intros [(kv & -> & H)|[(kv & -> & H)|(kv & -> & H)]].
    + exists "instructions", Generator.RV32I_INSTRUCTIONS, kv. rewrite !elem_of_cons. auto.
    + exists "system_checks", Generator.SYSTEM_CHECKS, kv. rewrite !elem_of_cons. auto.
    + exists "integration", Generator.INTEGRATION_CHECKS, kv. rewrite !elem_of_cons. auto.
  - intros (sub & items & kv & Hfam & Hkv & ->).
    rewrite !elem_of_cons, elem_of_nil in Hfam.
    destruct Hfam as [[= -> ->]|[[= -> ->]|[[= -> ->]|[]]]]; eauto 6.
Qed.

Lemma catalog_jobs_elem (script_dir : Path) (f : Path) (category : string) :
  (f, category) ∈ catalog_jobs script_dir <->
  exists sub items kv,
    (category, sub, items)
      ∈ [ ("instructions", "instructions", Generator.RV32I_INSTRUCTIONS);
          ("system", "system_checks", Generator.SYSTEM_CHECKS);
          ("integration", "integration", Generator.INTEGRATION_CHECKS) ]
    /\ kv ∈ items
    /\ f = Generator.config_path (script_dir // sub) (fst kv).
Proof.
  unfold catalog_jobs. rewrite !elem_of_app, !list_elem_of_fmap. split.
  - intros [(kv & [= -> ->] & H)|[(kv & [= -> ->] & H)|(kv & [= -> ->] & H)]].
    + exists "instructions", Generator.RV32I_INSTRUCTIONS, kv. rewrite !elem_of_cons. auto.
    + exists "system_checks", Generator.SYSTEM_CHECKS, kv. rewrite !elem_of_cons. auto.
    + exists "integration", Generator.INTEGRATION_CHECKS, kv. rewrite !elem_of_cons. auto.
  - intros (sub & items & kv & Hfam & Hkv & ->).
    rewrite !elem_of_cons, elem_of_nil in Hfam.
    destruct Hfam as [[= -> -> ->]|[[= -> -> ->]|[[= -> -> ->]|[]]]]; eauto 6.
Qed.

Lemma catalog_jobs_fst (script_dir : Path) :
  fst <$> catalog_jobs script_dir = fst <$> artifacts script_dir.
Proof.
  unfold catalog_jobs, artifacts, artifacts_of.
  rewrite !fmap_app, <- !list_fmap_compose. done.
Qed.

Lemma catalog_jobs_NoDup (script_dir : Path) : NoDup (catalog_jobs script_dir).
Proof.
  apply (NoDup_fmap_1 fst). rewrite catalog_jobs_fst. apply artifacts_NoDup.
Qed.

Lemma config_path_parent (dir : Path) (check : string) :
  path_parent (Generator.config_path dir check) = dir.
Proof. unfold Generator.config_path. apply path_parent_div. Qed.

Lemma config_path_endswith (dir : Path) (check : string) :
  endswith ".sby" (path_name (Generator.config_path dir check)) = true.
Proof.
  unfold Generator.config_path. rewrite path_name_div.
  apply (endswith_app ("verify_" +:+ check) ".sby").
Qed.

Lemma catalog_discovered (script_dir : Path) (st : fs) :
  (forall p, p ∈ fst <$> artifacts script_dir ->
             opens_artifact permits script_dir st p) ->
  no_foreign_sby script_dir st ->
  Permutation
    (Runner.all_test_files_of
       (Generator.final_tree (Generator.main permits write_fault script_dir st))
       script_dir Runner.test_categories)
    (catalog_jobs script_dir).
Proof.
  intros Hw Hforeign.
  set (final := Generator.final_tree (Generator.main permits write_fault script_dir st)).
  assert (Hdirs : snd (make_dirs permits script_dir st) = None).
  { destruct (Hw (Generator.config_path (script_dir // "instructions") "add")) as [H _];
      [|done].
    apply artifact_path_elem.
    exists "instructions", Generator.RV32I_INSTRUCTIONS, ("add", "R-type arithmetic").
    split; [by left|]. split; [by left|done]. }
  pose proof (make_dirs_lookup script_dir st) as Hlook.
  assert (Hfinal : final = write_all permits write_fault (fst (make_dirs permits script_dir st))
                             (artifacts script_dir)).
  { unfold final. rewrite final_tree_spec.
    by destruct (make_dirs permits script_dir st) as [t [e|]]. }
  destruct (make_dirs permits script_dir st) as [st3 oe] eqn:Hm.
  cbn [fst snd] in Hdirs, Hlook, Hfinal. subst oe.
  pose proof (make_dirs_ok permits _ _ _ Hm) as (D1 & D2 & D3).
  assert (Hdir : forall sub, sub ∈ ["instructions"; "system_checks"; "integration"] ->
                   final !! (script_dir // sub) = Some Dir).
  { intros sub Hsub.
    assert (is_dir final (script_dir // sub) = true) as H.
    { rewrite Hfinal, is_dir_write_all.
      rewrite !elem_of_cons, elem_of_nil in Hsub.
      destruct Hsub as [->|[->|[->|[]]]]; assumption. }
    unfold is_dir in H. by destruct (final !! (script_dir // sub)) as [[]|]. }
  apply NoDup_Permutation.
  - apply (all_test_files_of_NoDup final script_dir Runner.test_categories).
    apply (bool_decide_unpack _). vm_compute. exact I.
  - apply catalog_jobs_NoDup.
  - intros [f c]. rewrite all_test_files_of_elem, catalog_jobs_elem. split.
    + intros (subdir & Hcat & Hfind).
      apply find_test_files_elem in Hfind as (_ & Hex & Hpar & Hne & Hend).
      assert (Hsub : subdir ∈ ["instructions"; "system_checks"; "integration"]).
      { unfold Runner.test_categories in Hcat.
        rewrite !elem_of_cons, elem_of_nil in Hcat.
        destruct Hcat as [[= _ ->]|[[= _ ->]|[[= _ ->]|[]]]];
          rewrite !elem_of_cons; auto. }
      assert (Hart : f ∈ fst <$> artifacts script_dir).
      { destruct (decide (f ∈ fst <$> artifacts script_dir)) as [|Hnot]; [done|].
        apply (Hforeign f subdir); try done.
        rewrite Hfinal, write_all_frame in Hex by (apply artifacts_NoDup || done).
        destruct (Hlook f) as [<-|(Hout & _)]; [done|].
        exfalso. unfold output_dirs in Hout.
        rewrite !elem_of_cons, elem_of_nil in Hout.
        destruct Hout as [->|[->|[->|[]]]];
          rewrite path_parent_div in Hpar; symmetry in Hpar;
          by apply path_div_ne in Hpar. }
      apply artifact_path_elem in Hart as (sub & items & kv & Hfam & Hkv & ->).
      rewrite config_path_parent in Hpar. apply path_div_inj in Hpar as ->.
      exists subdir, items, kv. split; [|done].
      unfold Runner.test_categories in Hcat.
      rewrite !elem_of_cons, elem_of_nil in Hcat.
      rewrite !elem_of_cons, elem_of_nil in Hfam. rewrite !elem_of_cons.
      destruct Hcat as [[= -> ->]|[[= -> ->]|[[= -> ->]|[]]]];
        destruct Hfam as [[= ->]|[[= ->]|[[= ->]|[]]]]; auto.
    + intros (sub & items & kv & Hfam & Hkv & ->).
      exists sub. split.
      { unfold Runner.test_categories.
        rewrite !elem_of_cons, elem_of_nil in Hfam. rewrite !elem_of_cons.
        destruct Hfam as [[= -> -> ->]|[[= -> -> ->]|[[= -> -> ->]|[]]]]; auto. }
      assert (Hart : Generator.config_path (script_dir // sub) (fst kv)
                       ∈ fst <$> artifacts script_dir).
      { apply artifact_path_elem. exists sub, items, kv. split; [|done].
        rewrite !elem_of_cons, elem_of_nil in Hfam. rewrite !elem_of_cons.
        destruct Hfam as [[= -> -> ->]|[[= -> -> ->]|[[= -> -> ->]|[]]]]; auto. }
      apply find_test_files_elem. split; [|split; [|split; [|split]]].
      * apply Hdir. rewrite !elem_of_cons, elem_of_nil in Hfam. rewrite !elem_of_cons.
        destruct Hfam as [[= -> -> ->]|[[= -> -> ->]|[[= -> -> ->]|[]]]]; auto.
      * destruct (Hw _ Hart) as [_ Hcw]. rewrite Hm in Hcw. cbn [fst] in Hcw.
        apply list_elem_of_fmap in Hart as ([p c'] & Hp & Hin). cbn [fst] in Hp. subst p.
        rewrite Hfinal, write_all_lookup by apply artifacts_NoDup.
        rewrite (task_content_Some _ c' _ (artifacts_NoDup _) Hin), Hcw. by eexists.
      * apply config_path_parent.
      * unfold Generator.config_path. apply path_div_ne.
      * apply config_path_endswith.
Qed.


(** X5.  From generation to discovery.  When the generator can make its
    three directories and open every artifact for writing (whether or not
    the writing then meets a fault), and no other [*.sby] entry lies in
    these directories, then the suite run on the generator's directory
    discovers exactly the catalog: one job per
    catalog entry, instruction checks under category [instructions],
    system checks (written to [system_checks]) under [system] and
    integration checks under [integration]; so it submits as many jobs as
    the catalog has entries. *)
Theorem generated_suite_is_discovered (script_dir : Path) (st : fs) :
  (forall p, p ∈ fst <$> artifacts script_dir ->
             opens_artifact permits script_dir st p) ->
  no_foreign_sby script_dir st ->
  let final := Generator.final_tree (Generator.main permits write_fault script_dir st) in
  let jobs := Runner.all_test_files_of final script_dir Runner.test_categories in
  Permutation jobs (catalog_jobs script_dir)
  /\ length jobs = length Generator.RV32I_INSTRUCTIONS
                   + length Generator.SYSTEM_CHECKS
                   + length Generator.INTEGRATION_CHECKS.
Proof.
  intros Hw Hforeign final jobs.
  pose proof (catalog_discovered script_dir st Hw Hforeign) as Hperm.
  split; [exact Hperm|]. unfold jobs, final. rewrite (Permutation_length Hperm).
  unfold catalog_jobs. rewrite !length_app, !length_fmap. lia.
Qed.

End GeneratorFrame.

(** * Further properties: the counting loop *)

Section UpdateFacts.

Context {V : Type}.

Lemma dict_get_fmap (g : string -> V) (k : string) (keys : list string) :
  dict_get k ((fun c => (c, g c)) <$> keys)
  = if bool_decide (k ∈ keys) then Some (g k) else None.
Proof.
  induction keys as [|c keys IH]; [done|]. rewrite fmap_cons. simpl.
  destruct (String.eqb k c) eqn:E.
  - apply String.eqb_eq in E as ->. rewrite bool_decide_eq_true_2; [done|by left].
  - rewrite IH. apply String.eqb_neq in E.
    repeat case_bool_decide; try done; set_solver.
Qed.

Lemma dict_get_not_key (k : string) (d : list (string * V)) :
  k ∉ fst <$> d -> dict_get k d = None.
Proof.
  induction d as [|[k0 v0] d IH]; [done|]. rewrite fmap_cons. simpl.
  intros Hk. destruct (String.eqb k k0) eqn:E.
  - apply String.eqb_eq in E as ->. exfalso. apply Hk. by left.
  - apply IH. intros H. apply Hk. by right.
Qed.

(** Updating the entry of a key in a dictionary built from its keys. *)
Lemma dict_update_fmap (g g' : string -> V) (f : V -> exn + V)
    (k : string) (keys : list string) :
  NoDup keys -> k ∈ keys ->
  f (g k) = inr (g' k) ->
  (forall c, c ∈ keys -> c <> k -> g' c = g c) ->
  dict_update k f ((fun c => (c, g c)) <$> keys)
  = inr ((fun c => (c, g' c)) <$> keys).
Proof.
  intros Hnd Hk Hf. induction keys as [|c keys IH]; intros Hg.
  - by apply elem_of_nil in Hk.
  - apply NoDup_cons in Hnd as [Hc Hnd]. rewrite !fmap_cons. simpl.
    destruct (String.eqb k c) eqn:E.
    + apply String.eqb_eq in E as <-. rewrite Hf. do 2 f_equal.
      apply list_fmap_ext. intros i c Hi. f_equal. symmetry. apply Hg.
      * right. by eapply list_elem_of_lookup_2.
      * intros ->. apply Hc. by eapply list_elem_of_lookup_2.
    + apply String.eqb_neq in E.
      apply elem_of_cons in Hk as [->|Hk]; [done|].
      rewrite IH; try done.
      * rewrite Hg; [done|by left|congruence].
      * intros c' Hc' Hne. apply Hg; [by right|done].
Qed.

End UpdateFacts.

Section CountingFacts.

Context {F : FloatOps}.

Lemma tally_app (l l' : list Runner.TestResult) a :
  Runner.tally (l ++ l') a = and_then (Runner.tally l a) (Runner.tally l').
Proof.
  revert a. induction l as [|r l IH]; intros a; [done|].
  cbn [app Runner.tally]. destruct (Runner.tally_step a r) as [e|a']; [done|].
  apply IH.
Qed.

Lemma first_seen_snoc (l : list string) (c : string) :
  first_seen (l ++ [c])
  = if bool_decide (c ∈ first_seen l) then first_seen l else first_seen l ++ [c].
Proof. unfold first_seen. by rewrite fold_left_app. Qed.

Lemma first_seen_elem (l : list string) (c : string) :
  c ∈ first_seen l <-> c ∈ l.
Proof.
  induction l as [|x l IH] using rev_ind; [done|].
  rewrite first_seen_snoc, elem_of_app, list_elem_of_singleton, <- IH.
  case_bool_decide as Hx.
  - split; [by left|]. intros [?| ->]; done.
  - by rewrite elem_of_app, list_elem_of_singleton.
Qed.

Lemma first_seen_NoDup (l : list string) : NoDup (first_seen l).
Proof.
  induction l as [|x l IH] using rev_ind; [constructor|].
  rewrite first_seen_snoc. case_bool_decide as Hx; [done|].
  apply NoDup_app. split; [done|]. split; [|apply NoDup_singleton].
  intros y Hy ->%list_elem_of_singleton. done.
Qed.

Lemma count_status_snoc (s : string) (l : list Runner.TestResult) r :
  count_status s (l ++ [r])
  = count_status s l + (if String.eqb (Runner.status r) s then 1 else 0).
Proof.
  unfold count_status. rewrite List.filter_app, length_app. simpl.
  by destruct (String.eqb (Runner.status r) s).
Qed.

Lemma in_category_snoc (c : string) (l : list Runner.TestResult) r :
  in_category c (l ++ [r])
  = in_category c l ++ (if String.eqb (Runner.category r) c then [r] else []).
Proof.
  unfold in_category. rewrite List.filter_app. simpl.
  by destruct (String.eqb (Runner.category r) c).
Qed.

Lemma in_category_absent (c : string) (l : list Runner.TestResult) :
  c ∉ Runner.category <$> l -> in_category c l = [].
Proof.
  induction l as [|r l IH]; [done|]. rewrite fmap_cons. intros Hc.
  unfold in_category. simpl. destruct (String.eqb (Runner.category r) c) eqn:E.
  - apply String.eqb_eq in E. exfalso. apply Hc. apply elem_of_cons. by left.
  - apply IH. intros H. apply Hc. by right.
Qed.

(** One more result with a valid status increments its count. *)
Lemma counts_incr (l : list Runner.TestResult) r :
  valid_status (Runner.status r) ->
  dict_incr (Runner.status r) (counts_of l) = inr (counts_of (l ++ [r])).
Proof.
  unfold counts_of, status_keys, dict_incr. rewrite !fmap_cons, !fmap_nil.
  rewrite !count_status_snoc.
  intros [->|[->|[->| ->]]]; cbn [dict_update String.eqb Ascii.eqb Bool.eqb andb];
    by rewrite ?Nat.add_0_r, ?Nat.add_1_r.
Qed.

Lemma setdefault_counts (l : list Runner.TestResult) r :
  dict_setdefault (Runner.category r) Runner.zero_stats (category_counts l)
  = (fun c => (c, counts_of (in_category c l)))
      <$> first_seen (Runner.category <$> (l ++ [r])).
Proof.
  unfold dict_setdefault, category_counts.
  rewrite dict_get_fmap, fmap_app. cbn [fmap list_fmap].
  rewrite first_seen_snoc.
  case_bool_decide as Hc; [done|].
  rewrite fmap_app. f_equal. cbn [fmap list_fmap]. do 2 f_equal.
  rewrite in_category_absent; [done|]. by rewrite <- first_seen_elem.
Qed.

Lemma category_step_counts (l : list Runner.TestResult) r :
  valid_status (Runner.status r) ->
  category_step (Runner.category r) (Runner.status r) (category_counts l)
  = inr (category_counts (l ++ [r])).
Proof.
  intros Hv. unfold category_step. rewrite setdefault_counts.
  unfold category_counts.
  apply (dict_update_fmap
           (fun c => counts_of (in_category c l))
           (fun c => counts_of (in_category c (l ++ [r])))).
  - apply first_seen_NoDup.
  - apply first_seen_elem. rewrite fmap_app, elem_of_app. right. by left.
  - rewrite in_category_snoc, String.eqb_refl. by apply counts_incr.
  - intros c _ Hne. rewrite in_category_snoc.
    destruct (String.eqb (Runner.category r) c) eqn:E.
    + by apply String.eqb_eq in E.
    + by rewrite app_nil_r.
Qed.

Lemma tally_counts_of (results : list Runner.TestResult) :
  Forall (fun r => valid_status (Runner.status r)) results ->
  Runner.tally results (Runner.zero_stats, [])
  = inr (counts_of results, category_counts results).
Proof.
  induction results as [|r l IH] using rev_ind; intros Hv; [done|].
  apply Forall_app in Hv as [Hl Hr]. rewrite Forall_singleton in Hr.
  rewrite tally_app, IH by done. cbn [and_then Runner.tally].
  rewrite tally_step_unfold. cbn [fst snd].
  rewrite counts_incr by done. cbn [and_then].
  rewrite category_step_counts by done. reflexivity.
Qed.

(** X6.  What the counting loop of the summary computes.  On results
    whose statuses are among the four known ones, [status_counts] holds,
    for PASS, FAIL, TIMEOUT and ERROR in this order, the number of results
    with that status, and [category_stats] holds one entry per category,
    in the order in which the categories first occur among the results,
    with the four counts taken over the results of that category. *)
Theorem tally_counts (results : list Runner.TestResult) :
  Forall (fun r => valid_status (Runner.status r)) results ->
  Runner.tally results (Runner.zero_stats, [])
  = inr ( [ ("PASS", count_status "PASS" results);
            ("FAIL", count_status "FAIL" results);
            ("TIMEOUT", count_status "TIMEOUT" results);
            ("ERROR", count_status "ERROR" results) ],
          (fun c => (c, [ ("PASS", count_status "PASS" (in_category c results));
                          ("FAIL", count_status "FAIL" (in_category c results));
                          ("TIMEOUT", count_status "TIMEOUT" (in_category c results));
                          ("ERROR", count_status "ERROR" (in_category c results)) ]))
            <$> first_seen (Runner.category <$> results) ).
Proof. apply tally_counts_of. Qed.

Lemma tally_unknown_status (good rest : list Runner.TestResult) r :
  Forall (fun x => valid_status (Runner.status x)) good ->
  ~ valid_status (Runner.status r) ->
  Runner.tally (good ++ r :: rest) (Runner.zero_stats, [])
  = inl (KeyError (Runner.status r)).
Proof.
  intros Hgood Hr. rewrite tally_app, tally_counts_of by done.
  cbn [and_then Runner.tally]. rewrite tally_step_unfold. cbn [fst snd].
  pose proof (dict_incr_spec (Runner.status r) (counts_of good)) as H.
  rewrite dict_get_not_key in H; [by rewrite H|].
  unfold counts_of. rewrite <- list_fmap_compose.
  unfold valid_status in Hr. unfold status_keys. cbn.
  rewrite !elem_of_cons, elem_of_nil. tauto.
Qed.

(** X7.  The summary and an unknown status.  The summary is built when
    every result has one of the four known statuses.  When some result
    has another status, building the summary raises [KeyError] with the
    status of the first such result as its key, whatever follows it. *)
Theorem summary_unknown_status (results : list Runner.TestResult) (wall : float) :
  (Forall (fun r => valid_status (Runner.status r)) results ->
     exists text, Runner.generate_summary_report results wall = inr text)
  /\ (forall good r rest,
        results = good ++ r :: rest ->
        Forall (fun x => valid_status (Runner.status x)) good ->
        ~ valid_status (Runner.status r) ->
        Runner.generate_summary_report results wall
        = inl (KeyError (Runner.status r))).
Proof.
  unfold Runner.generate_summary_report, Runner.summary_lines. split.
  - intros Hv. destruct results as [|first rest]; [by eexists|].
    rewrite tally_counts_of by done. by eexists.
  - intros good r rest -> Hgood Hr.
    rewrite tally_unknown_status by done.
    by destruct good.
Qed.

Lemma counts_total (l : list Runner.TestResult) :
  Forall (fun r => valid_status (Runner.status r)) l ->
  dict_total (counts_of l) = length l.
Proof.
  unfold dict_total, counts_of, status_keys, count_status.
  rewrite <- list_fmap_compose. cbn [fmap list_fmap compose snd list_sum foldr].
  induction 1 as [|r l Hr _ IH]; [done|].
  cbn [List.filter length].
  destruct Hr as [->|[->|[->| ->]]]; cbn [String.eqb Ascii.eqb Bool.eqb andb length];
    lia.
Qed.

Lemma in_category_valid (c : string) (l : list Runner.TestResult) :
  Forall (fun r => valid_status (Runner.status r)) l ->
  Forall (fun r => valid_status (Runner.status r)) (in_category c l).
Proof.
  intros H. apply Forall_forall. intros r Hr.
  apply list_elem_of_In in Hr. apply filter_In in Hr as [Hr _].
  apply list_elem_of_In in Hr. by eapply (proj1 (Forall_forall _ _) H).
Qed.

(** The results split by category. *)
Lemma category_partition (keys : list string) (l : list Runner.TestResult) :
  NoDup keys ->
  (forall r, r ∈ l -> Runner.category r ∈ keys) ->
  list_sum ((fun c => length (in_category c l)) <$> keys) = length l.
Proof.
  intros Hnd. induction l as [|r l IH]; intros Hin.
  - clear. induction keys as [|c keys IH]; [done|]. by rewrite fmap_cons.
  - assert (Hstep : forall ks, NoDup ks ->
              list_sum ((fun c => length (in_category c (r :: l))) <$> ks)
              = list_sum ((fun c => length (in_category c l)) <$> ks)
                + (if bool_decide (Runner.category r ∈ ks) then 1 else 0)).
    { clear. induction ks as [|c ks IHk]; intros Hnd; [done|].
      apply NoDup_cons in Hnd as [Hc Hnd]. rewrite !fmap_cons.
      cbn [list_sum foldr]. fold (list_sum ((fun c => length (in_category c (r :: l))) <$> ks)).
      fold (list_sum ((fun c => length (in_category c l)) <$> ks)).
      rewrite IHk by done. unfold in_category at 1. cbn [List.filter].
      fold (in_category c l).
      destruct (String.eqb (Runner.category r) c) eqn:E.
      - apply String.eqb_eq in E. subst c.
        rewrite (bool_decide_eq_false_2 _ Hc).
        rewrite bool_decide_eq_true_2 by (by left). cbn [length]. lia.
      - apply String.eqb_neq in E.
        destruct (decide (Runner.category r ∈ ks)) as [Hk|Hk].
        + rewrite !bool_decide_eq_true_2; [lia|by right|done].
        + rewrite !bool_decide_eq_false_2; [lia| |done].
          intros [?|?]%elem_of_cons; done. }
    rewrite Hstep by done. rewrite IH by (intros r' Hr'; apply Hin; by right).
    rewrite bool_decide_eq_true_2 by (apply Hin; by left). simpl. lia.
Qed.

(** X8.  The totals of the categories.  For results with known
    statuses, every entry of [category_stats] belongs to a category that
    occurs among the results, its counts add up to the number of results
    of that category, which is positive: the pass rate is never computed
    with the fallback for an empty category.  The totals of all the
    categories add up to the number of results. *)
Theorem category_totals
    (results : list Runner.TestResult)
    (status_counts : list (string * nat))
    (category_stats : list (string * list (string * nat))) :
  Forall (fun r => valid_status (Runner.status r)) results ->
  Runner.tally results (Runner.zero_stats, []) = inr (status_counts, category_stats) ->
  Forall (fun entry =>
            fst entry ∈ Runner.category <$> results
            /\ dict_total (snd entry) = length (in_category (fst entry) results)
            /\ 0 < dict_total (snd entry))
         category_stats
  /\ list_sum ((fun entry => dict_total (snd entry)) <$> category_stats)
     = length results.
Proof.
  intros Hv Ht. rewrite tally_counts_of in Ht by done. injection Ht as _ <-.
  unfold category_counts. split.
  - apply Forall_fmap, Forall_forall. intros c Hc. unfold compose. cbn [fst snd].
    rewrite first_seen_elem in Hc.
    rewrite counts_total by (by apply in_category_valid).
    split; [done|]. split; [done|].
    apply list_elem_of_fmap in Hc as (r & -> & Hr).
    apply list_elem_of_In in Hr.
    assert (In r (in_category (Runner.category r) results)) as Hin.
    { apply filter_In. split; [done|apply String.eqb_refl]. }
    destruct (in_category (Runner.category r) results); [done|simpl; lia].
  - rewrite <- list_fmap_compose.
    rewrite <- (category_partition (first_seen (Runner.category <$> results)) results).
    + f_equal. apply list_fmap_ext. intros i c Hc. cbn [compose snd].
      apply counts_total. by apply in_category_valid.
    + apply first_seen_NoDup.
    + intros r Hr. apply first_seen_elem. apply list_elem_of_fmap. eauto.
Qed.

End CountingFacts.

(** * Further properties: the pool, the report and the suite *)

Section PoolFacts.

Context {F : FloatOps}.
Variable env : Runner.Env.
Variable self : Runner.Config.

Lemma status_symbol_valid (s : string) :
  valid_status s -> Runner.status_symbol s = "[" +:+ s +:+ "]".
Proof. by intros [->|[->|[->| ->]]]. Qed.

Lemma collect_progress completed results out st :
  snd (fst (Runner.collect
              (fun f c st0 =>
                 let '(r, st1) := Runner.run_single_test env self f c st0 in
                 (inr r, st1))
              completed results out st))
  = out ++ (progress_line <$> fst (run_jobs env self completed st)).
Proof.
  revert results out st.
  induction completed as [|[f c] completed IH]; intros results out st.
  - simpl. by rewrite app_nil_r.
  - cbn [Runner.collect run_jobs].
    pose proof (run_single_test_status env self f c st) as Hv.
    pose proof (run_single_test_name env self f c st) as [_ Hc].
    destruct (Runner.run_single_test env self f c st) as [r st1].
    cbn [fst] in Hv, Hc.
    rewrite IH, <- app_assoc. f_equal.
    destruct (run_jobs env self completed st1) as [rs st2].
    cbn [fst]. rewrite fmap_cons. cbn [app]. f_equal.
    unfold progress_line. by rewrite (status_symbol_valid _ Hv), Hc.
Qed.

(** X9.  The progress lines of the pool.  With a positive worker bound
    the pool prints exactly one line per result, in the order of
    completion, made of the status in brackets, the category, the job's
    name, the status and the duration; so the marker [[UNKNOWN]] and the
    line reporting an exception of a job are never printed.  The results
    are those of the jobs run one after the other in the order of
    completion, each in the tree the one before it left, and the pool
    leaves the tree the last job left. *)
Theorem progress_lines (test_files : list (Path * string)) (st : fs) :
  (0 < Runner.max_workers self)%Z ->
  let completed := Runner.as_completed (Runner.schedule env) test_files in
  exists results,
    Runner.run_tests_parallel env self test_files st
    = (inr (results, progress_line <$> results), snd (run_jobs env self completed st))
    /\ results = fst (run_jobs env self completed st)
    /\ Forall2 (result_of_job env self) completed results.
Proof.
  intros Hw completed. unfold Runner.run_tests_parallel.
  destruct (Runner.max_workers self <=? 0)%Z eqn:E; [lia|].
  exists (fst (run_jobs env self completed st)).
  split; [|split; [done|apply run_jobs_results]].
  pose proof (collect_total env self completed [] [] st) as Ht.
  pose proof (collect_progress completed [] [] st) as Hp.
  fold completed.
  destruct (Runner.collect _ completed [] [] st) as [[rs o] st'].
  cbn [fst snd] in Hp. destruct Ht as [-> ->]. by rewrite Hp.
Qed.

End PoolFacts.

(** ** Fastest and slowest job *)

Section Extremes.

Context {A : Type}.
Variable lt : A -> A -> bool.
Hypothesis lt_irrefl : forall x, lt x x = false.
Hypothesis lt_trans : forall x y z, lt x y = true -> lt y z = true -> lt x z = true.

Lemma fold_best (first : A) (rest : list A) :
  let best := fold_left (fun best r => if lt r best then r else best) rest first in
  best ∈ first :: rest /\ forall r, r ∈ first :: rest -> lt r best = false.
Proof.
  induction rest as [|x rest IH] using rev_ind.
  - simpl. split; [by left|]. by intros r ->%list_elem_of_singleton.
  - simpl in *. rewrite fold_left_app. cbn [fold_left].
    destruct IH as [Hin Hmin].
    set (best := fold_left _ rest first) in *.
    rewrite app_comm_cons.
    destruct (lt x best) eqn:E.
    + split; [apply elem_of_app; right; by left|].
      intros r [Hr| ->%list_elem_of_singleton]%elem_of_app; [|done].
      destruct (lt r x) eqn:E'; [|done].
      specialize (Hmin r Hr). by rewrite (lt_trans _ _ _ E' E) in Hmin.
    + split; [apply elem_of_app; by left|].
      intros r [Hr| ->%list_elem_of_singleton]%elem_of_app; [by apply Hmin|done].
Qed.

End Extremes.

Section Performance.

Context {F : FloatOps}.

(** X10.  Fastest and slowest job.  When the comparison of durations is
    irreflexive and transitive, the job the summary names as fastest is
    one of the results and no result has a smaller duration, and the job
    it names as slowest is one of the results and no result has a larger
    duration. *)
Theorem fastest_and_slowest (first : Runner.TestResult) (rest : list Runner.TestResult) :
  (forall x, fltb x x = false) ->
  (forall x y z, fltb x y = true -> fltb y z = true -> fltb x z = true) ->
  let fastest := Runner.fastest_of first rest in
  let slowest := Runner.slowest_of first rest in
  fastest ∈ first :: rest
  /\ slowest ∈ first :: rest
  /\ forall r, r ∈ first :: rest ->
       fltb (Runner.duration r) (Runner.duration fastest) = false
       /\ fltb (Runner.duration slowest) (Runner.duration r) = false.
Proof.
  intros Hirr Htr fastest slowest.
  destruct (fold_best (fun r b => fltb (Runner.duration r) (Runner.duration b))
              (fun x => Hirr _) (fun x y z => Htr _ _ _) first rest) as [Hf Hfmin].
  destruct (fold_best (fun r b => fltb (Runner.duration b) (Runner.duration r))
              (fun x => Hirr _) (fun x y z H1 H2 => Htr _ _ _ H2 H1) first rest)
    as [Hs Hsmin].
  split; [exact Hf|]. split; [exact Hs|].
  intros r Hr. split; [by apply Hfmin|by apply Hsmin].
Qed.

End Performance.

(** ** The report document *)

Section ReportFacts.

Context {F : FloatOps}.
Variable dumps : json -> string.
Variable env : Runner.Env.

Lemma result_of_result_json (r : Runner.TestResult) :
  result_of_json (Runner.result_json r) = Some r.
Proof. by destruct r as [n c s d [lf|] [em|]]. Qed.

(** X11.  The report document reads back.  The results array of the
    document [save_detailed_report] builds holds one entry per result, in
    the order of the results, and every entry reads back to the result
    it was made from, field by field; the summary block's [total_tests]
    is the number of entries. *)
Theorem report_round_trip (results : list Runner.TestResult) :
  let doc := Runner.report_data env results in
  mapM result_of_json (report_results doc) = Some results
  /\ length (report_results doc) = length results
  /\ (json_get "summary" doc ≫= json_get "total_tests")
     = Some (JInt (length (report_results doc))).
Proof.
  intros doc.
  assert (Hres : report_results doc = Runner.result_json <$> results) by done.
  rewrite Hres, length_fmap. split; [|done].
  apply mapM_fmap_Some. apply result_of_result_json.
Qed.

End ReportFacts.
(** * Further properties: the suite and the command line *)

Section SuiteFrame.

Context {F : FloatOps}.
Variable dumps : json -> string.
Variable env : Runner.Env.

Lemma run_jobs_leaves self jobs st (p : Path) :
  (forall job, job ∈ jobs -> job_leaves env p job) ->
  snd (run_jobs env self jobs st) !! p = st !! p.
Proof.
  revert st. induction jobs as [|[f c] jobs IH]; intros st H; [done|].
  cbn [run_jobs].
  pose proof (run_single_test_tree env self f c st) as Ht.
  destruct (Runner.run_single_test env self f c st) as [r st1]. cbn [snd] in Ht.
  assert (Hrest : forall job, job ∈ jobs -> job_leaves env p job)
    by (intros job Hjob; apply H; by right).
  specialize (IH st1 Hrest).
  destruct (run_jobs env self jobs st1) as [rs st2]. cbn [snd] in *.
  rewrite IH, Ht. apply (H (f, c)). by left.
Qed.

Lemma run_jobs_keeps_tests self jobs st formal_dir (sub : string) :
  (forall job, job ∈ jobs -> job_keeps_tests env formal_dir job) ->
  sub ∈ ["instructions"; "system_checks"; "integration"] ->
  snd (run_jobs env self jobs st) !! (formal_dir // sub) = st !! (formal_dir // sub)
  /\ forall p, path_parent p = formal_dir // sub ->
       endswith ".sby" (path_name p) = true ->
       (is_Some (snd (run_jobs env self jobs st) !! p) <-> is_Some (st !! p)).
Proof.
  intros H Hsub. revert st H.
  induction jobs as [|[f c] jobs IH]; intros st H; [done|].
  cbn [run_jobs].
  pose proof (run_single_test_tree env self f c st) as Ht.
  destruct (Runner.run_single_test env self f c st) as [r st1]. cbn [snd] in Ht.
  assert (Hrest : forall job, job ∈ jobs -> job_keeps_tests env formal_dir job)
    by (intros job Hjob; apply H; by right).
  specialize (IH st1 Hrest).
  destruct (run_jobs env self jobs st1) as [rs st2]. cbn [snd] in *.
  destruct IH as [IHd IHp].
  assert (Hin : (f, c) ∈ (f, c) :: jobs) by (by left).
  destruct (H (f, c) Hin st sub Hsub) as [Hd Hp]. cbn [fst] in *.
  subst st1. split; [by rewrite IHd|].
  intros p Hpar Hend. by rewrite IHp, Hp.
Qed.

Lemma save_report_tree results file st :
  (forall p, p <> file ->
     snd (Runner.save_detailed_report dumps env results file st) !! p = st !! p)
  /\ snd (Runner.save_detailed_report dumps env results file st) !! file
     = if can_write (Runner.permits env) st file
       then Some (File (written_text (Runner.write_fault env) file
                          (dumps (Runner.report_data env results))))
       else st !! file.
Proof.
  unfold Runner.save_detailed_report. rewrite write_file_tree.
  unfold write_or_skip. cbn [fst snd].
  destruct (can_write (Runner.permits env) st file).
  - split; [|by rewrite lookup_insert_eq].
    intros p Hp. by rewrite lookup_insert_ne.
  - done.
Qed.

Lemma all_test_files_of_agree (st st' : fs) (formal_dir : Path)
    (selected : list (string * string)) :
  (forall kv, kv ∈ selected ->
     Permutation (Runner.find_test_files st' (formal_dir // snd kv))
                 (Runner.find_test_files st (formal_dir // snd kv))) ->
  Permutation (Runner.all_test_files_of st' formal_dir selected)
              (Runner.all_test_files_of st formal_dir selected).
Proof.
  unfold Runner.all_test_files_of.
  induction selected as [|kv selected IH]; intros H; [done|].
  cbn [flat_map]. apply Permutation_app.
  - apply fmap_Permutation, H. by left.
  - apply IH. intros kv' Hkv'. apply H. by right.
Qed.

Lemma selected_subdir categories (kv : string * string) :
  kv ∈ Runner.selected_categories categories ->
  snd kv <> "verification_report.json".
Proof.
  destruct kv as [k v]. intros [Hin _]%selected_categories_elem.
  unfold Runner.test_categories in Hin. rewrite !elem_of_cons, elem_of_nil in Hin.
  by destruct Hin as [[= _ ->]|[[= _ ->]|[[= _ ->]|[]]]].
Qed.

Lemma find_tests_agree (st st' : fs) (d : Path) :
  st' !! d = st !! d ->
  (forall p, path_parent p = d -> endswith ".sby" (path_name p) = true ->
     is_Some (st' !! p) <-> is_Some (st !! p)) ->
  Permutation (Runner.find_test_files st' d) (Runner.find_test_files st d).
Proof.
  intros Hd Hp. apply NoDup_Permutation; try apply find_test_files_NoDup.
  intros p. rewrite !find_test_files_elem, Hd. split.
  - intros (? & ? & Hpar & Hne & ?). repeat split; try done. by apply Hp.
  - intros (? & ? & Hpar & Hne & ?). repeat split; try done. by apply Hp.
Qed.

Lemma selected_subdir_known categories (kv : string * string) :
  kv ∈ Runner.selected_categories categories ->
  snd kv ∈ ["instructions"; "system_checks"; "integration"].
Proof.
  destruct kv as [k v]. intros [Hin _]%selected_categories_elem.
  unfold Runner.test_categories in Hin. rewrite !elem_of_cons, elem_of_nil in Hin.
  rewrite !elem_of_cons.
  destruct Hin as [[= _ ->]|[[= _ ->]|[[= _ ->]|[]]]]; auto.
Qed.

Lemma suite_tree_unchanged self st formal_dir categories :
  let s := Runner.run_verification_suite dumps env self st formal_dir categories in
  Runner.suite_discovered s = [] \/ (Runner.max_workers self <= 0)%Z ->
  Runner.suite_tree s = st.
Proof.
  intros s.
  pose proof (suite_discovered_spec dumps env self st formal_dir categories) as Hd.
  fold s in Hd. intros [Hnil|Hw].
  - rewrite Hd in Hnil.
    by destruct (suite_nothing_discovered dumps env self st _ _ Hnil)
      as (_ & _ & _ & ? & _).
  - destruct (decide (Runner.all_test_files_of st formal_dir
                        (Runner.selected_categories categories) = [])) as [Hnil|Hne].
    + by destruct (suite_nothing_discovered dumps env self st _ _ Hnil)
        as (_ & _ & _ & ? & _).
    + by destruct (suite_refused dumps env self st formal_dir categories Hne Hw)
        as (_ & _ & _ & ?).
Qed.

Lemma suite_tree_after_jobs self st formal_dir categories :
  let s := Runner.run_verification_suite dumps env self st formal_dir categories in
  let report_file := formal_dir // "verification_report.json" in
  let left := jobs_tree env self st formal_dir categories in
  Runner.suite_discovered s <> [] -> (0 < Runner.max_workers self)%Z ->
  (forall p, p <> report_file -> Runner.suite_tree s !! p = left !! p)
  /\ Runner.suite_tree s !! report_file
     = (if can_write (Runner.permits env) left report_file
        then Some (File (written_text (Runner.write_fault env) report_file
                           (dumps (Runner.report_data env (Runner.suite_results s)))))
        else left !! report_file)
  /\ ((exists b, Runner.suite_returned s = inr b) ->
      can_write (Runner.permits env) left report_file = true
      /\ Runner.write_fault env report_file = None).
Proof.
  intros s report_file left.
  pose proof (suite_discovered_spec dumps env self st formal_dir categories) as Hd.
  fold s in Hd. rewrite Hd. intros Hne Hw.
  destruct (suite_something_discovered dumps env self st formal_dir categories Hne Hw)
    as (_ & _ & Htree & Hret).
  fold s report_file left in Htree, Hret.
  destruct (save_report_tree (Runner.suite_results s) report_file left) as [Hf Hr].
  rewrite Htree. split; [exact Hf|]. split; [exact Hr|].
  intros [b Hb]. apply (save_result dumps env (Runner.suite_results s)).
  rewrite Hb in Hret.
  by destruct (fst (Runner.save_detailed_report _ _ _ _ _)).
Qed.

Lemma suite_cases self st formal_dir categories :
  let s := Runner.run_verification_suite dumps env self st formal_dir categories in
  (Runner.suite_discovered s = [] \/ (Runner.max_workers self <= 0)%Z)
  \/ (Runner.suite_discovered s <> [] /\ (0 < Runner.max_workers self)%Z).
Proof.
  intros s.
  destruct (decide (Runner.suite_discovered s = [])); [auto|].
  destruct (decide (0 < Runner.max_workers self)%Z); [auto|]. left. right. lia.
Qed.

Lemma suite_tree_untouched self st formal_dir categories (p : Path) :
  let s := Runner.run_verification_suite dumps env self st formal_dir categories in
  p <> formal_dir // "verification_report.json" ->
  (forall job, job ∈ Runner.suite_discovered s -> job_leaves env p job) ->
  Runner.suite_tree s !! p = st !! p.
Proof.
  intros s Hp Hjobs.
  destruct (suite_cases self st formal_dir categories) as [Hno|[Hne Hw]].
  - pose proof (suite_tree_unchanged self st formal_dir categories Hno) as Hsame.
    fold s in Hsame. by rewrite Hsame.
  - destruct (suite_tree_after_jobs self st formal_dir categories Hne Hw) as (Hf & _).
    fold s in Hf. rewrite (Hf p Hp). unfold jobs_tree. apply run_jobs_leaves.
    intros job Hjob. apply Hjobs. unfold s.
    rewrite (suite_discovered_spec dumps env self st formal_dir categories).
    by apply (elem_of_Permutation_proper job _ _
                (as_completed_Permutation (Runner.schedule env)
                   (Runner.all_test_files_of st formal_dir
                      (Runner.selected_categories categories)))) in Hjob.
Qed.

(** X12.  What the suite leaves.  When nothing is discovered, or the
    worker bound is not positive, the tree is as it was.  Otherwise the
    suite itself writes to no path other than [verification_report.json]
    in the formal directory: every other path is as the jobs left it, and
    the report file holds what was written of the serialized report of
    the results when it could be opened, and is as the jobs left it when
    not.  A path other than the report file that no discovered job writes
    to is as it was before the run.  When test files were discovered and
    the run returns, the report file holds the serialized report in full.
    And when no discovered job touches the category directories or adds
    or removes a [*.sby] entry in them, the report is not taken for a
    test: discovery on the tree the run leaves finds the same jobs as the
    run did. *)
Theorem suite_frame
    (self : Runner.Config) (st : fs) (formal_dir : Path)
    (categories : option (list string)) :
  let s := Runner.run_verification_suite dumps env self st formal_dir categories in
  let report_file := formal_dir // "verification_report.json" in
  let left := jobs_tree env self st formal_dir categories in
  (Runner.suite_discovered s = [] \/ (Runner.max_workers self <= 0)%Z ->
     Runner.suite_tree s = st)
  /\ (Runner.suite_discovered s <> [] -> (0 < Runner.max_workers self)%Z ->
        (forall p, p <> report_file -> Runner.suite_tree s !! p = left !! p)
        /\ Runner.suite_tree s !! report_file
           = if can_write (Runner.permits env) left report_file
             then Some (File (written_text (Runner.write_fault env) report_file
                                (dumps (Runner.report_data env (Runner.suite_results s)))))
             else left !! report_file)
  /\ (forall p, p <> report_file ->
        (forall job, job ∈ Runner.suite_discovered s -> job_leaves env p job) ->
        Runner.suite_tree s !! p = st !! p)
  /\ ((exists b, Runner.suite_returned s = inr b) -> Runner.suite_discovered s <> [] ->
        Runner.suite_tree s !! report_file
        = Some (File (dumps (Runner.report_data env (Runner.suite_results s)))))
  /\ ((forall job, job ∈ Runner.suite_discovered s ->
          job_keeps_tests env formal_dir job) ->
        Permutation
          (Runner.all_test_files_of (Runner.suite_tree s) formal_dir
             (Runner.selected_categories categories))
          (Runner.suite_discovered s)).
Proof.
  intros s report_file left.
  pose proof (suite_discovered_spec dumps env self st formal_dir categories) as Hd.
  fold s in Hd.
  pose proof (suite_tree_unchanged self st formal_dir categories) as Hnone.
  pose proof (suite_tree_after_jobs self st formal_dir categories) as Hsome.
  pose proof (suite_cases self st formal_dir categories) as Hcases.
  cbv zeta in Hnone, Hsome, Hcases. fold s report_file left in Hnone, Hsome, Hcases.
  set (all := Runner.all_test_files_of st formal_dir
                (Runner.selected_categories categories)) in *.
  split; [exact Hnone|]. split; [intros Hne Hw; by destruct (Hsome Hne Hw) as (? & ? & _)|].
  split; [|split].
  - intros p Hp Hjobs. by apply suite_tree_untouched.
  - intros Hb Hne.
    assert (Hw : (0 < Runner.max_workers self)%Z).
    { destruct (decide (0 < Runner.max_workers self)%Z) as [|Hn]; [done|].
      rewrite Hd in Hne.
      destruct (suite_refused dumps env self st formal_dir categories Hne)
        as (_ & _ & Hret & _); [lia|].
      fold s in Hret. destruct Hb as [b Hb]. congruence. }
    destruct (Hsome Hne Hw) as (_ & Hr & Hok). destruct (Hok Hb) as [Hcw Hnf].
    rewrite Hr, Hcw. unfold written_text. by rewrite Hnf.
  - intros Hkeep. rewrite Hd. destruct Hcases as [Hno|[Hne Hw]].
    { by rewrite (Hnone Hno). }
    destruct (Hsome Hne Hw) as (Hf & _).
    apply all_test_files_of_agree. intros kv Hkv.
    pose proof (selected_subdir _ _ Hkv) as Hnot.
    pose proof (selected_subdir_known _ _ Hkv) as Hsub.
    assert (Hjobs : forall job,
              job ∈ Runner.as_completed (Runner.schedule env) all ->
              job_keeps_tests env formal_dir job).
    { intros job Hjob. apply Hkeep. rewrite Hd.
      by apply (elem_of_Permutation_proper job _ _
                  (as_completed_Permutation (Runner.schedule env) all)) in Hjob. }
    destruct (run_jobs_keeps_tests self _ st formal_dir (snd kv) Hjobs Hsub)
      as [Hdir Hent].
    apply find_tests_agree.
    + rewrite Hf; [exact Hdir|]. unfold report_file. intros H%path_div_inj. done.
    + intros p Hpar Hend. rewrite Hf; [by apply Hent|].
      intros ->. unfold report_file in Hend. rewrite path_name_div in Hend.
      vm_compute in Hend. discriminate Hend.
Qed.

End SuiteFrame.

(** ** The command line *)

Section MainFacts.

Context {F : FloatOps}.
Variable dumps : json -> string.
Variable env : Runner.Env.

Lemma mkdir_error permits p st e :
  mkdir permits p st = inl e -> exists msg, e = OSError msg.
Proof.
  unfold mkdir. destruct (st !! p) as [[|c]|]; [done|intros [= <-]; eauto|].
  destruct (negb (is_dir st (path_parent p))); [intros [= <-]; eauto|].
  destruct (negb (permits p)); [intros [= <-]; eauto|done].
Qed.

Lemma make_dirs_error permits dir st e :
  snd (make_dirs permits dir st) = Some e -> exists msg, e = OSError msg.
Proof.
  unfold make_dirs.
  destruct (mkdir permits (dir // "instructions") st) as [e1|st1] eqn:H1.
  { intros [= <-]. by eapply mkdir_error. }
  destruct (mkdir permits (dir // "system_checks") st1) as [e2|st2] eqn:H2.
  { intros [= <-]. by eapply mkdir_error. }
  destruct (mkdir permits (dir // "integration") st2) as [e3|st3] eqn:H3; [|done].
  intros [= <-]. by eapply mkdir_error.
Qed.

(** X13.  The generate-only switch.  With [--generate-only], [main]
    discovers and runs nothing.  It returns 0 exactly when the formal
    directory exists, the generator can be imported and its three output
    directories can be made, and 1 otherwise; so it returns 0 also when
    artifacts could not be written.  The tree it leaves is the one the
    generator leaves, or the initial one when the generator was not
    reached. *)
Theorem generate_only_outcome (args : Runner.Args) (st : fs) :
  Runner.generate_only args = true ->
  let o := Runner.main dumps env args st in
  Runner.discovered o = []
  /\ Runner.executed o = []
  /\ (Runner.returned o = inr 0%Z \/ Runner.returned o = inr 1%Z)
  /\ (Runner.returned o = inr 0%Z <->
        path_exists st (Runner.formal_dir args) = true
        /\ exists script_dir,
             Runner.generator_dir env = Some script_dir
             /\ snd (make_dirs (Runner.permits env) script_dir st) = None)
  /\ Runner.final_tree o
     = (if path_exists st (Runner.formal_dir args)
        then match Runner.generator_dir env with
             | Some script_dir =>
                 Generator.final_tree
                   (Generator.main (Runner.permits env) (Runner.write_fault env) script_dir st)
             | None => st
             end
        else st).
Proof.
  intros Hg o. unfold o, Runner.main. rewrite Hg, orb_true_r.
  destruct (path_exists st (Runner.formal_dir args)); cbn [negb];
    [|repeat split; try (by right); try done; by intros [? _]].
  destruct (Runner.generator_dir env) as [script_dir|];
    [|repeat split; try (by right); try done; by intros (_ & ? & ? & _)].
  rewrite generator_returned.
  destruct (snd (make_dirs (Runner.permits env) script_dir st)) as [e|] eqn:Hm.
  - destruct (make_dirs_error _ _ _ _ Hm) as [msg ->].
    repeat split; try (by right); try done.
    intros (_ & d & [= <-] & Hd). congruence.
  - repeat split; try (by left); try done. eauto.
Qed.

(** X14.  A failing generation stops [main].  When [main] reaches the
    generation step (the [instructions] directory is missing, or
    [--generate-only] is given) and the generator cannot be imported, or
    one of its three directories cannot be made, [main] returns 1 and
    discovers and runs nothing, also when test files exist.  In the first
    case the tree is untouched; in the second the generator has printed
    nothing, [main] reports the text of the exception, and the tree holds
    the directories made before the failing one. *)
Theorem generation_failure_stops_main (args : Runner.Args) (st : fs) :
  path_exists st (Runner.formal_dir args) = true ->
  path_exists st (Runner.formal_dir args // "instructions") = false
    \/ Runner.generate_only args = true ->
  let o := Runner.main dumps env args st in
  match Runner.generator_dir env with
  | None =>
      Runner.returned o = inr 1%Z
      /\ Runner.discovered o = [] /\ Runner.executed o = []
      /\ Runner.final_tree o = st
      /\ Runner.output o = [ "Generating test configurations...";
                             "[ERROR] Could not import test generation script" ]
  | Some script_dir =>
      forall e, snd (make_dirs (Runner.permits env) script_dir st) = Some e ->
        Runner.returned o = inr 1%Z
        /\ Runner.discovered o = [] /\ Runner.executed o = []
        /\ Runner.final_tree o = fst (make_dirs (Runner.permits env) script_dir st)
        /\ Runner.output o = [ "Generating test configurations...";
                               "[ERROR] Error generating tests: " +:+ str_exn e ]
  end.
Proof.
  intros Hf Hgen o.
  assert (Hcond : negb (path_exists st (Runner.formal_dir args // "instructions"))
                  || Runner.generate_only args = true).
  { destruct Hgen as [-> | ->]; [done|apply orb_true_r]. }
  unfold o, Runner.main. rewrite Hf, Hcond. cbn [negb].
  destruct (Runner.generator_dir env) as [script_dir|]; [|done].
  intros e He. destruct (make_dirs_error _ _ _ _ He) as [msg ->].
  rewrite main_spec.
  destruct (make_dirs (Runner.permits env) script_dir st) as [t oe].
  cbn [snd fst] in *. by subst oe.
Qed.

(** X15.  No regeneration into an existing directory.  When the
    [instructions] directory exists and [--generate-only] is not given,
    [main] does not run the generator: it is the suite run on the tree it
    was started in, printing nothing before the suite's banner.  It
    discovers the test files of that tree; a path other than the report
    file to which no discovered job writes is left as it was, so an
    artifact missing from the tree stays missing unless a job writes it;
    and when nothing is discovered or the worker bound is not positive
    the whole tree is left as it was. *)
Theorem existing_directory_is_not_regenerated (args : Runner.Args) (st : fs) :
  path_exists st (Runner.formal_dir args) = true ->
  path_exists st (Runner.formal_dir args // "instructions") = true ->
  Runner.generate_only args = false ->
  let o := Runner.main dumps env args st in
  let runner := Runner.init env (Runner.workers args) (Runner.timeout_arg args) in
  let s := Runner.run_verification_suite dumps env runner st
             (Runner.formal_dir args) (Runner.categories args) in
  Runner.discovered o
  = Runner.all_test_files_of st (Runner.formal_dir args)
      (Runner.selected_categories (Runner.categories args))
  /\ Runner.output o = Runner.suite_output s
  /\ Runner.executed o = Runner.suite_results s
  /\ Runner.final_tree o = Runner.suite_tree s
  /\ (forall p, p <> Runner.formal_dir args // "verification_report.json" ->
        (forall job, job ∈ Runner.discovered o -> job_leaves env p job) ->
        Runner.final_tree o !! p = st !! p)
  /\ (Runner.discovered o = [] \/ (Runner.max_workers runner <= 0)%Z ->
        Runner.final_tree o = st).
Proof.
  intros Hf Hi Hg o runner s. unfold o, Runner.main. rewrite Hf, Hi, Hg. cbn [negb orb].
  unfold Runner.run_suite.
  cbn [Runner.final_tree Runner.discovered Runner.output Runner.executed app].
  fold runner. fold s.
  split; [apply suite_discovered_spec|]. repeat split.
  - intros p Hp Hjobs. by apply suite_tree_untouched.
  - apply suite_tree_unchanged.
Qed.

(** X16.  The worker option.  Without [--workers], or with
    [--workers 0], the pool gets as many workers as the machine has
    processors, at most eight; then, if the machine has a processor, the
    pool returns one result per job.  A negative [--workers] is passed on
    as it is: the pool refuses it, so when test files are discovered
    [main] is left by [ValueError], with exit code 1, no job executed and
    no report written. *)
Theorem worker_option (args : Runner.Args) (st : fs) :
  path_exists st (Runner.formal_dir args) = true ->
  path_exists st (Runner.formal_dir args // "instructions") = true ->
  Runner.generate_only args = false ->
  Runner.all_test_files_of st (Runner.formal_dir args)
    (Runner.selected_categories (Runner.categories args)) <> [] ->
  let runner := Runner.init env (Runner.workers args) (Runner.timeout_arg args) in
  let o := Runner.main dumps env args st in
  (Runner.workers args = None \/ Runner.workers args = Some 0%Z ->
     Runner.max_workers runner = Z.min (Runner.cpu_count env) 8
     /\ ((1 <= Runner.cpu_count env)%Z ->
           length (Runner.executed o) = length (Runner.discovered o)))
  /\ (forall w, Runner.workers args = Some w -> (w < 0)%Z ->
        Runner.returned o = inl (ValueError "max_workers must be greater than 0")
        /\ Runner.exit_code o = 1%Z
        /\ Runner.executed o = []
        /\ Runner.final_tree o = st).
Proof.
  intros Hf Hi Hg Hne runner o.
  assert (Ho : o = Runner.run_suite dumps env args st []).
  { unfold o, Runner.main. by rewrite Hf, Hi, Hg. }
  split.
  - intros Hw.
    assert (Hmax : Runner.max_workers runner = Z.min (Runner.cpu_count env) 8).
    { unfold runner, Runner.init. by destruct Hw as [-> | ->]. }
    split; [exact Hmax|]. intros Hcpu.
    destruct (suite_something_discovered dumps env runner st (Runner.formal_dir args)
                (Runner.categories args) Hne) as (Hd & Hres & _); [lia|].
    rewrite Ho. unfold Runner.run_suite. cbn [Runner.executed Runner.discovered].
    fold runner. rewrite Hd, Hres, run_jobs_length.
    apply Permutation_length, as_completed_Permutation.
  - intros w Hw Hneg.
    assert (Hmax : Runner.max_workers runner = w).
    { unfold runner, Runner.init. rewrite Hw. cbn [Runner.max_workers].
      destruct (w =? 0)%Z eqn:E; [lia|done]. }
    destruct (suite_refused dumps env runner st (Runner.formal_dir args)
                (Runner.categories args) Hne) as (_ & Hres & Hret & Htree); [lia|].
    rewrite Ho. unfold Runner.exit_code, Runner.run_suite.
    cbn [Runner.returned Runner.executed Runner.final_tree]. fold runner.
    by rewrite Hres, Hret, Htree.
Qed.

(** X17.  A first run covers the catalog.  Started where the formal
    directory exists but has no [instructions] directory, with the
    generator imported from the formal directory, every artifact
    openable for writing and no other [*.sby] entry in the output
    directories, [main] generates the suite, discovers exactly one job
    per catalog entry under the category of its family, and (the worker
    bound being positive) executes every one of them once: the results
    are, in the order of completion, those of the catalog's jobs. *)
Theorem first_run_covers_catalog (args : Runner.Args) (st : fs) :
  path_exists st (Runner.formal_dir args) = true ->
  path_exists st (Runner.formal_dir args // "instructions") = false ->
  Runner.generate_only args = false ->
  Runner.categories args = None ->
  Runner.generator_dir env = Some (Runner.formal_dir args) ->
  (forall p, p ∈ fst <$> artifacts (Runner.formal_dir args) ->
             opens_artifact (Runner.permits env) (Runner.formal_dir args) st p) ->
  no_foreign_sby (Runner.formal_dir args) st ->
  let runner := Runner.init env (Runner.workers args) (Runner.timeout_arg args) in
  (0 < Runner.max_workers runner)%Z ->
  let o := Runner.main dumps env args st in
  Permutation (Runner.discovered o) (catalog_jobs (Runner.formal_dir args))
  /\ (exists completed,
        Permutation completed (catalog_jobs (Runner.formal_dir args))
        /\ Forall2 (result_of_job env runner) completed (Runner.executed o))
  /\ length (Runner.executed o)
     = length Generator.RV32I_INSTRUCTIONS + length Generator.SYSTEM_CHECKS
       + length Generator.INTEGRATION_CHECKS.
Proof.
  intros Hf Hi Hg Hc Hgen Hw Hforeign runner Hpos o.
  pose proof (catalog_discovered (Runner.permits env) (Runner.write_fault env)
                (Runner.formal_dir args) st Hw Hforeign) as Hperm.
  set (final := Generator.final_tree
                  (Generator.main (Runner.permits env) (Runner.write_fault env)
                     (Runner.formal_dir args) st)) in *.
  assert (Hdirs : snd (make_dirs (Runner.permits env) (Runner.formal_dir args) st) = None).
  { destruct (Hw (Generator.config_path (Runner.formal_dir args // "instructions") "add"))
      as [H _]; [|done].
    apply artifact_path_elem.
    exists "instructions", Generator.RV32I_INSTRUCTIONS, ("add", "R-type arithmetic").
    split; [by left|]. split; [by left|done]. }
  assert (Ho : exists out, o = Runner.run_suite dumps env args final out).
  { unfold o, Runner.main. rewrite Hf, Hi, Hg, Hgen. cbn [negb orb].
    rewrite generator_returned, Hdirs. by eexists. }
  destruct Ho as [out Ho].
  assert (Hsel : Runner.selected_categories (Runner.categories args)
                 = Runner.test_categories) by (by rewrite Hc).
  assert (Hne : Runner.all_test_files_of final (Runner.formal_dir args)
                  (Runner.selected_categories (Runner.categories args)) <> []).
  { rewrite Hsel. intros E. rewrite E in Hperm.
    apply Permutation_length in Hperm. unfold catalog_jobs in Hperm.
    rewrite !length_app, !length_fmap in Hperm.
    by vm_compute in Hperm. }
  destruct (suite_something_discovered dumps env runner final (Runner.formal_dir args)
              (Runner.categories args) Hne Hpos) as (Hd & Hres & _).
  set (completed := Runner.as_completed (Runner.schedule env)
                      (Runner.all_test_files_of final (Runner.formal_dir args)
                         (Runner.selected_categories (Runner.categories args)))) in *.
  assert (Hcompleted : Permutation completed (catalog_jobs (Runner.formal_dir args))).
  { unfold completed. rewrite as_completed_Permutation, Hsel. exact Hperm. }
  assert (Hexec : Runner.executed o = fst (run_jobs env runner completed final)).
  { rewrite Ho. unfold Runner.run_suite. cbn [Runner.executed]. fold runner.
    exact Hres. }
  split; [|split].
  - rewrite Ho. unfold Runner.run_suite. cbn [Runner.discovered]. fold runner.
    rewrite Hd, Hsel. exact Hperm.
  - exists completed. split; [exact Hcompleted|].
    rewrite Hexec. apply run_jobs_results.
  - rewrite Hexec, run_jobs_length, (Permutation_length Hcompleted).
    unfold catalog_jobs. rewrite !length_app, !length_fmap. lia.
Qed.

End MainFacts.

(** * Further properties: the script and the file list of an artifact *)

Lemma single_line_app (a b : string) :
  single_line (a +:+ b) = single_line a && single_line b.
Proof. induction a as [|c a IH]; [done|]. simpl. by rewrite IH, andb_assoc. Qed.

Lemma upper_ascii_LF (c : ascii) :
  Ascii.eqb (upper_ascii c) "010" = Ascii.eqb c "010".
Proof. by destruct c as [[] [] [] [] [] [] [] []]. Qed.

Lemma single_line_upper (s : string) : single_line (upper s) = single_line s.
Proof. induction s as [|c s IH]; [done|]. simpl. by rewrite IH, upper_ascii_LF. Qed.

Lemma lines_of_unlines (l : list string) :
  forallb single_line l = true -> Sby.lines_of (unlines l) = l ++ [""].
Proof.
  induction l as [|x l IH]; [done|]. cbn [forallb unlines].
  intros [Hx Hl]%andb_true_iff. rewrite lines_of_line by done. by rewrite IH.
Qed.

Lemma append_nil_r (s : string) : s +:+ "" = s.
Proof.
  induction s as [|c s IH]; [done|].
  change (String c (s +:+ "") = String c s). by rewrite IH.
Qed.

Lemma append_snoc (a : string) (c : ascii) (b : string) :
  (a +:+ String c "") +:+ b = a +:+ String c b.
Proof.
  induction a as [|x a IH]; [done|].
  change (String x ((a +:+ String c "") +:+ b) = String x (a +:+ String c b)).
  by rewrite IH.
Qed.

Lemma append_assoc (a b c : string) : (a +:+ b) +:+ c = a +:+ (b +:+ c).
Proof.
  induction a as [|x a IH]; [done|].
  change (String x ((a +:+ b) +:+ c) = String x (a +:+ (b +:+ c))).
  by rewrite IH.
Qed.

Lemma last_token_app (a b cur : string) :
  Script.last_token (a +:+ b) cur = Script.last_token b (Script.last_token a cur).
Proof.
  revert cur. induction a as [|c a IH]; intros cur; [done|].
  simpl. destruct (Ascii.eqb c " "); apply IH.
Qed.

Lemma last_token_no_space (s cur : string) :
  Script.no_space s = true -> Script.last_token s cur = cur +:+ s.
Proof.
  revert cur. induction s as [|c s IH]; intros cur; simpl.
  - intros _. by rewrite append_nil_r.
  - intros [Hc Hs]%andb_true_iff. apply negb_true_iff in Hc. rewrite Hc.
    rewrite IH by done. apply append_snoc.
Qed.

(** Rendering a check whose identifier has no line feed gives lines
    without a line feed: the text has the lines of the template. *)
Ltac template_single_lines H :=
  cbn [forallb]; rewrite ?single_line_app, ?single_line_upper, ?H;
  vm_compute; reflexivity.

Lemma instruction_single_lines (instruction : string) :
  single_line instruction = true ->
  forallb single_line (Generator.instruction_config_lines instruction) = true.
Proof.
  intros H. unfold Generator.instruction_config_lines. template_single_lines H.
Qed.

Lemma system_single_lines (check_name : string) :
  single_line check_name = true ->
  forallb single_line (Generator.system_config_lines check_name) = true.
Proof.
  intros H. unfold Generator.system_config_lines. template_single_lines H.
Qed.

Lemma integration_single_lines (check_name : string) :
  single_line check_name = true ->
  forallb single_line (Generator.integration_config_lines check_name) = true.
Proof.
  intros H. unfold Generator.integration_config_lines. template_single_lines H.
Qed.

(** The last word of every directive, whatever the identifier. *)
Ltac read_directives check Hs :=
  simpl;
  rewrite ?last_token_app; rewrite ?(last_token_no_space check) by exact Hs; simpl;
  rewrite ?last_token_app; rewrite ?(last_token_no_space check) by exact Hs; simpl;
  rewrite ?(append_assoc (_ +:+ check)), ?(append_assoc _ check);
  reflexivity.

Lemma instruction_files (instruction : string) :
  Script.no_space instruction = true -> single_line instruction = true ->
  let content := unlines (Generator.instruction_config_lines instruction) in
  Script.loaded_files content = Script.listed_files content
  /\ Script.script_commands content = Script.pipeline.
Proof.
  intros Hs Hl content. unfold content.
  unfold Script.loaded_files, Script.listed_files, Script.script_commands.
  rewrite lines_of_unlines by (by apply instruction_single_lines).
  unfold Generator.instruction_config_lines, Script.section_lines.
  split; [read_directives instruction Hs|reflexivity].
Qed.

Lemma system_files (check_name : string) :
  Script.no_space check_name = true -> single_line check_name = true ->
  let content := unlines (Generator.system_config_lines check_name) in
  Script.loaded_files content = Script.listed_files content
  /\ Script.script_commands content = Script.pipeline.
Proof.
  intros Hs Hl content. unfold content.
  unfold Script.loaded_files, Script.listed_files, Script.script_commands.
  rewrite lines_of_unlines by (by apply system_single_lines).
  unfold Generator.system_config_lines, Script.section_lines.
  split; [read_directives check_name Hs|reflexivity].
Qed.

Lemma integration_files (check_name : string) :
  Script.no_space check_name = true -> single_line check_name = true ->
  let content := unlines (Generator.integration_config_lines check_name) in
  Script.loaded_files content = Script.listed_files content
  /\ Script.script_commands content = Script.pipeline.
Proof.
  intros Hs Hl content. unfold content.
  unfold Script.loaded_files, Script.listed_files, Script.script_commands.
  rewrite lines_of_unlines by (by apply integration_single_lines).
  unfold Generator.integration_config_lines, Script.section_lines.
  split; [read_directives check_name Hs|reflexivity].
Qed.

(** X18.  The file list of an artifact is the list of the files its
    script loads.  For each of the three templates and every check
    identifier without a blank or a line feed, the [[files]] section of
    the rendered text lists exactly the files the [read_verilog]
    directives of the [[script]] section load, in the order of the
    directives, and the remaining commands of the script are the fixed
    passes hierarchy, proc, opt, memory, flatten, setundef, check,
    stat. *)
Theorem files_list_what_the_script_loads (check : string) :
  Script.no_space check = true ->
  single_line check = true ->
  Forall
    (fun content =>
       Script.loaded_files content = Script.listed_files content
       /\ Script.script_commands content = Script.pipeline)
    [ unlines (Generator.instruction_config_lines check);
      unlines (Generator.system_config_lines check);
      unlines (Generator.integration_config_lines check) ].
Proof.
  intros Hs Hl. repeat apply Forall_cons_2; [| | |apply Forall_nil_2].
  - by apply instruction_files.
  - by apply system_files.
  - by apply integration_files.
Qed.

(** * The further properties at work *)

Lemma fresh_tree_no_foreign_sby : no_foreign_sby Examples.formal Examples.fresh_tree.
Proof.
  intros p sub _ [n Hn] Hpar _. exfalso.
  unfold Examples.fresh_tree in Hn.
  apply lookup_insert_Some in Hn as [[<- _]|[_ Hn]]; [|by rewrite lookup_empty in Hn].
  discriminate Hpar.
Qed.

Lemma fresh_tree_opens_artifacts (p : Path) :
  p ∈ fst <$> artifacts Examples.formal ->
  opens_artifact Examples.allow_all Examples.formal Examples.fresh_tree p.
Proof.
  assert (Hall : Forall (fun p => opens_artifact Examples.allow_all Examples.formal
                                    Examples.fresh_tree p)
                   (fst <$> artifacts Examples.formal)).
  { apply Forall_forall. intros q Hq. split; [vm_compute; reflexivity|].
    revert q Hq. apply Forall_forall.
    apply (bool_decide_unpack _). vm_compute. exact I. }
  intros Hp. by eapply (proj1 (Forall_forall _ _) Hall).
Qed.

Lemma exact_fltb_irrefl (x : Q) : @fltb ExactFloat.ops x x = false.
Proof.
  cbn. apply negb_false_iff. apply Qle_bool_iff. apply Qle_refl.
Qed.

Lemma exact_fltb_trans (x y z : Q) :
  @fltb ExactFloat.ops x y = true -> @fltb ExactFloat.ops y z = true ->
  @fltb ExactFloat.ops x z = true.
Proof.
  cbn. rewrite !negb_true_iff. intros Hxy Hyz.
  destruct (Qle_bool z x) eqn:E; [|done].
  apply Qle_bool_iff in E.
  assert (Hlt1 : (x < y)%Q).
  { apply Qnot_le_lt. intros H. apply Qle_bool_iff in H. congruence. }
  assert (Hlt2 : (y < z)%Q).
  { apply Qnot_le_lt. intros H. apply Qle_bool_iff in H. congruence. }
  exfalso. apply (Qlt_not_le x z); [by eapply Qlt_trans|done].
Qed.

(** In a fresh tree the generated suite is discovered in full. *)
Lemma generated_suite_is_discovered_witness :
  Permutation
    (Runner.all_test_files_of
       (Generator.final_tree
          (Generator.main Examples.allow_all Examples.no_fault Examples.formal
             Examples.fresh_tree))
       Examples.formal Runner.test_categories)
    (catalog_jobs Examples.formal).
Proof.
  exact (proj1 (generated_suite_is_discovered Examples.allow_all Examples.no_fault
                  Examples.formal Examples.fresh_tree fresh_tree_opens_artifacts
                  fresh_tree_no_foreign_sby)).
Defined.

(** The counts of one failed and one timed-out job of two categories. *)
Lemma tally_counts_witness :
  Runner.tally [Examples.alpha; Examples.beta] (Runner.zero_stats, [])
  = inr ( [("PASS", 0); ("FAIL", 1); ("TIMEOUT", 1); ("ERROR", 0)],
          [ ("instructions", [("PASS", 0); ("FAIL", 1); ("TIMEOUT", 0); ("ERROR", 0)]);
            ("system", [("PASS", 0); ("FAIL", 0); ("TIMEOUT", 1); ("ERROR", 0)]) ] ).
Proof.
  rewrite (tally_counts [Examples.alpha; Examples.beta]).
  - vm_compute. reflexivity.
  - apply Forall_cons. split; [right; left; reflexivity|].
    apply Forall_cons. split; [right; right; left; reflexivity|]. apply Forall_nil_2.
Defined.

(** The totals of the two categories of the same jobs. *)
Lemma category_totals_witness :
  list_sum
    ((fun entry : string * list (string * nat) => dict_total (snd entry))
       <$> [ ("instructions", [("PASS", 0); ("FAIL", 1); ("TIMEOUT", 0); ("ERROR", 0)]);
             ("system", [("PASS", 0); ("FAIL", 0); ("TIMEOUT", 1); ("ERROR", 0)]) ])
  = length [Examples.alpha; Examples.beta].
Proof.
  refine (proj2 (category_totals [Examples.alpha; Examples.beta]
                   [("PASS", 0); ("FAIL", 1); ("TIMEOUT", 1); ("ERROR", 0)] _ _ _)).
  - apply Forall_cons. split; [right; left; reflexivity|].
    apply Forall_cons. split; [right; right; left; reflexivity|]. apply Forall_nil_2.
  - vm_compute. reflexivity.
Defined.

(** The pool of the scenario prints one line per result. *)
Lemma progress_lines_witness :
  let jobs := [ (Examples.add_path, "instructions");
                (Examples.sub_path, "instructions") ] in
  let completed := Runner.as_completed (Runner.schedule Examples.scenario_env) jobs in
  exists results,
    Runner.run_tests_parallel Examples.scenario_env Examples.scenario_config jobs
      Examples.fresh_tree
    = (inr (results, progress_line <$> results),
       snd (run_jobs Examples.scenario_env Examples.scenario_config completed
              Examples.fresh_tree))
    /\ results = fst (run_jobs Examples.scenario_env Examples.scenario_config completed
                        Examples.fresh_tree)
    /\ Forall2 (result_of_job Examples.scenario_env Examples.scenario_config)
         completed results.
Proof.
  apply (progress_lines Examples.scenario_env Examples.scenario_config). reflexivity.
Defined.

(** With exact durations the comparison is irreflexive and transitive. *)
Lemma fastest_and_slowest_witness :
  Runner.fastest_of Examples.alpha [Examples.beta] ∈ [Examples.alpha; Examples.beta]
  /\ Runner.slowest_of Examples.alpha [Examples.beta] ∈ [Examples.alpha; Examples.beta].
Proof.
  destruct (fastest_and_slowest Examples.alpha [Examples.beta]
              exact_fltb_irrefl exact_fltb_trans) as (Hf & Hs & _).
  split; [exact Hf|exact Hs].
Defined.

(** [--generate-only] returns 0 although the artifact of [add] could not
    be written. *)
Lemma generate_only_outcome_witness :
  Runner.returned
    (Runner.main ExactFloat.dumps Examples.scenario_env Examples.generate_only_args
       Examples.blocked_tree) = inr 0%Z
  /\ Runner.final_tree
       (Runner.main ExactFloat.dumps Examples.scenario_env Examples.generate_only_args
          Examples.blocked_tree) !! Examples.add_path = Some Dir.
Proof.
  destruct (generate_only_outcome ExactFloat.dumps Examples.scenario_env
              Examples.generate_only_args Examples.blocked_tree eq_refl)
    as (_ & _ & _ & Hzero & Htree).
  split.
  - apply Hzero. split; [vm_compute; reflexivity|].
    exists Examples.formal. split; [reflexivity|vm_compute; reflexivity].
  - rewrite Htree. vm_compute. reflexivity.
Defined.

(** The jobs of the scenario leave their work directories and nothing
    else. *)
Lemma scenario_discovered :
  Runner.all_test_files_of Examples.suite_tree Examples.formal Runner.test_categories
  = [ (Examples.formal // "instructions" // "c.sby", "instructions");
      (Examples.formal // "instructions" // "b.sby", "instructions");
      (Examples.formal // "instructions" // "a.sby", "instructions") ].
Proof. vm_compute. reflexivity. Qed.

Lemma scenario_work_dir (job : Path * string) :
  job ∈ Runner.all_test_files_of Examples.suite_tree Examples.formal
          Runner.test_categories ->
  exists n, Examples.work_dir (fst job) = ["formal"; "instructions"; n]
            /\ endswith ".sby" n = false.
Proof.
  rewrite scenario_discovered, !elem_of_cons, elem_of_nil.
  intros [->|[->|[->|[]]]]; [by exists "c"|by exists "b"|by exists "a"].
Qed.

Lemma sby_leaves_lookup (f : Path) (t : fs) (p : Path) :
  p <> Examples.work_dir f -> p <> Examples.work_dir f // "model" ->
  p <> Examples.work_dir f // "model" // "design.log" ->
  Examples.sby_leaves f t !! p = t !! p.
Proof.
  intros H1 H2 H3. unfold Examples.sby_leaves.
  by rewrite !lookup_insert_ne.
Qed.

Lemma scenario_jobs_leave_add (job : Path * string) :
  job ∈ Runner.all_test_files_of Examples.suite_tree Examples.formal
          Runner.test_categories ->
  job_leaves Examples.scenario_env Examples.add_path job.
Proof.
  intros Hjob t. destruct (scenario_work_dir job Hjob) as (n & Hw & Hn).
  cbn [Runner.sby_writes Examples.scenario_env Examples.scenario_world].
  apply sby_leaves_lookup; rewrite Hw; try discriminate.
  intros [= <-]. vm_compute in Hn. discriminate Hn.
Qed.

Lemma scenario_jobs_keep_tests (job : Path * string) :
  job ∈ Runner.all_test_files_of Examples.suite_tree Examples.formal
          Runner.test_categories ->
  job_keeps_tests Examples.scenario_env Examples.formal job.
Proof.
  intros Hjob t sub _. destruct (scenario_work_dir job Hjob) as (n & Hw & Hn).
  cbn [Runner.sby_writes Examples.scenario_env Examples.scenario_world].
  split.
  - apply sby_leaves_lookup; rewrite Hw; discriminate.
  - intros p Hpar Hend. rewrite sby_leaves_lookup; [done|rewrite Hw..].
    + intros ->. change (path_name ["formal"; "instructions"; n]) with n in Hend.
      congruence.
    + intros ->. discriminate Hpar.
    + intros ->. discriminate Hpar.
Qed.

(** The scenario: the suite leaves the work directories of its jobs and
    the report, and discovery afterwards finds the same three jobs. *)
Lemma suite_frame_witness :
  let s := Runner.run_verification_suite ExactFloat.dumps Examples.scenario_env
             Examples.scenario_config Examples.suite_tree Examples.formal None in
  Permutation
    (Runner.all_test_files_of (Runner.suite_tree s) Examples.formal
       Runner.test_categories)
    (Runner.suite_discovered s)
  /\ Runner.suite_tree s !! Examples.add_path = None
  /\ Runner.suite_tree s !! (Examples.formal // "instructions" // "a") = Some Dir.
Proof.
  intros s.
  destruct (suite_frame ExactFloat.dumps Examples.scenario_env Examples.scenario_config
              Examples.suite_tree Examples.formal None)
    as (_ & _ & Hleaves & _ & Hagain).
  fold s in Hleaves, Hagain.
  assert (Hd : Runner.suite_discovered s
               = Runner.all_test_files_of Examples.suite_tree Examples.formal
                   Runner.test_categories)
    by apply suite_discovered_spec.
  split; [|split].
  - apply Hagain. intros job Hjob. apply scenario_jobs_keep_tests. by rewrite <- Hd.
  - rewrite Hleaves; [vm_compute; reflexivity|discriminate|].
    intros job Hjob. apply scenario_jobs_leave_add. by rewrite <- Hd.
  - vm_compute. reflexivity.
Defined.

(** The [instructions] directory exists without the artifact of [add]:
    the run does not create it. *)
Lemma existing_directory_is_not_regenerated_witness :
  let o := Runner.main ExactFloat.dumps Examples.scenario_env Examples.scenario_args
             Examples.suite_tree in
  Runner.final_tree o !! Examples.add_path = None
  /\ length (Runner.discovered o) = 3.
Proof.
  intros o.
  destruct (existing_directory_is_not_regenerated ExactFloat.dumps Examples.scenario_env
              Examples.scenario_args Examples.suite_tree)
    as (Hd & _ & _ & _ & Hframe & _).
  - vm_compute. reflexivity.
  - vm_compute. reflexivity.
  - reflexivity.
  - fold o in Hd, Hframe. split.
    + rewrite Hframe; [vm_compute; reflexivity|discriminate|].
      intros job Hjob. apply scenario_jobs_leave_add. by rewrite Hd in Hjob.
    + rewrite Hd. vm_compute. reflexivity.
Defined.

(** [--workers -1] on the scenario: the three jobs are dropped. *)
Lemma worker_option_witness :
  Runner.returned
    (Runner.main ExactFloat.dumps Examples.scenario_env Scenarios.negative_workers_args
       Examples.suite_tree)
  = inl (ValueError "max_workers must be greater than 0").
Proof.
  destruct (worker_option ExactFloat.dumps Examples.scenario_env
              Scenarios.negative_workers_args Examples.suite_tree) as [_ Hneg].
  - vm_compute. reflexivity.
  - vm_compute. reflexivity.
  - reflexivity.
  - intros E. apply (f_equal length) in E. vm_compute in E. discriminate E.
  - by destruct (Hneg (-1)%Z eq_refl eq_refl) as [H _].
Defined.

(** A first run in a fresh tree discovers the whole catalog. *)
Lemma first_run_covers_catalog_witness :
  Permutation
    (Runner.discovered
       (Runner.main ExactFloat.dumps Examples.scenario_env Examples.scenario_args
          Examples.fresh_tree))
    (catalog_jobs Examples.formal).
Proof.
  refine (proj1 (first_run_covers_catalog ExactFloat.dumps Examples.scenario_env
                   Examples.scenario_args Examples.fresh_tree _ _ _ _ _
                   fresh_tree_opens_artifacts fresh_tree_no_foreign_sby _)).
  - vm_compute. reflexivity.
  - vm_compute. reflexivity.
  - reflexivity.
  - reflexivity.
  - reflexivity.
  - reflexivity.
Defined.

(** The generator's module lies in a directory whose parent is missing:
    the first [mkdir] fails and [main] reports it. *)
Lemma generation_failure_stops_main_witness :
  Runner.output
    (Runner.main ExactFloat.dumps (Scenarios.env_with_generator (Some Scenarios.orphan_dir))
       Examples.scenario_args Examples.fresh_tree)
  = [ "Generating test configurations...";
      "[ERROR] Error generating tests: "
        +:+ "[Errno 2] No such file or directory: 'nowhere/formal/instructions'" ].
Proof.
  pose proof (generation_failure_stops_main ExactFloat.dumps
                (Scenarios.env_with_generator (Some Scenarios.orphan_dir))
                Examples.scenario_args Examples.fresh_tree) as H.
  cbn [Runner.generator_dir Scenarios.env_with_generator] in H.
  destruct (H eq_refl (or_introl eq_refl)
              (OSError "[Errno 2] No such file or directory: 'nowhere/formal/instructions'"))
    as (_ & _ & _ & _ & Hout).
  - vm_compute. reflexivity.
  - exact Hout.
Defined.

(** The artifact of [add] lists the files its script loads. *)
Lemma files_list_what_the_script_loads_witness :
  Script.loaded_files Examples.add_text = Script.listed_files Examples.add_text.
Proof.
  pose proof (files_list_what_the_script_loads "add" eq_refl eq_refl) as H.
  apply Forall_cons_1 in H as [[H _] _]. exact H.
Defined.
